(** * Components contrib: handler, descriptors and class registration

    A shallow embedding of
    [evennia/contrib/base_systems/components/{listing,component,dbfield,holder}.py]
    and the properties of it that the specification states.

    Python objects that are mutated in place (hosts, handlers, the [host]
    slot of a component instance, the global listing) live in one explicit
    [state]; every method is a function in a small state-and-exception
    monad, and an exception carries the state reached when it was raised,
    since Python rolls nothing back. *)

From Stdlib Require Import ZArith.
From stdpp Require Import base option gmap sets list strings.

(** ** Python values *)

(** The values that reach the descriptors: [None], booleans, integers,
    strings, and instances of other classes.  An instance is known by its
    identity; [PyKeyed] is one that has a [key] attribute, [PyObj] one that
    has none. *)
Inductive pyval : Type :=
| PyNone
| PyBool (b : bool)
| PyInt (z : Z)
| PyStr (s : string)
| PyObj (oid : nat)
| PyKeyed (oid : nat) (key : pyval).

#[global] Instance pyval_eq_dec : EqDecision pyval.
Proof. solve_decision. Defined.

(** Values are countable, so that they can be the keys of tags: a value is
    a chain of [PyKeyed] identities that ends in a value of another form. *)
Fixpoint pyval_encode (v : pyval) : list nat * (bool + Z + string + option nat) :=
  match v with
  | PyNone => ([], inr None)
  | PyBool b => ([], inl (inl (inl b)))
  | PyInt z => ([], inl (inl (inr z)))
  | PyStr s => ([], inl (inr s))
  | PyObj i => ([], inr (Some i))
  | PyKeyed i k => let '(l, b) := pyval_encode k in (i :: l, b)
  end.

Definition pyval_decode (p : list nat * (bool + Z + string + option nat)) : pyval :=
  foldr PyKeyed
        match p.2 with
        | inl (inl (inl b)) => PyBool b
        | inl (inl (inr z)) => PyInt z
        | inl (inr s) => PyStr s
        | inr (Some i) => PyObj i
        | inr None => PyNone
        end
        p.1.

#[global] Instance pyval_countable : Countable pyval.
Proof.
  apply (inj_countable' pyval_encode pyval_decode).
  intros v. induction v as [| | | | |i k IH]; try reflexivity.
  simpl. destruct (pyval_encode k) as [l b]. unfold pyval_decode in *.
  simpl in *. by rewrite IH.
Defined.

(** [bool(v)]: instances are true unless their class says otherwise. *)
Definition truthy (v : pyval) : bool :=
  match v with
  | PyNone => false
  | PyBool b => b
  | PyInt z => negb (z =? 0)%Z
  | PyStr s => negb (String.eqb s "")
  | PyObj _ | PyKeyed _ _ => true
  end.

(** [bool(s)] for a string, and for an attribute that may be missing and is
    read with [getattr(_, _, None)]. *)
Definition str_truthy (s : string) : bool := negb (String.eqb s "").

Definition opt_truthy (o : option string) : bool :=
  match o with
  | Some s => str_truthy s
  | None => false
  end.

(** [isinstance(v, str) or isinstance(v, int)]; [bool] is a subclass of
    [int]. *)
Definition is_str_or_int (v : pyval) : bool :=
  match v with
  | PyStr _ | PyInt _ | PyBool _ => true
  | PyNone | PyObj _ | PyKeyed _ _ => false
  end.

(** [getattr(v, "key", None)]. *)
Definition getattr_key (v : pyval) : pyval :=
  match v with
  | PyKeyed _ k => k
  | _ => PyNone
  end.

(** [a == b]: numbers compare by value across [bool] and [int], strings by
    contents, instances by identity. *)
Definition py_eqb (a b : pyval) : bool :=
  match a, b with
  | PyNone, PyNone => true
  | PyBool x, PyBool y => Bool.eqb x y
  | PyBool x, PyInt y => (Z.b2z x =? y)%Z
  | PyInt x, PyBool y => (x =? Z.b2z y)%Z
  | PyInt x, PyInt y => (x =? y)%Z
  | PyStr x, PyStr y => String.eqb x y
  | PyObj i, PyObj j | PyObj i, PyKeyed j _
  | PyKeyed i _, PyObj j | PyKeyed i _, PyKeyed j _ => Nat.eqb i j
  | _, _ => false
  end.

(** [mapping.get(k)] on a mapping given by its items. *)
Fixpoint mapping_get (m : list (pyval * pyval)) (k : pyval) : pyval :=
  match m with
  | [] => PyNone
  | (k', v) :: rest => if py_eqb k' k then v else mapping_get rest k
  end.

(** [d[k] = v] on a dict given by its items, in insertion order. *)
Fixpoint dict_set {V : Type} (d : list (string * V)) (k : string) (v : V)
  : list (string * V) :=
  match d with
  | [] => [(k, v)]
  | (k', v') :: rest =>
      if String.eqb k' k then (k, v) :: rest else (k', v') :: dict_set rest k v
  end.

Fixpoint dict_get {V : Type} (d : list (string * V)) (k : string) : option V :=
  match d with
  | [] => None
  | (k', v) :: rest => if String.eqb k' k then Some v else dict_get rest k
  end.

(** [l.remove(x)]: drops the first occurrence; [None] stands for the
    [ValueError] Python raises when there is none. *)
Fixpoint py_list_remove (x : string) (l : list string) : option (list string) :=
  match l with
  | [] => None
  | y :: rest =>
      if String.eqb y x then Some rest
      else option_map (cons y) (py_list_remove x rest)
  end.

(** [needle in haystack] for strings. *)
Fixpoint str_contains (needle haystack : string) : bool :=
  String.prefix needle haystack ||
  match haystack with
  | EmptyString => false
  | String _ rest => str_contains needle rest
  end.

(** ** Exceptions *)

(** The exception classes the four files raise, with their messages.  An
    [AttributeError] and a [TypeError] come from the interpreter; the first
    records the attribute that was missing. *)
Inductive exn : Type :=
| ValueError (msg : string)
| AssertionError (msg : string)
| AttributeError (attr : string)
| TypeError (msg : string)
| ComponentDoesNotExist (msg : string)
| ComponentIsNotRegistered (msg : string)
| ComponentRegisterError (msg : string).

Definition exn_message (e : exn) : string :=
  match e with
  | ValueError m | AssertionError m | AttributeError m | TypeError m
  | ComponentDoesNotExist m | ComponentIsNotRegistered m
  | ComponentRegisterError m => m
  end.

(** ** Descriptors and classes *)

(** [DBField]: [_key], [_default], [_autocreate]. *)
Record DBField : Type := {
  db_key : string;
  db_default : pyval;
  db_autocreate : bool
}.

(** [NDBField]: the same three attributes, on the in-memory store. *)
Record NDBField : Type := {
  ndb_key : string;
  ndb_default : pyval;
  ndb_autocreate : bool
}.

(** [TagField]: [_category_key] is [None] until the field is attached. *)
Record TagField : Type := {
  tag_category_key : option string;
  tag_default : pyval;
  tag_enforce_single : bool
}.

(** [HostField(DBField)]: the inherited part, [overridable],
    [_fallback_default], [host_attribute]. *)
Record HostField : Type := {
  host_base : DBField;
  overridable : bool;
  _fallback_default : pyval;
  host_attribute : option string
}.

(** [KeyField(DBField)]: the inherited part and the [listing] mapping. *)
Record KeyField : Type := {
  key_base : DBField;
  listing : list (pyval * pyval)
}.

Inductive field : Type :=
| FDB (f : DBField)
| FNDB (f : NDBField)
| FTag (f : TagField)
| FHost (f : HostField)
| FKey (f : KeyField).

(** A component class as the metaclass and the descriptors see it: the
    text [str(cls)] gives, [component_key] and [component_slot] (both [""]
    on [Component] itself; a missing or [None] value is as false as [""]),
    the legacy [name] and the [slot] attribute when the class has them,
    [cmd_set], and the three field tables. *)
Record klass : Type := {
  cls_repr : string;
  component_key : string;
  component_slot : string;
  name : option string;
  slot : option string;
  cmd_set : option nat;
  _db_fields : list (string * field);
  _ndb_fields : list (string * NDBField);
  _tag_fields : list (string * TagField)
}.

(** A component instance: its identity and its class.  Its one slot,
    [host], is mutable and lives in the state. *)
Record instance : Type := {
  inst_id : nat;
  inst_class : klass
}.

(** ** Hosts, handlers and the state *)

(** What [SignalsHandler] keeps for a host. *)
Record signals_obj : Type := {
  listeners : list nat;
  triggered : list string
}.

(** A host: its [name]; the two persisted attributes the handler reads,
    [component_keys] and the legacy [component_names]; the persisted and
    the in-memory attribute stores; the tags as (key, category) pairs; the
    command sets; the other Python attributes [getattr] can find; and the
    two attributes the mixin sets, a handler reference and the signals
    facility. *)
Record host_obj : Type := {
  host_name : string;
  component_keys : option (list string);
  component_names : option (list string);
  attributes : gmap string pyval;
  nattributes : gmap string pyval;
  tags : gset (pyval * option string);
  cmdset : list nat;
  py_attrs : gmap string pyval;
  _component_handler : option nat;
  _signal_handler : option signals_obj
}.

(** [ComponentHandler]: [host] and [_loaded_components]. *)
Record handler_obj : Type := {
  host : nat;
  _loaded_components : gmap string instance
}.

Record state : Type := {
  COMPONENT_LISTING : gmap (option string) klass;
  hosts : gmap nat host_obj;
  handlers : gmap nat handler_obj;
  host_of : gmap nat nat;
  next_id : nat
}.

(** A reference always denotes an object: an identifier the maps do not
    hold yet denotes a pristine one. *)
#[global] Instance host_obj_inhabited : Inhabited host_obj :=
  populate {| host_name := ""; component_keys := None; component_names := None;
              attributes := ∅; nattributes := ∅; tags := ∅; cmdset := [];
              py_attrs := ∅; _component_handler := None;
              _signal_handler := None |}.

#[global] Instance handler_obj_inhabited : Inhabited handler_obj :=
  populate {| host := 0; _loaded_components := ∅ |}.

(** ** The state-and-exception monad *)

Inductive result (A : Type) : Type :=
| Ok (a : A) (s : state)
| Raise (e : exn) (s : state).
Arguments Ok {A} a s.
Arguments Raise {A} e s.

Definition M (A : Type) : Type := state → result A.

Definition ret {A : Type} (a : A) : M A := λ s, Ok a s.

Definition raise {A : Type} (e : exn) : M A := λ s, Raise e s.

Definition bind {A B : Type} (m : M A) (k : A → M B) : M B :=
  λ s, match m s with
       | Ok a s' => k a s'
       | Raise e s' => Raise e s'
       end.

Declare Scope py_scope.
Delimit Scope py_scope with py.
Notation "x <- m ;; k" := (bind m (λ x, k))
  (at level 100, m at next level, right associativity) : py_scope.
Notation "m ;;; k" := (bind m (λ _, k))
  (at level 100, right associativity) : py_scope.
Local Open Scope py_scope.

Definition gets {A : Type} (f : state → A) : M A := λ s, Ok (f s) s.

Definition modify (f : state → state) : M unit := λ s, Ok tt (f s).

(** [for x in l: body]. *)
Fixpoint for_each {A : Type} (l : list A) (body : A → M unit) : M unit :=
  match l with
  | [] => ret tt
  | x :: rest => body x ;;; for_each rest body
  end.

(** The state a computation leaves, whether it returned or raised. *)
Definition final_state {A : Type} (r : result A) : state :=
  match r with
  | Ok _ s => s
  | Raise _ s => s
  end.

Definition raised {A : Type} (r : result A) : option exn :=
  match r with
  | Ok _ _ => None
  | Raise e _ => Some e
  end.

(** ** Updating the state *)

Definition with_listing (f : gmap (option string) klass → gmap (option string) klass)
    (s : state) : state :=
  {| COMPONENT_LISTING := f (COMPONENT_LISTING s); hosts := hosts s;
     handlers := handlers s; host_of := host_of s; next_id := next_id s |}.

Definition with_hosts (f : gmap nat host_obj → gmap nat host_obj) (s : state) : state :=
  {| COMPONENT_LISTING := COMPONENT_LISTING s; hosts := f (hosts s);
     handlers := handlers s; host_of := host_of s; next_id := next_id s |}.

Definition with_handlers (f : gmap nat handler_obj → gmap nat handler_obj)
    (s : state) : state :=
  {| COMPONENT_LISTING := COMPONENT_LISTING s; hosts := hosts s;
     handlers := f (handlers s); host_of := host_of s; next_id := next_id s |}.

Definition with_host_of (f : gmap nat nat → gmap nat nat) (s : state) : state :=
  {| COMPONENT_LISTING := COMPONENT_LISTING s; hosts := hosts s;
     handlers := handlers s; host_of := f (host_of s); next_id := next_id s |}.

Definition with_next_id (n : nat) (s : state) : state :=
  {| COMPONENT_LISTING := COMPONENT_LISTING s; hosts := hosts s;
     handlers := handlers s; host_of := host_of s; next_id := n |}.

Definition set_component_keys (l : option (list string)) (o : host_obj) : host_obj :=
  {| host_name := host_name o; component_keys := l;
     component_names := component_names o; attributes := attributes o;
     nattributes := nattributes o; tags := tags o; cmdset := cmdset o;
     py_attrs := py_attrs o; _component_handler := _component_handler o;
     _signal_handler := _signal_handler o |}.

Definition set_attributes (a : gmap string pyval) (o : host_obj) : host_obj :=
  {| host_name := host_name o; component_keys := component_keys o;
     component_names := component_names o; attributes := a;
     nattributes := nattributes o; tags := tags o; cmdset := cmdset o;
     py_attrs := py_attrs o; _component_handler := _component_handler o;
     _signal_handler := _signal_handler o |}.

Definition set_nattributes (a : gmap string pyval) (o : host_obj) : host_obj :=
  {| host_name := host_name o; component_keys := component_keys o;
     component_names := component_names o; attributes := attributes o;
     nattributes := a; tags := tags o; cmdset := cmdset o;
     py_attrs := py_attrs o; _component_handler := _component_handler o;
     _signal_handler := _signal_handler o |}.

Definition set_tags (t : gset (pyval * option string)) (o : host_obj) : host_obj :=
  {| host_name := host_name o; component_keys := component_keys o;
     component_names := component_names o; attributes := attributes o;
     nattributes := nattributes o; tags := t; cmdset := cmdset o;
     py_attrs := py_attrs o; _component_handler := _component_handler o;
     _signal_handler := _signal_handler o |}.

Definition set_cmdset (c : list nat) (o : host_obj) : host_obj :=
  {| host_name := host_name o; component_keys := component_keys o;
     component_names := component_names o; attributes := attributes o;
     nattributes := nattributes o; tags := tags o; cmdset := c;
     py_attrs := py_attrs o; _component_handler := _component_handler o;
     _signal_handler := _signal_handler o |}.

Definition set_component_handler (r : option nat) (o : host_obj) : host_obj :=
  {| host_name := host_name o; component_keys := component_keys o;
     component_names := component_names o; attributes := attributes o;
     nattributes := nattributes o; tags := tags o; cmdset := cmdset o;
     py_attrs := py_attrs o; _component_handler := r;
     _signal_handler := _signal_handler o |}.

Definition set_signal_handler (g : option signals_obj) (o : host_obj) : host_obj :=
  {| host_name := host_name o; component_keys := component_keys o;
     component_names := component_names o; attributes := attributes o;
     nattributes := nattributes o; tags := tags o; cmdset := cmdset o;
     py_attrs := py_attrs o; _component_handler := _component_handler o;
     _signal_handler := g |}.

Definition set_loaded (c : gmap string instance) (o : handler_obj) : handler_obj :=
  {| host := host o; _loaded_components := c |}.

Definition read_host {A : Type} (h : nat) (f : host_obj → A) : M A :=
  gets (λ s, f (hosts s !!! h)).

Definition update_host (h : nat) (f : host_obj → host_obj) : M unit :=
  modify (with_hosts (λ hs, <[h := f (hs !!! h)]> hs)).

Definition read_handler {A : Type} (r : nat) (f : handler_obj → A) : M A :=
  gets (λ s, f (handlers s !!! r)).

Definition update_handler (r : nat) (f : handler_obj → handler_obj) : M unit :=
  modify (with_handlers (λ hs, <[r := f (hs !!! r)]> hs)).

(** ** The collaborators of a host *)

(** Modelled from the spec: the tag store of a host ([tags.py] is not among
    the sources), "add(key, category), remove(key, category),
    clear(category)": a set of (key, category) pairs. *)
Definition tags_add (key : pyval) (category : option string)
    (t : gset (pyval * option string)) : gset (pyval * option string) :=
  t ∪ {[ (key, category) ]}.

Definition tags_remove (key : pyval) (category : option string)
    (t : gset (pyval * option string)) : gset (pyval * option string) :=
  t ∖ {[ (key, category) ]}.

Definition tags_clear (category : option string)
    (t : gset (pyval * option string)) : gset (pyval * option string) :=
  filter (λ kc, kc.2 ≠ category) t.

(** The tags a host carries in one category. *)
Definition tags_in (category : option string)
    (t : gset (pyval * option string)) : gset (pyval * option string) :=
  filter (λ kc, kc.2 = category) t.

(** Modelled from the spec: the command-set registry of a host,
    "add(cmdset), remove(cmdset)"; removing one that is not there does
    nothing. *)
Definition cmdset_add (c : nat) (l : list nat) : list nat := l ++ [c].

Definition cmdset_remove (c : nat) (l : list nat) : list nat :=
  filter (λ x, x ≠ c) l.

(** Modelled from the spec: the signal facility ([signals.py] is not among
    the sources), "trigger(event_name, *args),
    add_object_listeners_and_responders(instance),
    remove_object_listeners_and_responders(instance)": the instances wired
    in, and the events triggered so far. *)
Definition add_object_listeners_and_responders (c : instance) (g : signals_obj)
  : signals_obj :=
  {| listeners := listeners g ++ [inst_id c]; triggered := triggered g |}.

Definition remove_object_listeners_and_responders (c : instance) (g : signals_obj)
  : signals_obj :=
  {| listeners := filter (λ x, x ≠ inst_id c) (listeners g);
     triggered := triggered g |}.

Definition trigger (event : string) (g : signals_obj) : signals_obj :=
  {| listeners := listeners g; triggered := triggered g ++ [event] |}.

(** [host.signals.<method>(...)]: the [signals] property is
    [getattr(self, "_signal_handler", None)], so the call fails on a host
    that has none. *)
Definition host_signals (h : nat) (method : string) (f : signals_obj → signals_obj)
  : M unit :=
  g <- read_host h _signal_handler ;;
  match g with
  | Some g => update_host h (set_signal_handler (Some (f g)))
  | None => raise (AttributeError method)
  end.

(** [getattr(host, a, None)] on a host object. *)
Definition host_getattr (o : host_obj) (a : string) : option pyval :=
  if String.eqb a "name" then Some (PyStr (host_name o)) else py_attrs o !! a.

(** ** listing.py *)

(** [get_component_class(component_key)]. *)
Definition get_component_class (component_key : string) : M klass :=
  component_class <- gets (λ s, COMPONENT_LISTING s !! Some component_key) ;;
  match component_class with
  | None =>
      raise (ComponentDoesNotExist
               ("Component with key " +:+ component_key +:+
                " has not been found. " +:+
                "Make sure it has been imported before being used."))
  | Some component_class => ret component_class
  end.

(** ** component.py *)

(** [BaseComponent.__new__], after [super().__new__] has built
    [new_type]. *)
Definition BaseComponent___new__ (new_type : klass) : M klass :=
  let component_key := component_key new_type in
  let component_slot := component_slot new_type in
  if negb (str_truthy component_key) && negb (str_truthy component_slot) then
    let legacy_name := name new_type in
    modify (with_listing (λ l, <[legacy_name := new_type]> l)) ;;;
    ret new_type
  else if negb (str_truthy component_key) then
    raise (ValueError ("A component_key is required for " +:+ cls_repr new_type))
  else if negb (str_truthy component_slot) then
    raise (ValueError ("A component_slot is required for " +:+ cls_repr new_type))
  else
    modify (with_listing (λ l, <[Some component_key := new_type]> l)) ;;;
    ret new_type.

(** [Component.get_component_key] and [Component.get_component_slot]. *)
Definition get_component_key (cls : klass) : string :=
  let key := component_key cls in
  if str_truthy key then key else default "" (name cls).

Definition get_component_slot (cls : klass) : string :=
  let slot_key := component_slot cls in
  if str_truthy slot_key then slot_key else default "" (name cls).

(** [self.host]. *)
Definition Component_host (self : instance) : M (option nat) :=
  gets (λ s, host_of s !! inst_id self).

(** [self.host = h]. *)
Definition Component_set_host (self : instance) (h : option nat) : M unit :=
  modify (with_host_of (λ m, match h with
                             | Some h => <[inst_id self := h]> m
                             | None => delete (inst_id self) m
                             end)).

(** [Component.__init__], with the allocation of the new object. *)
Definition Component___init__ (cls : klass) (host : option nat) : M instance :=
  if str_truthy (component_slot cls) && str_truthy (component_key cls)
     || opt_truthy (name cls)
  then
    n <- gets next_id ;;
    let self := {| inst_id := n; inst_class := cls |} in
    modify (with_next_id (S n)) ;;;
    Component_set_host self host ;;;
    ret self
  else raise (AssertionError "All Components must have a slot and a key").

(** [Component.default_create] and [Component.load]. *)
Definition Component_default_create (cls : klass) (host : nat) : M instance :=
  Component___init__ cls (Some host).

Definition Component_load (cls : klass) (host : nat) : M instance :=
  Component___init__ cls (Some host).

(** [Component.at_added]. *)
Definition Component_at_added (self : instance) (host : nat) : M unit :=
  self_host <- Component_host self ;;
  match self_host with
  | Some h =>
      if decide (h ≠ host) then
        raise (ComponentRegisterError "Components must not register twice!")
      else
        match cmd_set (inst_class self) with
        | Some c => update_host h (λ o, set_cmdset (cmdset_add c (cmdset o)) o)
        | None => ret tt
        end ;;;
        Component_set_host self (Some host)
  | None =>
      match cmd_set (inst_class self) with
      | Some c => raise (AttributeError "cmdset")
      | None => ret tt
      end ;;;
      Component_set_host self (Some host)
  end.

(** [Component.at_removed]. *)
Definition Component_at_removed (self : instance) (host : nat) : M unit :=
  self_host <- Component_host self ;;
  match self_host with
  | Some h =>
      if decide (host ≠ h) then
        raise (ValueError "Component attempted to remove from the wrong host.")
      else
        match cmd_set (inst_class self) with
        | Some c => update_host h (λ o, set_cmdset (cmdset_remove c (cmdset o)) o)
        | None => ret tt
        end ;;;
        Component_set_host self None
  | None =>
      raise (ValueError "Component attempted to remove from the wrong host.")
  end.

(** [Component.attributes] and [Component.nattributes]: the host whose
    store it is. *)
Definition Component_attributes (self : instance) : M nat :=
  h <- Component_host self ;;
  match h with
  | Some h => ret h
  | None => raise (AttributeError "attributes")
  end.

Definition Component_nattributes (self : instance) : M nat :=
  h <- Component_host self ;;
  match h with
  | Some h => ret h
  | None => raise (AttributeError "nattributes")
  end.

(** [db_field_names], [ndb_field_names], [tag_field_names]. *)
Definition db_field_names (self : instance) : list string :=
  (_db_fields (inst_class self)).*1.

Definition ndb_field_names (self : instance) : list string :=
  (_ndb_fields (inst_class self)).*1.

Definition tag_field_names (self : instance) : list string :=
  (_tag_fields (inst_class self)).*1.

(** ** dbfield.py *)

(** A method that touches no shared object returns or raises. *)
Inductive outcome (A : Type) : Type :=
| Returns (a : A)
| Raises (e : exn).
Arguments Returns {A} a.
Arguments Raises {A} e.

(** Modelled from the spec: [add_field], which every descriptor calls on
    the owner class and component.py does not define.  "Registered into the
    owning component class's field table ([_db_fields], [_ndb_fields],
    [_tag_fields])": the field goes, under its name, into the table of its
    kind, a [HostField] and a [KeyField] being [DBField]s. *)
Definition add_field (owner : klass) (fname : string) (f : field) : klass :=
  {| cls_repr := cls_repr owner;
     component_key := component_key owner;
     component_slot := component_slot owner;
     name := name owner;
     slot := slot owner;
     cmd_set := cmd_set owner;
     _db_fields := match f with
                   | FDB _ | FHost _ | FKey _ => dict_set (_db_fields owner) fname f
                   | FNDB _ | FTag _ => _db_fields owner
                   end;
     _ndb_fields := match f with
                    | FNDB n => dict_set (_ndb_fields owner) fname n
                    | _ => _ndb_fields owner
                    end;
     _tag_fields := match f with
                    | FTag t => dict_set (_tag_fields owner) fname t
                    | _ => _tag_fields owner
                    end |}.

(** The table a field of this kind is entered in, read back. *)
Definition field_table_get (owner : klass) (fname : string) (f : field)
  : option field :=
  match f with
  | FDB _ | FHost _ | FKey _ => dict_get (_db_fields owner) fname
  | FNDB _ => FNDB <$> dict_get (_ndb_fields owner) fname
  | FTag _ => FTag <$> dict_get (_tag_fields owner) fname
  end.

(** The storage key (for a [TagField], the category) a field carries. *)
Definition field_key (f : field) : option string :=
  match f with
  | FDB d => Some (db_key d)
  | FNDB n => Some (ndb_key n)
  | FTag t => tag_category_key t
  | FHost h => Some (db_key (host_base h))
  | FKey k => Some (db_key (key_base k))
  end.

Definition DBField_with_key (k : string) (self : DBField) : DBField :=
  {| db_key := k; db_default := db_default self;
     db_autocreate := db_autocreate self |}.

(** [DBField.__set_name__]: the descriptor and the owner class after the
    call. *)
Definition DBField___set_name__ (self : DBField) (owner : klass) (fname : string)
  : outcome (field * klass) :=
  let self := DBField_with_key (get_component_slot owner +:+ "::" +:+ fname) self in
  Returns (FDB self, add_field owner fname (FDB self)).

(** [NDBField.__set_name__]. *)
Definition NDBField___set_name__ (self : NDBField) (owner : klass) (fname : string)
  : outcome (field * klass) :=
  let self := {| ndb_key := get_component_slot owner +:+ "::" +:+ fname;
                 ndb_default := ndb_default self;
                 ndb_autocreate := ndb_autocreate self |} in
  Returns (FNDB self, add_field owner fname (FNDB self)).

(** [TagField.__set_name__]. *)
Definition TagField___set_name__ (self : TagField) (owner : klass) (fname : string)
  : outcome (field * klass) :=
  let self := {| tag_category_key :=
                   Some (get_component_slot owner +:+ "::" +:+ fname);
                 tag_default := tag_default self;
                 tag_enforce_single := tag_enforce_single self |} in
  Returns (FTag self, add_field owner fname (FTag self)).

(** [owner.slot or owner.name], on a class that may have neither
    attribute. *)
Definition slot_or_name (owner : klass) : outcome string :=
  match slot owner with
  | None => Raises (AttributeError "slot")
  | Some s =>
      if str_truthy s then Returns s
      else match name owner with
           | None => Raises (AttributeError "name")
           | Some n => Returns n
           end
  end.

(** [HostField.__set_name__]. *)
Definition HostField___set_name__ (self : HostField) (owner : klass) (fname : string)
  : outcome (field * klass) :=
  match slot_or_name owner with
  | Raises e => Raises e
  | Returns slot_name =>
      let self := {| host_base :=
                       DBField_with_key (slot_name +:+ "::" +:+ fname) (host_base self);
                     overridable := overridable self;
                     _fallback_default := _fallback_default self;
                     host_attribute :=
                       match host_attribute self with
                       | None => Some (slot_name +:+ "_" +:+ fname)
                       | Some a => Some a
                       end |} in
      Returns (FHost self, add_field owner fname (FHost self))
  end.

(** [KeyField.__set_name__]. *)
Definition KeyField___set_name__ (self : KeyField) (owner : klass) (fname : string)
  : outcome (field * klass) :=
  match slot_or_name owner with
  | Raises e => Raises e
  | Returns slot_name =>
      let self := {| key_base :=
                       DBField_with_key (slot_name +:+ "::" +:+ fname +:+ "_key")
                                        (key_base self);
                     listing := listing self |} in
      Returns (FKey self, add_field owner fname (FKey self))
  end.

(** [descriptor.__set_name__(owner, name)], by the class of the
    descriptor. *)
Definition field___set_name__ (f : field) (owner : klass) (fname : string)
  : outcome (field * klass) :=
  match f with
  | FDB d => DBField___set_name__ d owner fname
  | FNDB n => NDBField___set_name__ n owner fname
  | FTag t => TagField___set_name__ t owner fname
  | FHost h => HostField___set_name__ h owner fname
  | FKey k => KeyField___set_name__ k owner fname
  end.

(** [HostField.__init__] and [KeyField.__init__]; the [DBField] part of a
    [HostField] keeps the default [None]. *)
Definition HostField___init__ (default : pyval) (autocreate overridable : bool)
    (host_attribute : option string) : HostField :=
  {| host_base := {| db_key := ""; db_default := PyNone;
                     db_autocreate := autocreate |};
     overridable := overridable;
     _fallback_default := default;
     host_attribute := host_attribute |}.

Definition KeyField___init__ (listing : list (pyval * pyval)) (default : pyval)
    (autocreate : bool) : outcome KeyField :=
  let mk d := {| key_base := {| db_key := ""; db_default := d;
                                db_autocreate := autocreate |};
                 listing := listing |} in
  if negb (py_eqb default PyNone) && negb (is_str_or_int default) then
    let key := getattr_key default in
    if negb (truthy key) then
      Raises (ValueError "Only str, int, or instances with keys are supported")
    else Returns (mk key)
  else Returns (mk default).

(** Modelled from the spec: [AttributeProperty] and [NAttributeProperty],
    the bases of [DBField] and [NDBField] ([attributes.py] is not among the
    sources), over the "keyed attribute store: get(key, default) -> value,
    set(key, value), delete(key), scoped separately for persisted vs.
    in-memory values".  The store is reached through [instance.attributes],
    which is the one of the host. *)
Definition AttributeProperty___get__ (self : DBField) (inst : instance) : M pyval :=
  h <- Component_attributes inst ;;
  read_host h (λ o, default (db_default self) (attributes o !! db_key self)).

Definition AttributeProperty___set__ (self : DBField) (inst : instance)
    (value : pyval) : M unit :=
  h <- Component_attributes inst ;;
  update_host h (λ o, set_attributes (<[db_key self := value]> (attributes o)) o).

Definition AttributeProperty___delete__ (self : DBField) (inst : instance) : M unit :=
  h <- Component_attributes inst ;;
  update_host h (λ o, set_attributes (delete (db_key self) (attributes o)) o).

Definition NAttributeProperty___get__ (self : NDBField) (inst : instance) : M pyval :=
  h <- Component_nattributes inst ;;
  read_host h (λ o, default (ndb_default self) (nattributes o !! ndb_key self)).

Definition NAttributeProperty___set__ (self : NDBField) (inst : instance)
    (value : pyval) : M unit :=
  h <- Component_nattributes inst ;;
  update_host h (λ o, set_nattributes (<[ndb_key self := value]> (nattributes o)) o).

Definition NAttributeProperty___delete__ (self : NDBField) (inst : instance)
  : M unit :=
  h <- Component_nattributes inst ;;
  update_host h (λ o, set_nattributes (delete (ndb_key self) (nattributes o)) o).

(** [instance.host.tags], which fails on an instance without a host. *)
Definition instance_host_tags (inst : instance) : M nat :=
  h <- Component_host inst ;;
  match h with
  | Some h => ret h
  | None => raise (AttributeError "tags")
  end.

(** [TagField.__set__]. *)
Definition TagField___set__ (self : TagField) (inst : instance) (value : pyval)
  : M unit :=
  tag_handler <- instance_host_tags inst ;;
  (if tag_enforce_single self then
     update_host tag_handler
       (λ o, set_tags (tags_clear (tag_category_key self) (tags o)) o)
   else ret tt) ;;;
  update_host tag_handler
    (λ o, set_tags (tags_add value (tag_category_key self) (tags o)) o).

(** [TagField.__delete__]. *)
Definition TagField___delete__ (self : TagField) (inst : instance) : M unit :=
  h <- instance_host_tags inst ;;
  update_host h (λ o, set_tags (tags_clear (tag_category_key self) (tags o)) o).

(** [TagField.at_added] and [TagField.at_removed]. *)
Definition TagField_at_added (self : TagField) (component : instance) : M unit :=
  if truthy (tag_default self) then
    TagField___set__ self component (tag_default self)
  else ret tt.

Definition TagField_at_removed (self : TagField) (component : instance) : M unit :=
  TagField___delete__ self component.

(** [HostField.__get__]. *)
Definition HostField___get__ (self : HostField) (inst : instance) : M pyval :=
  let fall_through : M pyval :=
    match host_attribute self with
    | None => raise (TypeError "attribute name must be string")
    | Some a =>
        h <- Component_host inst ;;
        match h with
        | Some h =>
            read_host h (λ o, default (_fallback_default self) (host_getattr o a))
        | None => ret (_fallback_default self)
        end
    end in
  if overridable self then
    override <- AttributeProperty___get__ (host_base self) inst ;;
    if negb (py_eqb override PyNone) then ret override else fall_through
  else fall_through.

(** [HostField.__set__]. *)
Definition HostField___set__ (self : HostField) (inst : instance) (value : pyval)
  : M unit :=
  if overridable self then AttributeProperty___set__ (host_base self) inst value
  else raise (AssertionError "Cannot set a non-overridable host field").

(** [KeyField.__get__]. *)
Definition KeyField___get__ (self : KeyField) (inst : instance) : M pyval :=
  key <- AttributeProperty___get__ (key_base self) inst ;;
  ret (mapping_get (listing self) key).

(** [KeyField.__set__]. *)
Definition KeyField___set__ (self : KeyField) (inst : instance) (value : pyval)
  : M unit :=
  if negb (is_str_or_int value) then
    let key := getattr_key value in
    if negb (truthy key) then
      raise (ValueError "Only str, int, or instances with keys are supported")
    else AttributeProperty___set__ (key_base self) inst key
  else AttributeProperty___set__ (key_base self) inst value.

(** [setattr(component, attr, value)]: a descriptor of the class takes the
    assignment; any other name is an ordinary instance attribute, which
    nothing here reads back. *)
Definition setattr (component : instance) (attr : string) (value : pyval) : M unit :=
  let cls := inst_class component in
  match dict_get (_db_fields cls) attr, dict_get (_ndb_fields cls) attr,
        dict_get (_tag_fields cls) attr with
  | Some (FDB f), _, _ => AttributeProperty___set__ f component value
  | Some (FHost f), _, _ => HostField___set__ f component value
  | Some (FKey f), _, _ => KeyField___set__ f component value
  | _, Some f, _ => NAttributeProperty___set__ f component value
  | _, _, Some f => TagField___set__ f component value
  | _, _, None => ret tt
  end.

(** [Component.create], the keyword arguments in call order. *)
Definition Component_create (cls : klass) (host : nat)
    (kwargs : list (string * pyval)) : M instance :=
  new <- Component_default_create cls host ;;
  for_each kwargs (λ kv, setattr new kv.1 kv.2) ;;;
  ret new.

(** [Component.cleanup]: [delattr] on every name of the two tables. *)
Definition cleanup (self : instance) : M unit :=
  for_each (_db_fields (inst_class self))
    (λ nf, match nf.2 with
           | FDB f => AttributeProperty___delete__ f self
           | FHost f => AttributeProperty___delete__ (host_base f) self
           | FKey f => AttributeProperty___delete__ (key_base f) self
           | FNDB _ | FTag _ => ret tt
           end) ;;;
  for_each (_ndb_fields (inst_class self))
    (λ nf, NAttributeProperty___delete__ nf.2 self).

(** ** holder.py: ComponentHandler *)

(** The [db_keys] property: the persisted list, created on first use from
    the legacy [component_names]. *)
Definition db_keys (self : nat) : M (list string) :=
  h <- read_handler self host ;;
  component_keys <- read_host h component_keys ;;
  match component_keys with
  | Some l => ret l
  | None =>
      legacy_names <- read_host h component_names ;;
      let l := match legacy_names with
               | Some (n :: rest) => [] ++ n :: rest
               | _ => []
               end in
      update_host h (set_component_keys (Some l)) ;;;
      ret l
  end.

(** [self.db_keys.append(k)] and [self.db_keys.remove(k)], which change the
    persisted list in place. *)
Definition db_keys_append (self : nat) (k : string) : M unit :=
  l <- db_keys self ;;
  h <- read_handler self host ;;
  update_host h (set_component_keys (Some (l ++ [k]))).

Definition db_keys_remove (self : nat) (k : string) : M unit :=
  l <- db_keys self ;;
  h <- read_handler self host ;;
  match py_list_remove k l with
  | Some l' => update_host h (set_component_keys (Some l'))
  | None => raise (ValueError "list.remove(x): x not in list")
  end.

(** [ComponentHandler.__init__], with the allocation of the handler. *)
Definition ComponentHandler___init__ (host : nat) : M nat :=
  r <- gets next_id ;;
  modify (with_next_id (S r)) ;;;
  modify (with_handlers (λ hs, <[r := {| host := host;
                                         _loaded_components := ∅ |}]> hs)) ;;;
  ret r.

(** [ComponentHandler._set_component]. *)
Definition _set_component (self : nat) (component : instance) : M unit :=
  let component_key := get_component_key (inst_class component) in
  let slot_key := get_component_slot (inst_class component) in
  update_handler self
    (λ o, set_loaded (<[slot_key := component]> (_loaded_components o)) o) ;;;
  update_handler self
    (λ o, set_loaded (<[component_key := component]> (_loaded_components o)) o) ;;;
  h <- read_handler self host ;;
  host_signals h "add_object_listeners_and_responders"
    (add_object_listeners_and_responders component).

(** [ComponentHandler._add_component_tags]. *)
Definition _add_component_tags (self : nat) (component : instance) : M unit :=
  let slot_key := get_component_slot (inst_class component) in
  h <- read_handler self host ;;
  update_host h
    (λ o, set_tags (tags_add (PyStr slot_key) (Some "components") (tags o)) o) ;;;
  for_each (_tag_fields (inst_class component))
    (λ nf, let default_tag := tag_default nf.2 in
           if truthy default_tag then TagField___set__ nf.2 component default_tag
           else ret tt).

(** [ComponentHandler._remove_component_tags]. *)
Definition _remove_component_tags (self : nat) (component : instance) : M unit :=
  h <- read_handler self host ;;
  update_host h
    (λ o, set_tags (tags_remove (PyStr (get_component_key (inst_class component)))
                                (Some "components") (tags o)) o) ;;;
  for_each (_tag_fields (inst_class component))
    (λ nf, TagField___delete__ nf.2 component).

(** [ComponentHandler.add]. *)
Definition ComponentHandler_add (self : nat) (component : instance) : M unit :=
  let component_key := get_component_key (inst_class component) in
  db_keys_append self component_key ;;;
  _set_component self component ;;;
  _add_component_tags self component ;;;
  h <- read_handler self host ;;
  Component_at_added component h.

(** [ComponentHandler.add_default]. *)
Definition add_default (self : nat) (key : string) : M unit :=
  component_class <- get_component_class key ;;
  h <- read_handler self host ;;
  component_instance <- Component_default_create component_class h ;;
  ComponentHandler_add self component_instance.

(** [ComponentHandler.get_by_key], [get_by_slot] and [has_slot]. *)
Definition get_by_key (self : nat) (component_key : string) : M (option instance) :=
  read_handler self (λ o, _loaded_components o !! component_key).

Definition get_by_slot (self : nat) (slot_key : string) : M (option instance) :=
  read_handler self (λ o, _loaded_components o !! slot_key).

Definition has_slot (self : nat) (slot_key : string) : M bool :=
  read_handler self (λ o, bool_decide (is_Some (_loaded_components o !! slot_key))).

(** [ComponentHandler.remove]. *)
Definition ComponentHandler_remove (self : nat) (component : instance) : M unit :=
  let slot_key := get_component_slot (inst_class component) in
  h <- read_handler self host ;;
  registered <- has_slot self slot_key ;;
  if negb registered then
    name <- read_host h host_name ;;
    raise (ComponentIsNotRegistered
             ("Cannot remove " +:+ slot_key +:+ " from " +:+ name +:+
              " as it is not registered."))
  else
    Component_at_removed component h ;;;
    match cmd_set (inst_class component) with
    | Some c => update_host h (λ o, set_cmdset (cmdset_remove c (cmdset o)) o)
    | None => ret tt
    end ;;;
    _remove_component_tags self component ;;;
    host_signals h "remove_object_listeners_and_responders"
      (remove_object_listeners_and_responders component) ;;;
    db_keys_remove self slot_key ;;;
    update_handler self
      (λ o, set_loaded (delete slot_key (_loaded_components o)) o).

(** [ComponentHandler.remove_by_slot_key]. *)
Definition remove_by_slot_key (self : nat) (slot_key : string) : M unit :=
  inst <- get_by_slot self slot_key ;;
  match inst with
  | None =>
      h <- read_handler self host ;;
      name <- read_host h host_name ;;
      raise (ComponentIsNotRegistered
               ("Cannot remove " +:+ slot_key +:+ " from " +:+ name +:+
                " as it is not registered."))
  | Some inst => ComponentHandler_remove self inst
  end.

(** [bool(cls)] for a class object. *)
Definition klass_truthy (cls : klass) : bool := true.

(** [ComponentHandler.initialize]. *)
Definition initialize (self : nat) : M unit :=
  component_keys <- db_keys self ;;
  match component_keys with
  | [] => ret tt
  | _ =>
      for_each component_keys
        (λ component_key,
           component <- get_component_class component_key ;;
           h <- read_handler self host ;;
           if klass_truthy component then
             component_instance <- Component_load component h ;;
             _set_component self component_instance
           else
             name <- read_host h host_name ;;
             raise (ComponentDoesNotExist
                      ("Could not initialize runtime component " +:+
                       component_key +:+ " of " +:+ name)))
  end.

(** ** holder.py: ComponentHolderMixin *)

(** The [components], [cmp] and [signals] properties. *)
Definition components (self : nat) : M (option nat) :=
  read_host self _component_handler.

Definition cmp (self : nat) : M (option nat) := components self.

Definition signals (self : nat) : M (option signals_obj) :=
  read_host self _signal_handler.

(** The two [setattr] calls that open [at_init] and [basetype_setup]. *)
Definition install_handlers (self : nat) : M unit :=
  r <- ComponentHandler___init__ self ;;
  update_host self (set_component_handler (Some r)) ;;;
  update_host self
    (set_signal_handler (Some {| listeners := []; triggered := [] |})).

(** [ComponentHolderMixin.at_init]; the inherited [at_init] is the host's
    own. *)
Definition at_init (self : nat) : M unit :=
  install_handlers self ;;;
  c <- components self ;;
  match c with
  | Some r => initialize r
  | None => raise (AttributeError "initialize")
  end ;;;
  host_signals self "trigger" (trigger "at_after_init").

(** [ComponentHolderMixin.basetype_setup], for a class whose
    [_class_components] is [class_components]. *)
Definition basetype_setup (self : nat)
    (class_components : list (string * list (string * pyval))) : M unit :=
  install_handlers self ;;;
  for_each class_components
    (λ kv, component_class <- get_component_class kv.1 ;;
           component <- Component_create component_class self kv.2 ;;
           c <- components self ;;
           match c with
           | Some r => ComponentHandler_add r component
           | None => raise (AttributeError "add")
           end) ;;;
  host_signals self "trigger" (trigger "at_basetype_setup").

(** ** Example classes and states *)

Definition no_fields (repr key slot_key : string) (legacy : option string) : klass :=
  {| cls_repr := repr; component_key := key; component_slot := slot_key;
     name := legacy; slot := None; cmd_set := None;
     _db_fields := []; _ndb_fields := []; _tag_fields := [] |}.

(** [Component] itself: no key, no slot, no [name]. *)
Definition Component_class : klass :=
  no_fields "<class 'Component'>" "" "" None.

(** A class whose key and slot differ, and one where they are the same. *)
Definition Health : klass := no_fields "<class 'Health'>" "hp" "health" None.

Definition Mana : klass := no_fields "<class 'Mana'>" "mana" "mana" None.

Definition named_host (n : string) : host_obj :=
  {| host_name := n; component_keys := None; component_names := None;
     attributes := ∅; nattributes := ∅; tags := ∅; cmdset := [];
     py_attrs := ∅; _component_handler := None; _signal_handler := None |}.

(** One host, number 0, called Bob, and nothing else. *)
Definition bob_alone : state :=
  {| COMPONENT_LISTING := ∅; hosts := {[ 0 := named_host "Bob" ]};
     handlers := ∅; host_of := ∅; next_id := 1 |}.

(** An instance, number 3, bound to host 7. *)
Definition bound_to_7 : state :=
  {| COMPONENT_LISTING := ∅; hosts := ∅; handlers := ∅;
     host_of := {[ 3 := 7 ]}; next_id := 4 |}.


(** A host, number 0, with one plain attribute, and an instance, number 1,
    bound to it. *)
Definition strong_host : host_obj :=
  {| host_name := "Bob"; component_keys := None; component_names := None;
     attributes := ∅; nattributes := ∅; tags := ∅; cmdset := [];
     py_attrs := {[ "strength" := PyInt 12 ]}; _component_handler := None;
     _signal_handler := None |}.

Definition bob_with_instance : state :=
  {| COMPONENT_LISTING := ∅; hosts := {[ 0 := strong_host ]};
     handlers := ∅; host_of := {[ 1 := 0 ]}; next_id := 2 |}.

Definition mana_instance : instance := {| inst_id := 1; inst_class := Mana |}.

Definition strength_field : HostField :=
  {| host_base := {| db_key := "mana::strength"; db_default := PyNone;
                     db_autocreate := false |};
     overridable := false;
     _fallback_default := PyInt 1;
     host_attribute := Some "strength" |}.

Definition single_tag : TagField :=
  {| tag_category_key := Some "mana::element"; tag_default := PyNone;
     tag_enforce_single := true |}.

Definition many_tags : TagField :=
  {| tag_category_key := Some "mana::element"; tag_default := PyNone;
     tag_enforce_single := false |}.

(** A [KeyField] over a two-entry mapping, and an object whose [key]
    attribute is the empty string. *)
Definition weapon_field : KeyField :=
  {| key_base := {| db_key := "mana::weapon_key"; db_default := PyNone;
                    db_autocreate := false |};
     listing := [(PyStr "sword1", PyObj 40); (PyInt 5, PyObj 41)] |}.

Definition blank_keyed : pyval := PyKeyed 9 (PyStr "").

(** What the persisted store of host [h] holds under the key of a field. *)
Definition stored (k : DBField) (h : nat) (s : state) : option pyval :=
  attributes (hosts s !!! h) !! db_key k.

(** What the [db_keys] property gives for a host. *)
Definition db_keys_view (o : host_obj) : list string :=
  match component_keys o with
  | Some l => l
  | None => match component_names o with
            | Some (n :: rest) => n :: rest
            | _ => []
            end
  end.

(** What the command set of the class does to a host on the way in and on
    the way out. *)
Definition cmdset_in (c : instance) (o : host_obj) : host_obj :=
  match cmd_set (inst_class c) with
  | Some cs => set_cmdset (cmdset_add cs (cmdset o)) o
  | None => o
  end.

Definition cmdset_out (c : instance) (o : host_obj) : host_obj :=
  match cmd_set (inst_class c) with
  | Some cs => set_cmdset (cmdset_remove cs (cmdset o)) o
  | None => o
  end.

(** Bob after the mixin has installed handler 1 and his signals. *)
Definition bob_ready : state := final_state (install_handlers 0 bob_alone).

(** Instance 2, made for Bob by [default_create], of a class whose key is
    its slot and of one where they differ. *)
Definition mana_2 : instance := {| inst_id := 2; inst_class := Mana |}.

Definition bob_with_mana : state :=
  final_state (Component_default_create Mana 0 bob_ready).

Definition health_2 : instance := {| inst_id := 2; inst_class := Health |}.

Definition bob_with_health : state :=
  final_state (Component_default_create Health 0 bob_ready).

(** Bob carrying a Mana and then a Fire component, and a second Mana
    instance, number 4, made for him. *)
Definition Fire : klass := no_fields "<class 'Fire'>" "fire" "fire" None.

Definition mana_4 : instance := {| inst_id := 4; inst_class := Mana |}.

Definition bob_with_two : state :=
  final_state
    ((add_default 1 "mana" ;;;
      add_default 1 "fire" ;;;
      Component_default_create Mana 0) 
       (with_listing (λ _, {[ Some "mana" := Mana; Some "fire" := Fire ]}) bob_ready)).

(** A class with one tag field, key and slot the same, and instance 2 of it
    made for Bob. *)
Definition Aura : klass :=
  {| cls_repr := "<class 'Aura'>"; component_key := "aura";
     component_slot := "aura"; name := None; slot := None; cmd_set := None;
     _db_fields := []; _ndb_fields := [];
     _tag_fields := [("element",
                      {| tag_category_key := Some "aura::element";
                         tag_default := PyStr "fire";
                         tag_enforce_single := true |})] |}.

Definition aura_2 : instance := {| inst_id := 2; inst_class := Aura |}.

Definition bob_with_aura : state :=
  final_state (Component_default_create Aura 0 bob_ready).

(** A computation that leaves one part of the state as it found it,
    whether it returns or raises. *)
Definition keeps {X A : Type} (proj : state → X) (m : M A) : Prop :=
  ∀ s, proj (final_state (m s)) = proj s.

(** Bob ready, with a persisted list naming a component that no class
    provides. *)
Definition bob_with_ghost : state :=
  with_hosts (λ hs, <[0 := set_component_keys (Some ["ghost"]) (hs !!! 0)]> hs)
    bob_ready.

(** The message of [get_component_class] for a key. *)
Definition not_found_message (component_key : string) : string :=
  "Component with key " +:+ component_key +:+ " has not been found. " +:+
  "Make sure it has been imported before being used.".

(** Descriptors as their constructors leave them, before they are attached
    to a class. *)
Definition fresh_key_field : KeyField :=
  {| key_base := {| db_key := ""; db_default := PyNone; db_autocreate := false |};
     listing := [(PyStr "sword1", PyObj 40)] |}.

Definition fresh_host_field : HostField :=
  HostField___init__ (PyInt 1) false false None.

(** Mana with an attribute [slot] of its own, which [Component] does not
    give it. *)
Definition Mana_with_slot : klass :=
  {| cls_repr := "<class 'Mana'>"; component_key := "mana";
     component_slot := "mana"; name := None; slot := Some "pool";
     cmd_set := None; _db_fields := []; _ndb_fields := []; _tag_fields := [] |}.

(** The fields whose [__set_name__] asks the class for its slot through
    [get_component_slot]. *)
Definition asks_get_component_slot (f : field) : bool :=
  match f with
  | FDB _ | FNDB _ | FTag _ => true
  | FHost _ | FKey _ => false
  end.

(** ** The rest of dbfield.py and holder.py *)

(** [DBField.at_removed]. *)
Definition DBField_at_removed (self : DBField) (component : instance) : M unit :=
  AttributeProperty___delete__ self component.

(** [NDBField.at_added] and [NDBField.at_removed]. *)
Definition NDBField_at_added (self : NDBField) (component : instance) : M unit :=
  if ndb_autocreate self then
    NAttributeProperty___set__ self component (ndb_default self)
  else ret tt.

Definition NDBField_at_removed (self : NDBField) (component : instance) : M unit :=
  NAttributeProperty___delete__ self component.

(** [ComponentProperty]: [component_key] and [values], the keyword
    arguments in call order. *)
Record ComponentProperty : Type := {
  property_component_key : string;
  values : list (string * pyval)
}.

(** A host class as [ComponentProperty.__set_name__] sees it: the
    [_class_components] list of its own [__dict__] when it has one, and the
    list attribute lookup finds on its bases when they have one. *)
Record holder_class : Type := {
  own_class_components : option (list (string * list (string * pyval)));
  inherited_class_components : option (list (string * list (string * pyval)))
}.

(** [getattr(owner, "_class_components", d)]: the class's own list first,
    its bases' next. *)
Definition getattr_class_components (owner : holder_class)
    (d : list (string * list (string * pyval)))
  : list (string * list (string * pyval)) :=
  match own_class_components owner with
  | Some l => l
  | None => default d (inherited_class_components owner)
  end.

(** [ComponentProperty.__set_name__]: the owner class after the call.  A
    missing or empty own list is replaced by a copy of what attribute lookup
    finds, and the entry is appended to the own list. *)
Definition ComponentProperty___set_name__ (self : ComponentProperty)
    (owner : holder_class) : holder_class :=
  let class_components :=
    match own_class_components owner with
    | Some (e :: l) => e :: l
    | _ => getattr_class_components owner []
    end in
  {| own_class_components :=
       Some (class_components ++ [(property_component_key self, values self)]);
     inherited_class_components := inherited_class_components owner |}.

(** The class body: the properties, attached in the order they are
    written. *)
Definition attach_properties (owner : holder_class) (ps : list ComponentProperty)
  : holder_class :=
  foldl (λ o p, ComponentProperty___set_name__ p o) owner ps.

(** [ComponentProperty.__get__]. *)
Definition ComponentProperty___get__ (self : ComponentProperty) (inst : nat)
  : M (option instance) :=
  c <- components inst ;;
  match c with
  | Some r => get_by_key r (property_component_key self)
  | None => raise (AttributeError "get_by_key")
  end.

(** [ComponentHandler.__getattr__]. *)
Definition ComponentHandler___getattr__ (self : nat) (slot_key : string)
  : M (option instance) :=
  get_by_slot self slot_key.

(** ** What a host keeps across handler operations *)

(** The identity condition of [Component.__init__]. *)
Definition has_identity (cls : klass) : bool :=
  str_truthy (component_slot cls) && str_truthy (component_key cls)
  || opt_truthy (name cls).

(** The text of the two "not registered" errors. *)
Definition not_registered_message (slot_key host_nm : string) : string :=
  "Cannot remove " +:+ slot_key +:+ " from " +:+ host_nm +:+
  " as it is not registered.".

(** Everything of a host but its tags, and everything but its two
    attribute stores and its tags: what the descriptors leave alone. *)
Definition but_tags (o : host_obj) : host_obj := set_tags ∅ o.

Definition but_fields (o : host_obj) : host_obj :=
  set_tags ∅ (set_attributes ∅ (set_nattributes ∅ o)).

(** What a restart must not lose: the stores, the tags, the command sets,
    the plain attributes, the name, and the persisted list as [db_keys]
    gives it. *)
Definition durable (o : host_obj)
  : gmap string pyval * gmap string pyval * gset (pyval * option string)
    * list nat * gmap string pyval * string * list string
    * option (list string) :=
  (attributes o, nattributes o, tags o, cmdset o, py_attrs o, host_name o,
   db_keys_view o, component_names o).

(** The body of the loop of [ComponentHandler.initialize], under a name. *)
Definition initialize_body (self : nat) (component_key : string) : M unit :=
  component <- get_component_class component_key ;;
  h <- read_handler self host ;;
  if klass_truthy component then
    component_instance <- Component_load component h ;;
    _set_component self component_instance
  else
    name <- read_host h host_name ;;
    raise (ComponentDoesNotExist
             ("Could not initialize runtime component " +:+
              component_key +:+ " of " +:+ name)).

(** Everything of a host but its signals facility. *)
Definition but_signals (o : host_obj) : host_obj := set_signal_handler None o.

(** Bob ready, with Mana listed, and a persisted list that names Mana and
    then a component that no class provides. *)
Definition bob_with_mana_and_ghost : state :=
  with_hosts (λ hs, <[0 := set_component_keys (Some ["mana"; "ghost"]) (hs !!! 0)]> hs)
    (with_listing (λ _, {[ Some "mana" := Mana ]}) bob_ready).

(** The identifier [KeyField] keeps for a value: the value itself when it
    is a string, an integer or [None], else its [key] attribute. *)
Definition normalized (v : pyval) : pyval :=
  if is_str_or_int v || py_eqb v PyNone then v else getattr_key v.

(** An [NDBField] that writes its default when the component is added. *)
Definition cached_total : NDBField :=
  {| ndb_key := "mana::total"; ndb_default := PyInt 0; ndb_autocreate := true |}.

(** A [HostField] that may be overridden. *)
Definition overridable_strength : HostField :=
  {| host_base := {| db_key := "mana::strength"; db_default := PyNone;
                     db_autocreate := false |};
     overridable := true;
     _fallback_default := PyInt 1;
     host_attribute := Some "strength" |}.

(** The keys under which the fields of a class store their values: those
    of the [_db_fields] table in the persisted store, those of the
    [_ndb_fields] table in the in-memory store. *)
Definition db_storage_key (f : field) : option string :=
  match f with
  | FDB d => Some (db_key d)
  | FHost hf => Some (db_key (host_base hf))
  | FKey kf => Some (db_key (key_base kf))
  | FNDB _ | FTag _ => None
  end.

Definition declared_db_keys (cls : klass) : list string :=
  omap (λ nf, db_storage_key nf.2) (_db_fields cls).

Definition declared_ndb_keys (cls : klass) : list string :=
  (λ nf, ndb_key nf.2) <$> _ndb_fields cls.

(** A class with a persisted field, an in-memory field and a key field,
    and instance 1 of it, which [bob_with_instance] binds to Bob. *)
Definition Stats : klass :=
  {| cls_repr := "<class 'Stats'>"; component_key := "stats";
     component_slot := "stats"; name := None; slot := None; cmd_set := None;
     _db_fields := [("level", FDB {| db_key := "stats::level"; db_default := PyInt 1;
                                     db_autocreate := false |});
                    ("weapon", FKey weapon_field)];
     _ndb_fields := [("total", cached_total)];
     _tag_fields := [] |}.

Definition stats_instance : instance := {| inst_id := 1; inst_class := Stats |}.

(** Whether [setattr] on an instance of the class takes the keyword
    argument: a [HostField] must be overridable and a [KeyField] must be
    given a string, an integer or an object with a true [key]; any other
    name is a field that takes every value, or no field at all. *)
Definition assignable (cls : klass) (kv : string * pyval) : bool :=
  match dict_get (_db_fields cls) kv.1 with
  | Some (FHost f) => overridable f
  | Some (FKey f) => is_str_or_int kv.2 || truthy (getattr_key kv.2)
  | _ => true
  end.

(** The body of the loop of [ComponentHolderMixin.basetype_setup], under a
    name. *)
Definition basetype_setup_body (self : nat)
    (kv : string * list (string * pyval)) : M unit :=
  component_class <- get_component_class kv.1 ;;
  component <- Component_create component_class self kv.2 ;;
  c <- components self ;;
  match c with
  | Some r => ComponentHandler_add r component
  | None => raise (AttributeError "add")
  end.

(** What the class of a host declares, resolved: the listing gives a class
    with an identity for the key, and the class takes the keyword
    arguments. *)
Definition declares (s : state) (kv : string * list (string * pyval)) (cls : klass)
  : Prop :=
  COMPONENT_LISTING s !! Some kv.1 = Some cls
  ∧ has_identity cls = true
  ∧ forallb (assignable cls) kv.2 = true.

(** Bob alone, with Mana and Stats listed. *)
Definition bob_with_listing : state :=
  with_listing (λ _, {[ Some "mana" := Mana; Some "stats" := Stats ]}) bob_alone.

(** A host that still has the legacy list and no [component_keys]. *)
Definition legacy_host : host_obj :=
  {| host_name := "Old"; component_keys := None;
     component_names := Some ["mana"; "fire"];
     attributes := ∅; nattributes := ∅; tags := ∅; cmdset := [];
     py_attrs := ∅; _component_handler := Some 1;
     _signal_handler := Some {| listeners := []; triggered := [] |} |}.

Definition legacy_state : state :=
  {| COMPONENT_LISTING := {[ Some "mana" := Mana; Some "fire" := Fire ]};
     hosts := {[ 0 := legacy_host ]};
     handlers := {[ 1 := {| host := 0; _loaded_components := ∅ |} ]};
     host_of := ∅; next_id := 2 |}.

(** Whether a name is that of a field of the class. *)
Definition names_field (cls : klass) (attr : string) : bool :=
  bool_decide (is_Some (dict_get (_db_fields cls) attr))
  || bool_decide (is_Some (dict_get (_ndb_fields cls) attr))
  || bool_decide (is_Some (dict_get (_tag_fields cls) attr)).
(** ** Proof steps *)

Ltac run :=
  repeat (unfold bind, ret, raise, gets, modify, read_host, update_host,
            read_handler, update_handler; simpl).

Ltac run_in H :=
  repeat (unfold bind, ret, raise, gets, modify, read_host, update_host,
            read_handler, update_handler in H; simpl in H).

(** ** The monad, step by step *)

Lemma bind_Ok {A B : Type} (m : M A) (k : A → M B) (s s' : state) (a : A) :
  m s = Ok a s' → bind m k s = k a s'.
Proof. unfold bind. by intros ->. Qed.

Lemma bind_Raise {A B : Type} (m : M A) (k : A → M B) (s s' : state) (e : exn) :
  m s = Raise e s' → bind m k s = Raise e s'.
Proof. unfold bind. by intros ->. Qed.

Lemma bind_inv_Ok {A B : Type} (m : M A) (k : A → M B) (s s2 : state) (b : B) :
  bind m k s = Ok b s2 → ∃ a s1, m s = Ok a s1 ∧ k a s1 = Ok b s2.
Proof. unfold bind. destruct (m s) as [a s1|e s1]; [eauto | done]. Qed.

(** ** ComponentHolderMixin.components *)

(** C10: on a host whose [_component_handler] attribute has not been set,
    which is every host until [at_init] or [basetype_setup] runs, reading
    [components] or [cmp] returns [None] and raises nothing. *)
Theorem components_before_handler (s : state) (h : nat) :
  _component_handler (hosts s !!! h) = None →
  components h s = Ok None s ∧ cmp h s = Ok None s.
Proof.
  intros Hnone. unfold cmp, components. run. by rewrite Hnone.
Qed.

Lemma components_before_handler_witness :
  components 0 bob_alone = Ok None bob_alone ∧ cmp 0 bob_alone = Ok None bob_alone.
Proof. apply components_before_handler. reflexivity. Defined.

(** The two entry points are what sets the attribute. *)
Lemma install_handlers_components (s : state) (h : nat) :
  ∃ s', install_handlers h s = Ok tt s' ∧ components h s' = Ok (Some (next_id s)) s'.
Proof.
  eexists. split; [reflexivity|].
  unfold components. run. by rewrite !lookup_total_insert_eq.
Qed.

(** ** Component.at_added *)

(** C4: [at_added] with host [B] on an instance bound to another host [A]
    raises [ComponentRegisterError], and the state it leaves is the one it
    started from: the instance is still bound to [A]. *)
Theorem at_added_second_host (s : state) (c : instance) (A B : nat) :
  host_of s !! inst_id c = Some A →
  A ≠ B →
  Component_at_added c B s
  = Raise (ComponentRegisterError "Components must not register twice!") s
  ∧ Component_host c s = Ok (Some A) s.
Proof.
  intros Hbound Hne. unfold Component_at_added, Component_host. run.
  rewrite Hbound. by rewrite decide_True.
Qed.

Lemma at_added_second_host_witness :
  Component_at_added {| inst_id := 3; inst_class := Mana |} 8 bound_to_7
  = Raise (ComponentRegisterError "Components must not register twice!") bound_to_7
  ∧ Component_host {| inst_id := 3; inst_class := Mana |} bound_to_7
    = Ok (Some 7) bound_to_7.
Proof.
  apply (at_added_second_host bound_to_7 {| inst_id := 3; inst_class := Mana |} 7 8).
  - reflexivity.
  - lia.
Defined.

(** ** HostField *)

(** C7: a [HostField] with [overridable=False] rejects every write with an
    [AssertionError], changing nothing, and every read gives the host's
    attribute named by [host_attribute], or [_fallback_default] when the
    host has no such attribute (or the instance has no host to ask). *)
Theorem HostField_not_overridable (f : HostField) (inst : instance) (a : string)
    (v : pyval) (s : state) :
  overridable f = false →
  host_attribute f = Some a →
  HostField___set__ f inst v s
  = Raise (AssertionError "Cannot set a non-overridable host field") s
  ∧ HostField___get__ f inst s
    = Ok match host_of s !! inst_id inst with
         | Some h => default (_fallback_default f) (host_getattr (hosts s !!! h) a)
         | None => _fallback_default f
         end s.
Proof.
  intros Hov Hattr. unfold HostField___set__, HostField___get__.
  rewrite Hov, Hattr. split; [reflexivity|].
  unfold Component_host. run. by destruct (host_of s !! inst_id inst).
Qed.

Lemma HostField_not_overridable_witness :
  HostField___set__ strength_field mana_instance (PyInt 3) bob_with_instance
  = Raise (AssertionError "Cannot set a non-overridable host field") bob_with_instance
  ∧ HostField___get__ strength_field mana_instance bob_with_instance
    = Ok (PyInt 12) bob_with_instance.
Proof.
  apply (HostField_not_overridable strength_field mana_instance "strength"
           (PyInt 3) bob_with_instance); reflexivity.
Defined.

(** ** TagField *)

Lemma elem_of_tags_in (category : option string) (t : gset (pyval * option string))
    (kc : pyval * option string) :
  kc ∈ tags_in category t ↔ kc.2 = category ∧ kc ∈ t.
Proof. unfold tags_in. by rewrite elem_of_filter. Qed.

Lemma elem_of_tags_clear (category : option string)
    (t : gset (pyval * option string)) (kc : pyval * option string) :
  kc ∈ tags_clear category t ↔ kc.2 ≠ category ∧ kc ∈ t.
Proof. unfold tags_clear. by rewrite elem_of_filter. Qed.

Lemma elem_of_tags_add (key : pyval) (category : option string)
    (t : gset (pyval * option string)) (kc : pyval * option string) :
  kc ∈ tags_add key category t ↔ kc ∈ t ∨ kc = (key, category).
Proof. unfold tags_add. set_solver. Qed.

Lemma elem_of_tags_remove (key : pyval) (category : option string)
    (t : gset (pyval * option string)) (kc : pyval * option string) :
  kc ∈ tags_remove key category t ↔ kc ∈ t ∧ kc ≠ (key, category).
Proof. unfold tags_remove. set_solver. Qed.

(** [TagField.__set__] on an instance bound to [h]: it returns, and only
    the tags of [h] change. *)
Lemma TagField___set___bound (f : TagField) (inst : instance) (h : nat)
    (v : pyval) (s : state) :
  host_of s !! inst_id inst = Some h →
  ∃ s', TagField___set__ f inst v s = Ok tt s'
        ∧ host_of s' = host_of s
        ∧ tags (hosts s' !!! h)
          = tags_add v (tag_category_key f)
              (if tag_enforce_single f
               then tags_clear (tag_category_key f) (tags (hosts s !!! h))
               else tags (hosts s !!! h)).
Proof.
  intros Hbound. unfold TagField___set__, instance_host_tags, Component_host.
  run. rewrite Hbound. destruct (tag_enforce_single f); run.
  - eexists. split; [reflexivity|]. split; [reflexivity|].
    simpl. by rewrite !lookup_total_insert_eq.
  - eexists. split; [reflexivity|]. split; [reflexivity|].
    simpl. by rewrite !lookup_total_insert_eq.
Qed.

(** C5: on an instance bound to a host, setting [A] and then [B] through a
    [TagField] returns; with [enforce_single] the category of the field then
    holds the tag [B] and no other, without it both [A] and [B] are among
    the tags of the category. *)
Theorem TagField_set_twice (f : TagField) (inst : instance) (h : nat)
    (A B : pyval) (s : state) :
  host_of s !! inst_id inst = Some h →
  ∃ s', (TagField___set__ f inst A ;;; TagField___set__ f inst B) s = Ok tt s'
        ∧ (tag_enforce_single f = true →
           tags_in (tag_category_key f) (tags (hosts s' !!! h))
           = {[ (B, tag_category_key f) ]})
        ∧ (tag_enforce_single f = false →
           (A, tag_category_key f) ∈ tags_in (tag_category_key f) (tags (hosts s' !!! h))
           ∧ (B, tag_category_key f) ∈ tags_in (tag_category_key f) (tags (hosts s' !!! h))).
Proof.
  intros Hbound.
  destruct (TagField___set___bound f inst h A s Hbound) as (s1 & Hrun1 & Hof1 & Htags1).
  assert (Hbound1 : host_of s1 !! inst_id inst = Some h) by by rewrite Hof1.
  destruct (TagField___set___bound f inst h B s1 Hbound1) as (s2 & Hrun2 & _ & Htags2).
  exists s2. split.
  { by rewrite (bind_Ok _ _ _ _ _ Hrun1). }
  rewrite Htags2, Htags1. split; intros ->.
  - apply set_eq. intros kc.
    rewrite elem_of_tags_in, elem_of_tags_add, elem_of_tags_clear,
      elem_of_singleton.
    destruct kc as [k c]. simpl. split.
    + intros [Hc [[Hne _]|Heq]]; [done | done].
    + intros [= -> ->]. auto.
  - split; rewrite elem_of_tags_in, !elem_of_tags_add; simpl; auto.
Qed.

Lemma TagField_set_twice_witness :
  ∃ s', (TagField___set__ single_tag mana_instance (PyStr "fire") ;;;
         TagField___set__ single_tag mana_instance (PyStr "ice")) bob_with_instance
        = Ok tt s'
        ∧ (tag_enforce_single single_tag = true →
           tags_in (tag_category_key single_tag) (tags (hosts s' !!! 0))
           = {[ (PyStr "ice", tag_category_key single_tag) ]})
        ∧ (tag_enforce_single single_tag = false →
           (PyStr "fire", tag_category_key single_tag)
             ∈ tags_in (tag_category_key single_tag) (tags (hosts s' !!! 0))
           ∧ (PyStr "ice", tag_category_key single_tag)
             ∈ tags_in (tag_category_key single_tag) (tags (hosts s' !!! 0))).
Proof.
  apply (TagField_set_twice single_tag mana_instance 0 (PyStr "fire") (PyStr "ice")
           bob_with_instance).
  reflexivity.
Defined.

(** ** KeyField *)

(** [AttributeProperty.__set__] then [AttributeProperty.__get__] on an
    instance bound to [h]. *)
Lemma AttributeProperty_set_get (k : DBField) (inst : instance) (h : nat)
    (v : pyval) (s : state) :
  host_of s !! inst_id inst = Some h →
  ∃ s', AttributeProperty___set__ k inst v s = Ok tt s'
        ∧ stored k h s' = Some v
        ∧ AttributeProperty___get__ k inst s' = Ok v s'.
Proof.
  intros Hbound.
  unfold AttributeProperty___set__, AttributeProperty___get__,
    Component_attributes, Component_host, stored.
  run. rewrite Hbound. run. eexists. split; [reflexivity|]. simpl.
  rewrite Hbound. simpl. rewrite !lookup_total_insert_eq. simpl.
  by rewrite lookup_insert_eq.
Qed.

Lemma mapping_get_absent (m : list (pyval * pyval)) (k : pyval) :
  (∀ kv, kv ∈ m → py_eqb kv.1 k = false) → mapping_get m k = PyNone.
Proof.
  induction m as [|[k' v] m IH]; intros Hno; [reflexivity|].
  simpl. pose proof (Hno (k', v) ltac:(left)) as Hk. simpl in Hk. rewrite Hk.
  apply IH. intros kv Hin. apply Hno. by right.
Qed.

(** C6, as the code has it: on an instance bound to a host, assigning a
    string or an integer stores it as it is; assigning any other value
    whose [key] attribute is true stores that [key]; reading then gives
    what the mapping holds for the stored identifier, [None] when it holds
    nothing for it; and assigning any other value whose [key] attribute is
    missing or false raises [ValueError] and stores nothing. *)
Theorem KeyField_set_then_get (f : KeyField) (inst : instance) (h : nat)
    (v : pyval) (s : state) :
  host_of s !! inst_id inst = Some h →
  let ident := if is_str_or_int v then v else getattr_key v in
  (is_str_or_int v || truthy (getattr_key v) = true →
   ∃ s', KeyField___set__ f inst v s = Ok tt s'
         ∧ stored (key_base f) h s' = Some ident
         ∧ KeyField___get__ f inst s' = Ok (mapping_get (listing f) ident) s'
         ∧ ((∀ kv, kv ∈ listing f → py_eqb kv.1 ident = false) →
            KeyField___get__ f inst s' = Ok PyNone s'))
  ∧ (is_str_or_int v || truthy (getattr_key v) = false →
     KeyField___set__ f inst v s
     = Raise (ValueError "Only str, int, or instances with keys are supported") s).
Proof.
  intros Hbound ident. subst ident. unfold KeyField___set__, KeyField___get__.
  split; intros Hcase.
  - assert (Hset : ∃ s', AttributeProperty___set__ (key_base f) inst
                           (if is_str_or_int v then v else getattr_key v) s = Ok tt s'
                         ∧ stored (key_base f) h s'
                           = Some (if is_str_or_int v then v else getattr_key v)
                         ∧ AttributeProperty___get__ (key_base f) inst s'
                           = Ok (if is_str_or_int v then v else getattr_key v) s')
      by by apply AttributeProperty_set_get.
    destruct Hset as (s' & Hrun & Hstored & Hget). exists s'.
    destruct (is_str_or_int v); simpl in *.
    + rewrite (bind_Ok _ _ _ _ _ Hget). repeat split; try done.
      intros Hno. unfold ret. by rewrite mapping_get_absent.
    + rewrite Hcase. simpl. rewrite (bind_Ok _ _ _ _ _ Hget). repeat split; try done.
      intros Hno. unfold ret. by rewrite mapping_get_absent.
  - apply orb_false_iff in Hcase as [-> ->]. reflexivity.
Qed.

Lemma KeyField_set_then_get_witness :
  (is_str_or_int (PyKeyed 9 (PyStr "sword1"))
   || truthy (getattr_key (PyKeyed 9 (PyStr "sword1"))) = true →
   ∃ s', KeyField___set__ weapon_field mana_instance (PyKeyed 9 (PyStr "sword1"))
           bob_with_instance = Ok tt s'
         ∧ stored (key_base weapon_field) 0 s' = Some (PyStr "sword1")
         ∧ KeyField___get__ weapon_field mana_instance s'
           = Ok (mapping_get (listing weapon_field) (PyStr "sword1")) s'
         ∧ ((∀ kv, kv ∈ listing weapon_field → py_eqb kv.1 (PyStr "sword1") = false) →
            KeyField___get__ weapon_field mana_instance s' = Ok PyNone s'))
  ∧ (is_str_or_int (PyKeyed 9 (PyStr "sword1"))
     || truthy (getattr_key (PyKeyed 9 (PyStr "sword1"))) = false →
     KeyField___set__ weapon_field mana_instance (PyKeyed 9 (PyStr "sword1"))
       bob_with_instance
     = Raise (ValueError "Only str, int, or instances with keys are supported")
         bob_with_instance).
Proof.
  apply (KeyField_set_then_get weapon_field mana_instance 0
           (PyKeyed 9 (PyStr "sword1")) bob_with_instance).
  reflexivity.
Defined.

(** C6 as the specification words it fails on an object that has a [key]
    attribute which is the empty string: the assignment raises and the
    store stays empty. *)
Lemma KeyField_blank_key_rejected :
  getattr_key blank_keyed = PyStr ""
  ∧ KeyField___set__ weapon_field mana_instance blank_keyed bob_with_instance
    = Raise (ValueError "Only str, int, or instances with keys are supported")
        bob_with_instance
  ∧ stored (key_base weapon_field) 0 bob_with_instance = None.
Proof. repeat split. Qed.

(** ** Steps of the handler *)

Lemma py_list_remove_app_fresh (k : string) (l : list string) :
  k ∉ l → py_list_remove k (l ++ [k]) = Some l.
Proof.
  induction l as [|y l IH]; intros Hnotin; simpl.
  - by rewrite String.eqb_refl.
  - apply not_elem_of_cons in Hnotin as [Hne Hnotin].
    destruct (String.eqb_spec y k) as [->|_]; [done|].
    by rewrite IH.
Qed.

Lemma set_component_keys_same (o : host_obj) (l : list string) :
  component_keys o = Some l → set_component_keys (Some l) o = o.
Proof. destruct o. simpl. by intros ->. Qed.

(** The [db_keys] property returns [db_keys_view] and leaves it persisted. *)
Lemma db_keys_run (self h : nat) (s : state) :
  host (handlers s !!! self) = h →
  ∃ s', db_keys self s = Ok (db_keys_view (hosts s !!! h)) s'
        ∧ handlers s' = handlers s
        ∧ host_of s' = host_of s
        ∧ hosts s' !!! h
          = set_component_keys (Some (db_keys_view (hosts s !!! h))) (hosts s !!! h).
Proof.
  intros Hh. unfold db_keys, db_keys_view. run. rewrite Hh.
  destruct (component_keys (hosts s !!! h)) as [l|] eqn:Hkeys.
  - exists s. by rewrite set_component_keys_same.
  - eexists. split; [reflexivity|]. simpl.
    by rewrite lookup_total_insert_eq.
Qed.

Lemma db_keys_append_run (self h : nat) (k : string) (s : state) :
  host (handlers s !!! self) = h →
  ∃ s', db_keys_append self k s = Ok tt s'
        ∧ handlers s' = handlers s
        ∧ host_of s' = host_of s
        ∧ hosts s' !!! h
          = set_component_keys (Some (db_keys_view (hosts s !!! h) ++ [k]))
              (hosts s !!! h).
Proof.
  intros Hh. destruct (db_keys_run self h s Hh) as (s0 & Hrun & Hhd & Hof & Hhost).
  unfold db_keys_append. rewrite (bind_Ok _ _ _ _ _ Hrun). run.
  rewrite Hhd, Hh. eexists. split; [reflexivity|]. simpl.
  rewrite lookup_total_insert_eq, Hhost. done.
Qed.

Lemma db_keys_remove_run (self h : nat) (k : string) (l' : list string) (s : state) :
  host (handlers s !!! self) = h →
  py_list_remove k (db_keys_view (hosts s !!! h)) = Some l' →
  ∃ s', db_keys_remove self k s = Ok tt s'
        ∧ handlers s' = handlers s
        ∧ host_of s' = host_of s
        ∧ hosts s' !!! h = set_component_keys (Some l') (hosts s !!! h).
Proof.
  intros Hh Hrm. destruct (db_keys_run self h s Hh) as (s0 & Hrun & Hhd & Hof & Hhost).
  unfold db_keys_remove. rewrite (bind_Ok _ _ _ _ _ Hrun). run.
  rewrite Hhd, Hh, Hrm. eexists. split; [reflexivity|]. simpl.
  rewrite lookup_total_insert_eq, Hhost. done.
Qed.

(** [_set_component] caches the instance under its slot and its key before
    it reaches the signals, so the cache is set whether it returns or not. *)
Lemma _set_component_cache (self : nat) (c : instance) (s : state) :
  let s' := final_state (_set_component self c s) in
  handlers s' !!! self
  = set_loaded (<[get_component_key (inst_class c) := c]>
                  (<[get_component_slot (inst_class c) := c]>
                     (_loaded_components (handlers s !!! self))))
      (handlers s !!! self)
  ∧ host_of s' = host_of s.
Proof.
  unfold _set_component, host_signals. run.
  rewrite !lookup_total_insert_eq. simpl.
  destruct (_signal_handler _); simpl; by rewrite !lookup_total_insert_eq.
Qed.

Lemma _set_component_inv (self h : nat) (c : instance) (s s' : state) :
  host (handlers s !!! self) = h →
  _set_component self c s = Ok tt s' →
  ∃ g, _signal_handler (hosts s !!! h) = Some g
       ∧ hosts s' !!! h
         = set_signal_handler (Some (add_object_listeners_and_responders c g))
             (hosts s !!! h).
Proof.
  intros Hh. unfold _set_component, host_signals. run.
  rewrite !lookup_total_insert_eq. simpl. rewrite Hh.
  destruct (_signal_handler (hosts s !!! h)) as [g|]; [|done].
  intros [= <-]. exists g. split; [done|]. simpl.
  by rewrite lookup_total_insert_eq.
Qed.

(** For a class without tag fields, [_add_component_tags] adds the slot tag
    and [_remove_component_tags] removes the key tag, and that is all. *)
Lemma _add_component_tags_run (self h : nat) (c : instance) (s : state) :
  host (handlers s !!! self) = h →
  _tag_fields (inst_class c) = [] →
  ∃ s', _add_component_tags self c s = Ok tt s'
        ∧ handlers s' = handlers s
        ∧ host_of s' = host_of s
        ∧ hosts s' !!! h
          = set_tags (tags_add (PyStr (get_component_slot (inst_class c)))
                               (Some "components") (tags (hosts s !!! h)))
              (hosts s !!! h).
Proof.
  intros Hh Htf. unfold _add_component_tags. rewrite Htf. run. rewrite Hh.
  eexists. split; [reflexivity|]. simpl. by rewrite lookup_total_insert_eq.
Qed.

Lemma _remove_component_tags_run (self h : nat) (c : instance) (s : state) :
  host (handlers s !!! self) = h →
  _tag_fields (inst_class c) = [] →
  ∃ s', _remove_component_tags self c s = Ok tt s'
        ∧ handlers s' = handlers s
        ∧ host_of s' = host_of s
        ∧ hosts s' !!! h
          = set_tags (tags_remove (PyStr (get_component_key (inst_class c)))
                                  (Some "components") (tags (hosts s !!! h)))
              (hosts s !!! h).
Proof.
  intros Hh Htf. unfold _remove_component_tags. rewrite Htf. run. rewrite Hh.
  eexists. split; [reflexivity|]. simpl. by rewrite lookup_total_insert_eq.
Qed.

(** When [at_added] returns, the instance is bound to the host it was given,
    and it was bound to that host or to none before. *)
Lemma Component_at_added_inv (c : instance) (h : nat) (s s' : state) :
  Component_at_added c h s = Ok tt s' →
  host_of s' !! inst_id c = Some h
  ∧ handlers s' = handlers s
  ∧ hosts s' !!! h = cmdset_in c (hosts s !!! h).
Proof.
  unfold Component_at_added, Component_host, Component_set_host, cmdset_in. run.
  destruct (host_of s !! inst_id c) as [h'|] eqn:Hbound.
  - destruct (decide (h' ≠ h)) as [|Heq]; [done|].
    assert (h' = h) as -> by (destruct (decide (h' = h)); [done|contradiction]).
    destruct (cmd_set (inst_class c)); run; intros [= <-]; simpl;
      rewrite ?lookup_total_insert_eq, lookup_insert_eq; done.
  - destruct (cmd_set (inst_class c)); run; [done|].
    intros [= <-]. simpl. by rewrite lookup_insert_eq.
Qed.

(** [at_removed] with the host the instance is bound to returns and leaves
    the instance without a host. *)
Lemma Component_at_removed_run (c : instance) (h : nat) (s : state) :
  host_of s !! inst_id c = Some h →
  ∃ s', Component_at_removed c h s = Ok tt s'
        ∧ host_of s' !! inst_id c = None
        ∧ handlers s' = handlers s
        ∧ hosts s' !!! h = cmdset_out c (hosts s !!! h).
Proof.
  intros Hbound.
  unfold Component_at_removed, Component_host, Component_set_host, cmdset_out.
  run. rewrite Hbound. rewrite decide_False by (intros Hne; by apply Hne).
  destruct (cmd_set (inst_class c)); run; eexists; (split; [reflexivity|]); simpl;
    rewrite ?lookup_total_insert_eq, lookup_delete_eq; done.
Qed.

Lemma host_signals_run (h : nat) (method : string) (f : signals_obj → signals_obj)
    (g : signals_obj) (s : state) :
  _signal_handler (hosts s !!! h) = Some g →
  ∃ s', host_signals h method f s = Ok tt s'
        ∧ handlers s' = handlers s
        ∧ host_of s' = host_of s
        ∧ hosts s' !!! h = set_signal_handler (Some (f g)) (hosts s !!! h).
Proof.
  intros Hg. unfold host_signals. run. rewrite Hg. eexists.
  split; [reflexivity|]. simpl. by rewrite lookup_total_insert_eq.
Qed.

Lemma update_host_run (h : nat) (f : host_obj → host_obj) (s : state) :
  ∃ s', update_host h f s = Ok tt s'
        ∧ handlers s' = handlers s
        ∧ host_of s' = host_of s
        ∧ hosts s' !!! h = f (hosts s !!! h).
Proof.
  eexists. split; [reflexivity|]. simpl. by rewrite lookup_total_insert_eq.
Qed.

(** What [add] leaves when it returns, for a class without tag fields. *)
Lemma ComponentHandler_add_inv (self h : nat) (c : instance) (s s1 : state) :
  host (handlers s !!! self) = h →
  _tag_fields (inst_class c) = [] →
  ComponentHandler_add self c s = Ok tt s1 →
  ∃ g, _signal_handler (hosts s !!! h) = Some g
       ∧ host_of s1 !! inst_id c = Some h
       ∧ handlers s1 !!! self
         = set_loaded (<[get_component_key (inst_class c) := c]>
                         (<[get_component_slot (inst_class c) := c]>
                            (_loaded_components (handlers s !!! self))))
             (handlers s !!! self)
       ∧ hosts s1 !!! h
         = cmdset_in c
             (set_tags (tags_add (PyStr (get_component_slot (inst_class c)))
                                 (Some "components") (tags (hosts s !!! h)))
                (set_signal_handler (Some (add_object_listeners_and_responders c g))
                   (set_component_keys
                      (Some (db_keys_view (hosts s !!! h)
                             ++ [get_component_key (inst_class c)]))
                      (hosts s !!! h)))).
Proof.
  intros Hh Htf Hadd. unfold ComponentHandler_add in Hadd.
  destruct (db_keys_append_run self h (get_component_key (inst_class c)) s Hh)
    as (sa & Hrun_a & Hhd_a & Hof_a & Hhost_a).
  rewrite (bind_Ok _ _ _ _ _ Hrun_a) in Hadd.
  apply bind_inv_Ok in Hadd as ([] & sb & Hrun_b & Hadd).
  assert (Hh_a : host (handlers sa !!! self) = h) by by rewrite Hhd_a.
  destruct (_set_component_inv self h c sa sb Hh_a Hrun_b) as (g & Hg & Hhost_b).
  pose proof (_set_component_cache self c sa) as [Hhd_b Hof_b].
  rewrite Hrun_b in Hhd_b, Hof_b. simpl in Hhd_b, Hof_b.
  assert (Hh_b : host (handlers sb !!! self) = h) by by rewrite Hhd_b.
  destruct (_add_component_tags_run self h c sb Hh_b Htf)
    as (sc & Hrun_c & Hhd_c & Hof_c & Hhost_c).
  rewrite (bind_Ok _ _ _ _ _ Hrun_c) in Hadd.
  unfold bind at 1, read_handler, gets in Hadd. rewrite Hhd_c, Hh_b in Hadd.
  apply Component_at_added_inv in Hadd as (Hbound & Hhd_1 & Hhost_1).
  exists g. rewrite Hhost_a in Hg. simpl in Hg. split; [done|].
  split; [done|]. split.
  - by rewrite Hhd_1, Hhd_c, Hhd_b, Hhd_a.
  - rewrite Hhost_1, Hhost_c, Hhost_b, Hhost_a. done.
Qed.

Lemma cmdset_out_keeps (c : instance) (o : host_obj) :
  db_keys_view (cmdset_out c o) = db_keys_view o
  ∧ tags (cmdset_out c o) = tags o
  ∧ _signal_handler (cmdset_out c o) = _signal_handler o.
Proof. unfold cmdset_out. by destruct (cmd_set (inst_class c)). Qed.

Lemma cmdset_in_keeps (c : instance) (o : host_obj) :
  db_keys_view (cmdset_in c o) = db_keys_view o
  ∧ tags (cmdset_in c o) = tags o
  ∧ _signal_handler (cmdset_in c o) = _signal_handler o.
Proof. unfold cmdset_in. by destruct (cmd_set (inst_class c)). Qed.

(** [remove] returns for a class without tag fields when the slot is
    cached, the instance is bound to the host of the handler, the host has
    its signals, and the slot is in the persisted list. *)
Lemma ComponentHandler_remove_run (self h : nat) (c : instance) (g : signals_obj)
    (l' : list string) (s : state) :
  host (handlers s !!! self) = h →
  _tag_fields (inst_class c) = [] →
  is_Some (_loaded_components (handlers s !!! self)
             !! get_component_slot (inst_class c)) →
  host_of s !! inst_id c = Some h →
  _signal_handler (hosts s !!! h) = Some g →
  py_list_remove (get_component_slot (inst_class c)) (db_keys_view (hosts s !!! h))
  = Some l' →
  ∃ s', ComponentHandler_remove self c s = Ok tt s'
        ∧ handlers s' !!! self
          = set_loaded (delete (get_component_slot (inst_class c))
                          (_loaded_components (handlers s !!! self)))
              (handlers s !!! self)
        ∧ host_of s' !! inst_id c = None
        ∧ db_keys_view (hosts s' !!! h) = l'
        ∧ tags (hosts s' !!! h)
          = tags_remove (PyStr (get_component_key (inst_class c)))
              (Some "components") (tags (hosts s !!! h)).
Proof.
  intros Hh Htf Hcache Hbound Hsig Hrm. unfold ComponentHandler_remove.
  unfold bind at 1, read_handler at 1, gets at 1. rewrite Hh.
  unfold bind at 1, has_slot, read_handler at 1, gets at 1.
  rewrite bool_decide_eq_true_2 by done. simpl.
  destruct (Component_at_removed_run c h s Hbound)
    as (sa & Hrun_a & Hof_a & Hhd_a & Hhost_a).
  rewrite (bind_Ok _ _ _ _ _ Hrun_a).
  destruct (update_host_run h (cmdset_out c) sa)
    as (sb & Hrun_b & Hhd_b & Hof_b & Hhost_b).
  assert (Hrun_b' :
            match cmd_set (inst_class c) with
            | Some c0 => update_host h (λ o, set_cmdset (cmdset_remove c0 (cmdset o)) o)
            | None => ret ()
            end sa = Ok tt (match cmd_set (inst_class c) with
                            | Some _ => sb
                            | None => sa
                            end)).
  { unfold cmdset_out in Hrun_b. by destruct (cmd_set (inst_class c)). }
  rewrite (bind_Ok _ _ _ _ _ Hrun_b').
  set (sb' := match cmd_set (inst_class c) with Some _ => sb | None => sa end).
  assert (Hsb' : handlers sb' = handlers sa ∧ host_of sb' = host_of sa
                 ∧ hosts sb' !!! h = cmdset_out c (hosts sa !!! h)).
  { unfold sb', cmdset_out in *. by destruct (cmd_set (inst_class c)). }
  destruct Hsb' as (Hhd_b' & Hof_b' & Hhost_b'). clearbody sb'.
  assert (Hh_b : host (handlers sb' !!! self) = h) by by rewrite Hhd_b', Hhd_a.
  destruct (_remove_component_tags_run self h c sb' Hh_b Htf)
    as (sc & Hrun_c & Hhd_c & Hof_c & Hhost_c).
  rewrite (bind_Ok _ _ _ _ _ Hrun_c).
  assert (Hsig_c : _signal_handler (hosts sc !!! h) = Some g).
  { rewrite Hhost_c, Hhost_b', Hhost_a. simpl.
    by rewrite !(proj2 (proj2 (cmdset_out_keeps _ _))). }
  destruct (host_signals_run h "remove_object_listeners_and_responders"
              (remove_object_listeners_and_responders c) g sc Hsig_c)
    as (sd & Hrun_d & Hhd_d & Hof_d & Hhost_d).
  rewrite (bind_Ok _ _ _ _ _ Hrun_d).
  assert (Hh_d : host (handlers sd !!! self) = h) by by rewrite Hhd_d, Hhd_c.
  assert (Hview_d : db_keys_view (hosts sd !!! h) = db_keys_view (hosts s !!! h)).
  { rewrite Hhost_d, Hhost_c, Hhost_b', Hhost_a.
    change (db_keys_view (cmdset_out c (cmdset_out c (hosts s !!! h)))
            = db_keys_view (hosts s !!! h)).
    by rewrite !(proj1 (cmdset_out_keeps _ _)). }
  rewrite <- Hview_d in Hrm.
  destruct (db_keys_remove_run self h _ l' sd Hh_d Hrm)
    as (se & Hrun_e & Hhd_e & Hof_e & Hhost_e).
  rewrite (bind_Ok _ _ _ _ _ Hrun_e).
  eexists. split; [reflexivity|]. simpl.
  rewrite lookup_total_insert_eq.
  rewrite Hhd_e, Hhd_d, Hhd_c, Hhd_b', Hhd_a.
  rewrite Hof_e, Hof_d, Hof_c, Hof_b'.
  rewrite Hhost_e, Hhost_d, Hhost_c, Hhost_b', Hhost_a.
  repeat split; try done.
  simpl. by rewrite !(proj1 (proj2 (cmdset_out_keeps _ _))).
Qed.

(** C9, as the code has it: for an instance whose class has the same key
    and slot and no tag fields, when the key is not yet in [db_keys] and
    the host does not yet carry the key as a "components" tag, and [add]
    returns, the following [remove] returns too, and [db_keys] and the tags
    of the host are what they were before [add]. *)
Theorem add_remove_round_trip (self : nat) (c : instance) (s s1 : state) :
  let h := host (handlers s !!! self) in
  let K := get_component_key (inst_class c) in
  component_key (inst_class c) = component_slot (inst_class c) →
  _tag_fields (inst_class c) = [] →
  K ∉ db_keys_view (hosts s !!! h) →
  (PyStr K, Some "components") ∉ tags (hosts s !!! h) →
  ComponentHandler_add self c s = Ok tt s1 →
  ∃ s2, ComponentHandler_remove self c s1 = Ok tt s2
        ∧ db_keys_view (hosts s2 !!! h) = db_keys_view (hosts s !!! h)
        ∧ tags (hosts s2 !!! h) = tags (hosts s !!! h).
Proof.
  intros h K Hsame Htf Hfresh Htag Hadd.
  assert (HKS : get_component_slot (inst_class c) = K).
  { unfold K, get_component_key, get_component_slot. by rewrite Hsame. }
  destruct (ComponentHandler_add_inv self h c s s1 eq_refl Htf Hadd)
    as (g & Hsig & Hbound & Hhd & Hhost).
  fold K in Hhd, Hhost. rewrite HKS in Hhd, Hhost.
  assert (Hh1 : host (handlers s1 !!! self) = h) by by rewrite Hhd.
  destruct (ComponentHandler_remove_run self h c
              (add_object_listeners_and_responders c g)
              (db_keys_view (hosts s !!! h)) s1) as (s2 & Hrun & _ & _ & Hview & Htags).
  - done.
  - done.
  - rewrite Hhd, HKS. simpl. rewrite lookup_insert_eq. by eexists.
  - done.
  - rewrite Hhost. by rewrite (proj2 (proj2 (cmdset_in_keeps _ _))).
  - rewrite Hhost, HKS, (proj1 (cmdset_in_keeps _ _)).
    by apply py_list_remove_app_fresh.
  - exists s2. split; [done|]. split; [done|].
    rewrite Htags, Hhost, (proj1 (proj2 (cmdset_in_keeps _ _))). simpl.
    fold K. apply set_eq. intros kc.
    rewrite elem_of_tags_remove, elem_of_tags_add. split.
    + intros [[Hin|Heq] Hne]; done.
    + intros Hin. split; [by left|]. by intros ->.
Qed.

Lemma add_remove_round_trip_witness :
  ∃ s2, ComponentHandler_remove 1 mana_2
          (final_state (ComponentHandler_add 1 mana_2 bob_with_mana)) = Ok tt s2
        ∧ db_keys_view (hosts s2 !!! host (handlers bob_with_mana !!! 1))
          = db_keys_view (hosts bob_with_mana !!! host (handlers bob_with_mana !!! 1))
        ∧ tags (hosts s2 !!! host (handlers bob_with_mana !!! 1))
          = tags (hosts bob_with_mana !!! host (handlers bob_with_mana !!! 1)).
Proof.
  apply (add_remove_round_trip 1 mana_2 bob_with_mana
           (final_state (ComponentHandler_add 1 mana_2 bob_with_mana))).
  - reflexivity.
  - reflexivity.
  - apply (bool_decide_unpack _). vm_compute. exact I.
  - apply (bool_decide_unpack _). vm_compute. exact I.
  - vm_compute. reflexivity.
Defined.

(** C9 as the specification words it fails where the key is already in
    [db_keys]: with Mana and Fire attached, adding a second Mana instance
    and removing it takes the first "mana" out of the list and the
    "components" tag off the host. *)
Lemma add_remove_after_duplicate :
  component_key (inst_class mana_4) = component_slot (inst_class mana_4)
  ∧ raised (ComponentHandler_add 1 mana_4 bob_with_two) = None
  ∧ raised (ComponentHandler_remove 1 mana_4
              (final_state (ComponentHandler_add 1 mana_4 bob_with_two))) = None
  ∧ db_keys_view (hosts bob_with_two !!! 0) = ["mana"; "fire"]
  ∧ db_keys_view
      (hosts (final_state
                (ComponentHandler_remove 1 mana_4
                   (final_state (ComponentHandler_add 1 mana_4 bob_with_two)))) !!! 0)
    = ["fire"; "mana"]
  ∧ (PyStr "mana", Some "components") ∈ tags (hosts bob_with_two !!! 0)
  ∧ (PyStr "mana", Some "components")
      ∉ tags (hosts (final_state
                       (ComponentHandler_remove 1 mana_4
                          (final_state (ComponentHandler_add 1 mana_4 bob_with_two))))
              !!! 0).
Proof.
  split; [reflexivity|]. split; [vm_compute; reflexivity|].
  split; [vm_compute; reflexivity|]. split; [vm_compute; reflexivity|].
  split; [vm_compute; reflexivity|].
  split; apply (bool_decide_unpack _); vm_compute; exact I.
Qed.

(** With a tag field in the class, [remove] has already unbound the
    instance when it comes to clear the tags of the field: it raises, and
    the key stays in [db_keys] and in the cache. *)
Lemma remove_with_tag_field_raises :
  raised (ComponentHandler_add 1 aura_2 bob_with_aura) = None
  ∧ raised (ComponentHandler_remove 1 aura_2
              (final_state (ComponentHandler_add 1 aura_2 bob_with_aura)))
    = Some (AttributeError "tags")
  ∧ db_keys_view
      (hosts (final_state
                (ComponentHandler_remove 1 aura_2
                   (final_state (ComponentHandler_add 1 aura_2 bob_with_aura)))) !!! 0)
    = ["aura"].
Proof. repeat split; vm_compute; reflexivity. Qed.

(** ** What keeps the handlers *)

Lemma keeps_bind {X A B : Type} (proj : state → X) (m : M A) (k : A → M B) :
  keeps proj m → (∀ a, keeps proj (k a)) → keeps proj (bind m k).
Proof.
  intros Hm Hk s. unfold bind. specialize (Hm s).
  destruct (m s) as [a s'|e s']; simpl in *; [|done].
  by rewrite Hk.
Qed.

Lemma keeps_ret {X A : Type} (proj : state → X) (a : A) : keeps proj (ret a).
Proof. by intros s. Qed.

Lemma keeps_raise {X A : Type} (proj : state → X) (e : exn) :
  keeps proj (raise (A := A) e).
Proof. by intros s. Qed.

Lemma keeps_gets {X A : Type} (proj : state → X) (f : state → A) :
  keeps proj (gets f).
Proof. by intros s. Qed.

Lemma keeps_for_each {X A : Type} (proj : state → X) (l : list A) (body : A → M unit) :
  (∀ x, keeps proj (body x)) → keeps proj (for_each l body).
Proof.
  intros Hbody. induction l as [|x l IH]; simpl.
  - apply keeps_ret.
  - apply keeps_bind; [apply Hbody | by intros _].
Qed.

Lemma keeps_handlers_update_host (h : nat) (f : host_obj → host_obj) :
  keeps handlers (update_host h f).
Proof. by intros s. Qed.

Lemma keeps_handlers_set_host (c : instance) (h : option nat) :
  keeps handlers (Component_set_host c h).
Proof. by intros s. Qed.

Lemma keeps_handlers_TagField___set__ (f : TagField) (c : instance) (v : pyval) :
  keeps handlers (TagField___set__ f c v).
Proof.
  unfold TagField___set__, instance_host_tags, Component_host.
  apply keeps_bind.
  - apply keeps_bind; [apply keeps_gets|].
    intros [h|]; [apply keeps_ret | apply keeps_raise].
  - intros h. apply keeps_bind.
    + destruct (tag_enforce_single f);
        [apply keeps_handlers_update_host | apply keeps_ret].
    + intros _. apply keeps_handlers_update_host.
Qed.

Lemma keeps_handlers__add_component_tags (self : nat) (c : instance) :
  keeps handlers (_add_component_tags self c).
Proof.
  unfold _add_component_tags. apply keeps_bind; [apply keeps_gets|].
  intros h. apply keeps_bind; [apply keeps_handlers_update_host|].
  intros _. apply keeps_for_each. intros nf.
  destruct (truthy (tag_default nf.2));
    [apply keeps_handlers_TagField___set__ | apply keeps_ret].
Qed.

Lemma keeps_handlers_at_added (c : instance) (h : nat) :
  keeps handlers (Component_at_added c h).
Proof.
  unfold Component_at_added, Component_host.
  apply keeps_bind; [apply keeps_gets|].
  intros [h'|].
  - destruct (decide (h' ≠ h)); [apply keeps_raise|].
    apply keeps_bind; [|intros _; apply keeps_handlers_set_host].
    destruct (cmd_set (inst_class c));
      [apply keeps_handlers_update_host | apply keeps_ret].
  - apply keeps_bind; [|intros _; apply keeps_handlers_set_host].
    destruct (cmd_set (inst_class c)); [apply keeps_raise | apply keeps_ret].
Qed.

(** ** ComponentHandler.add, then the lookups *)

(** Once [add] has run, returned or not, [get_by_key]
    with the key of the instance and [get_by_slot] with its slot both give
    the instance. *)
Lemma add_then_lookups (self : nat) (c : instance) (s : state) :
  let s' := final_state (ComponentHandler_add self c s) in
  get_by_key self (get_component_key (inst_class c)) s' = Ok (Some c) s'
  ∧ get_by_slot self (get_component_slot (inst_class c)) s' = Ok (Some c) s'.
Proof.
  assert (Hcache : _loaded_components
                     (handlers (final_state (ComponentHandler_add self c s)) !!! self)
                   = <[get_component_key (inst_class c) := c]>
                       (<[get_component_slot (inst_class c) := c]>
                          (_loaded_components (handlers s !!! self)))).
  { unfold ComponentHandler_add.
    destruct (db_keys_append_run self _ (get_component_key (inst_class c)) s eq_refl)
      as (sa & Hrun_a & Hhd_a & _).
    rewrite (bind_Ok _ _ _ _ _ Hrun_a).
    pose proof (_set_component_cache self c sa) as [Hhd_b _].
    unfold bind at 1.
    destruct (_set_component self c sa) as [[] sb|e sb]; simpl in Hhd_b |- *.
    - assert (Hrest : keeps handlers
                        (_add_component_tags self c ;;;
                         h <- read_handler self host ;; Component_at_added c h)).
      { apply keeps_bind; [apply keeps_handlers__add_component_tags|].
        intros _. apply keeps_bind; [apply keeps_gets|].
        intros h. apply keeps_handlers_at_added. }
      rewrite (Hrest sb), Hhd_b, Hhd_a. done.
    - rewrite Hhd_b, Hhd_a. done. }
  intros s'. subst s'. unfold get_by_key, get_by_slot. run. rewrite Hcache.
  split; f_equal.
  - by rewrite lookup_insert_eq.
  - destruct (decide (get_component_key (inst_class c)
                      = get_component_slot (inst_class c))) as [->|Hne].
    + by rewrite lookup_insert_eq.
    + by rewrite lookup_insert_ne, lookup_insert_eq.
Qed.

(** Where [remove] does evict the instance: key and slot the same, no tag
    fields, the key not yet in [db_keys], [add] returned. *)
Lemma add_remove_evicts (self : nat) (c : instance) (s s1 : state) :
  let h := host (handlers s !!! self) in
  let K := get_component_key (inst_class c) in
  component_key (inst_class c) = component_slot (inst_class c) →
  _tag_fields (inst_class c) = [] →
  K ∉ db_keys_view (hosts s !!! h) →
  ComponentHandler_add self c s = Ok tt s1 →
  ∃ s2, ComponentHandler_remove self c s1 = Ok tt s2
        ∧ get_by_key self K s2 = Ok None s2
        ∧ get_by_slot self (get_component_slot (inst_class c)) s2 = Ok None s2
        ∧ has_slot self (get_component_slot (inst_class c)) s2 = Ok false s2.
Proof.
  intros h K Hsame Htf Hfresh Hadd.
  assert (HKS : get_component_slot (inst_class c) = K).
  { unfold K, get_component_key, get_component_slot. by rewrite Hsame. }
  destruct (ComponentHandler_add_inv self h c s s1 eq_refl Htf Hadd)
    as (g & Hsig & Hbound & Hhd & Hhost).
  fold K in Hhd, Hhost. rewrite HKS in Hhd, Hhost.
  assert (Hh1 : host (handlers s1 !!! self) = h) by by rewrite Hhd.
  destruct (ComponentHandler_remove_run self h c
              (add_object_listeners_and_responders c g)
              (db_keys_view (hosts s !!! h)) s1) as (s2 & Hrun & Hhd2 & _).
  - done.
  - done.
  - rewrite Hhd, HKS. simpl. rewrite lookup_insert_eq. by eexists.
  - done.
  - rewrite Hhost. by rewrite (proj2 (proj2 (cmdset_in_keeps _ _))).
  - rewrite Hhost, HKS, (proj1 (cmdset_in_keeps _ _)).
    by apply py_list_remove_app_fresh.
  - exists s2. split; [done|]. rewrite HKS in Hhd2 |- *.
    unfold get_by_key, get_by_slot, has_slot. run. rewrite Hhd2. simpl.
    rewrite lookup_delete_eq. by repeat split.
Qed.

(** C1 at a class whose key is "hp" and whose slot is "health": [add]
    returns and both lookups give the instance; [remove] then looks for
    "health" in a persisted list that holds "hp", raises [ValueError], and
    the instance is still cached under its key and under its slot. *)
Theorem remove_key_differs_from_slot :
  let added := ComponentHandler_add 1 health_2 bob_with_health in
  let removed := ComponentHandler_remove 1 health_2 (final_state added) in
  raised added = None
  ∧ get_by_key 1 "hp" (final_state added) = Ok (Some health_2) (final_state added)
  ∧ get_by_slot 1 "health" (final_state added) = Ok (Some health_2) (final_state added)
  ∧ db_keys_view (hosts (final_state added) !!! 0) = ["hp"]
  ∧ raised removed = Some (ValueError "list.remove(x): x not in list")
  ∧ get_by_key 1 "hp" (final_state removed) = Ok (Some health_2) (final_state removed)
  ∧ get_by_slot 1 "health" (final_state removed)
    = Ok (Some health_2) (final_state removed)
  ∧ has_slot 1 "health" (final_state removed) = Ok true (final_state removed).
Proof. repeat split; vm_compute; reflexivity. Qed.

(** ** ComponentHandler.initialize *)

(** Whenever [initialize] raises [ComponentDoesNotExist], the message is
    the one of [get_component_class] for one of the persisted keys: the
    message of [initialize] itself, which names the host, is never used. *)
Lemma initialize_message (self : nat) (s s' : state) (msg : string) :
  initialize self s = Raise (ComponentDoesNotExist msg) s' →
  ∃ k, k ∈ db_keys_view (hosts s !!! host (handlers s !!! self))
       ∧ msg = not_found_message k.
Proof.
  unfold initialize.
  destruct (db_keys_run self _ s eq_refl) as (s0 & Hrun & _).
  rewrite (bind_Ok _ _ _ _ _ Hrun).
  generalize (db_keys_view (hosts s !!! host (handlers s !!! self))). intros l.
  assert (Hloop : ∀ l s0,
             for_each l
               (λ component_key,
                  component <- get_component_class component_key ;;
                  h <- read_handler self host ;;
                  if klass_truthy component then
                    component_instance <- Component_load component h ;;
                    _set_component self component_instance
                  else
                    name <- read_host h host_name ;;
                    raise (ComponentDoesNotExist
                             ("Could not initialize runtime component " +:+
                              component_key +:+ " of " +:+ name))) s0
             = Raise (ComponentDoesNotExist msg) s' →
             ∃ k, k ∈ l ∧ msg = not_found_message k).
  { clear. intros l.
    match goal with |- context [for_each l ?b] => set (body := b) end.
    assert (Hbody : ∀ k s0 s1, body k s0 = Raise (ComponentDoesNotExist msg) s1 →
                               msg = not_found_message k).
    { intros k s0 s1. unfold body, get_component_class, Component_load,
        Component___init__, _set_component, host_signals, Component_set_host,
        klass_truthy, not_found_message.
      run. destruct (COMPONENT_LISTING s0 !! Some k) as [cls|]; run.
      - destruct (_ || _); run; [|done].
        rewrite !lookup_total_insert_eq. simpl.
        by destruct (_signal_handler _).
      - by intros [= <- _]. }
    induction l as [|k l IH]; intros s0; simpl; [done|].
    unfold bind at 1. destruct (body k s0) as [[] s1|e s1] eqn:Hk.
    - intros Hrest. apply IH in Hrest as (k' & Hin & ->).
      exists k'. split; [by right | done].
    - intros [= -> ->]. exists k. split; [by left|]. by eapply Hbody. }
  destruct l as [|k l]; [done|]. apply Hloop.
Qed.

(** C2 at a host called Bob whose persisted list holds "ghost", a key no
    class provides: [initialize] raises [ComponentDoesNotExist], and the
    message holds the key but not the name of the host. *)
Theorem initialize_unknown_key :
  let r := initialize 1 bob_with_ghost in
  host_name (hosts bob_with_ghost !!! 0) = "Bob"
  ∧ db_keys_view (hosts bob_with_ghost !!! 0) = ["ghost"]
  ∧ COMPONENT_LISTING bob_with_ghost !! Some "ghost" = None
  ∧ raised r = Some (ComponentDoesNotExist (not_found_message "ghost"))
  ∧ str_contains "ghost" (not_found_message "ghost") = true
  ∧ str_contains "Bob" (not_found_message "ghost") = false.
Proof. repeat split; vm_compute; reflexivity. Qed.

(** ** BaseComponent.__new__ *)

(** A class with a key and no slot, or a slot and no key, is rejected. *)
Lemma BaseComponent_one_of_two (new_type : klass) (s : state) :
  str_truthy (component_key new_type) ≠ str_truthy (component_slot new_type) →
  ∃ msg, BaseComponent___new__ new_type s = Raise (ValueError msg) s.
Proof.
  unfold BaseComponent___new__.
  destruct (str_truthy (component_key new_type)),
    (str_truthy (component_slot new_type)); simpl; intros Hne; try done;
    eexists; reflexivity.
Qed.

(** A class with neither is published under its legacy [name], whatever
    that is, and a class with both under its key. *)
Lemma BaseComponent_neither (new_type : klass) (s : state) :
  str_truthy (component_key new_type) = false →
  str_truthy (component_slot new_type) = false →
  ∃ s', BaseComponent___new__ new_type s = Ok new_type s'
        ∧ COMPONENT_LISTING s' = <[name new_type := new_type]> (COMPONENT_LISTING s).
Proof.
  intros Hk Hs. unfold BaseComponent___new__. rewrite Hk, Hs. simpl.
  eexists. split; reflexivity.
Qed.

Lemma BaseComponent_both (new_type : klass) (s : state) :
  str_truthy (component_key new_type) = true →
  str_truthy (component_slot new_type) = true →
  ∃ s', BaseComponent___new__ new_type s = Ok new_type s'
        ∧ COMPONENT_LISTING s'
          = <[Some (component_key new_type) := new_type]> (COMPONENT_LISTING s).
Proof.
  intros Hk Hs. unfold BaseComponent___new__. rewrite Hk, Hs. simpl.
  eexists. split; reflexivity.
Qed.

(** C3 at [Component] itself, which has no key, no slot and no [name]: the
    metaclass publishes it under [None], and [Component.__init__] then
    refuses to make an instance of the class that was published. *)
Theorem BaseComponent_publishes_unnamed :
  let r := BaseComponent___new__ Component_class bob_alone in
  component_key Component_class = ""
  ∧ component_slot Component_class = ""
  ∧ name Component_class = None
  ∧ raised r = None
  ∧ COMPONENT_LISTING (final_state r) !! None = Some Component_class
  ∧ raised (Component___init__ Component_class (Some 0) (final_state r))
    = Some (AssertionError "All Components must have a slot and a key").
Proof. repeat split; vm_compute; reflexivity. Qed.

(** ** __set_name__ *)

Lemma dict_get_set {V : Type} (d : list (string * V)) (k : string) (v : V) :
  dict_get (dict_set d k v) k = Some v.
Proof.
  induction d as [|[k' v'] d IH]; simpl.
  - by rewrite String.eqb_refl.
  - destruct (String.eqb k' k) eqn:Heq; simpl.
    + by rewrite String.eqb_refl.
    + by rewrite Heq.
Qed.

(** For a [DBField], an [NDBField] and a [TagField], the storage key is
    the slot of the owner, "::", and the name of the field, and the field
    is in the owner's table under its name. *)
Lemma set_name_get_component_slot (f : field) (owner : klass) (fname : string) :
  asks_get_component_slot f = true →
  ∃ f' owner', field___set_name__ f owner fname = Returns (f', owner')
               ∧ field_key f' = Some (get_component_slot owner +:+ "::" +:+ fname)
               ∧ field_table_get owner' fname f' = Some f'.
Proof.
  destruct f as [d|n|t|hf|kf]; simpl; intros Hkind; try done;
    (eexists _, _; split; [reflexivity|]; split; [reflexivity|]);
    simpl; by rewrite dict_get_set.
Qed.

(** For a [HostField] and a [KeyField] the key is built on [owner.slot or
    owner.name] when that can be read. *)
Lemma set_name_slot_or_name (f : field) (owner : klass) (fname slot_name : string) :
  asks_get_component_slot f = false →
  slot_or_name owner = Returns slot_name →
  ∃ f' owner', field___set_name__ f owner fname = Returns (f', owner')
               ∧ field_key f'
                 = Some match f with
                        | FKey _ => slot_name +:+ "::" +:+ fname +:+ "_key"
                        | _ => slot_name +:+ "::" +:+ fname
                        end
               ∧ field_table_get owner' fname f' = Some f'.
Proof.
  destruct f as [d|n|t|hf|kf]; simpl; intros Hkind Hslot; try done;
    unfold HostField___set_name__, KeyField___set_name__; rewrite Hslot;
    (eexists _, _; split; [reflexivity|]); simpl; by rewrite dict_get_set.
Qed.

(** C8 at Mana, whose declared slot is "mana": a [KeyField] and a
    [HostField] read [owner.slot], which the class does not have, and raise
    instead of computing a key; on a class that has a [slot] attribute of
    its own besides, they name the key after that attribute. *)
Theorem set_name_ignores_component_slot :
  get_component_slot Mana = "mana"
  ∧ KeyField___set_name__ fresh_key_field Mana "weapon" = Raises (AttributeError "slot")
  ∧ HostField___set_name__ fresh_host_field Mana "strength"
    = Raises (AttributeError "slot")
  ∧ get_component_slot Mana_with_slot = "mana"
  ∧ (∃ f' owner', KeyField___set_name__ fresh_key_field Mana_with_slot "weapon"
                  = Returns (f', owner')
                  ∧ field_key f' = Some "pool::weapon_key").
Proof.
  repeat split. eexists _, _. split; reflexivity.
Qed.

(** ** Removal of what is not attached *)

(** X1: when the slot of an instance is not in the cache, [remove] and
    [remove_by_slot_key] raise [ComponentIsNotRegistered] with the same
    message, which names the slot and the host, and change nothing. *)
Theorem remove_not_registered (self : nat) (c : instance) (s : state) :
  _loaded_components (handlers s !!! self) !! get_component_slot (inst_class c) = None →
  let msg := not_registered_message (get_component_slot (inst_class c))
               (host_name (hosts s !!! host (handlers s !!! self))) in
  ComponentHandler_remove self c s = Raise (ComponentIsNotRegistered msg) s
  ∧ remove_by_slot_key self (get_component_slot (inst_class c)) s
    = Raise (ComponentIsNotRegistered msg) s.
Proof.
  intros Hnone msg. subst msg.
  unfold ComponentHandler_remove, remove_by_slot_key, has_slot, get_by_slot,
    not_registered_message.
  run. rewrite Hnone. by simpl.
Qed.

Lemma remove_not_registered_witness :
  ComponentHandler_remove 1 mana_2 bob_with_mana
  = Raise (ComponentIsNotRegistered
             (not_registered_message (get_component_slot (inst_class mana_2))
                (host_name (hosts bob_with_mana !!! host (handlers bob_with_mana !!! 1)))))
      bob_with_mana
  ∧ remove_by_slot_key 1 (get_component_slot (inst_class mana_2)) bob_with_mana
    = Raise (ComponentIsNotRegistered
               (not_registered_message (get_component_slot (inst_class mana_2))
                  (host_name (hosts bob_with_mana !!! host (handlers bob_with_mana !!! 1)))))
        bob_with_mana.
Proof. apply (remove_not_registered 1 mana_2 bob_with_mana). reflexivity. Defined.

(** ** Registration, then resolution *)

(** X2: when the metaclass accepts a class that has a key or a legacy
    name, [get_component_class] finds that class under the key the class
    reports through [get_component_key], and no other entry of the listing
    has changed. *)
Theorem register_then_resolve (new_type : klass) (s s' : state) :
  str_truthy (component_key new_type) = true ∨ is_Some (name new_type) →
  BaseComponent___new__ new_type s = Ok new_type s' →
  get_component_class (get_component_key new_type) s' = Ok new_type s'
  ∧ ∀ k, k ≠ get_component_key new_type →
         COMPONENT_LISTING s' !! Some k = COMPONENT_LISTING s !! Some k.
Proof.
  intros Hid. unfold BaseComponent___new__, get_component_class, get_component_key.
  destruct (str_truthy (component_key new_type)) eqn:Hk;
    destruct (str_truthy (component_slot new_type)) eqn:Hs; simpl; try done.
  - run. intros [= <-]. simpl. rewrite lookup_insert_eq. split; [done|].
    intros k Hne. rewrite lookup_insert_ne; [done|]. intros [= Heq]. by apply Hne.
  - destruct Hid as [|[n Hn]]; [done|]. rewrite Hn. run. intros [= <-]. simpl.
    rewrite lookup_insert_eq. split; [done|].
    intros k Hne. rewrite lookup_insert_ne; [done|]. intros [= Heq]. by apply Hne.
Qed.

Lemma register_then_resolve_witness :
  get_component_class (get_component_key Mana)
    (final_state (BaseComponent___new__ Mana bob_alone))
  = Ok Mana (final_state (BaseComponent___new__ Mana bob_alone))
  ∧ ∀ k, k ≠ get_component_key Mana →
         COMPONENT_LISTING (final_state (BaseComponent___new__ Mana bob_alone)) !! Some k
         = COMPONENT_LISTING bob_alone !! Some k.
Proof.
  apply (register_then_resolve Mana bob_alone
           (final_state (BaseComponent___new__ Mana bob_alone))).
  - left. reflexivity.
  - reflexivity.
Defined.

(** X3: of two classes that declare the same key, the one defined last is
    the one [get_component_class] gives; the first is no longer reachable
    through the listing under that key. *)
Theorem register_last_wins (first second : klass) (s : state) :
  str_truthy (component_key first) = true →
  str_truthy (component_slot first) = true →
  str_truthy (component_slot second) = true →
  component_key second = component_key first →
  ∃ s', (BaseComponent___new__ first ;;; BaseComponent___new__ second) s
        = Ok second s'
        ∧ get_component_class (component_key first) s' = Ok second s'.
Proof.
  intros Hk1 Hs1 Hs2 Hsame. unfold BaseComponent___new__, get_component_class.
  rewrite Hsame, Hk1, Hs1, Hs2. run. eexists. split; [reflexivity|].
  simpl. by rewrite lookup_insert_eq.
Qed.

Lemma register_last_wins_witness :
  ∃ s', (BaseComponent___new__ Mana ;;;
         BaseComponent___new__ (no_fields "<class 'Mana2'>" "mana" "pool" None))
          bob_alone
        = Ok (no_fields "<class 'Mana2'>" "mana" "pool" None) s'
        ∧ get_component_class (component_key Mana) s'
          = Ok (no_fields "<class 'Mana2'>" "mana" "pool" None) s'.
Proof.
  apply (register_last_wins Mana (no_fields "<class 'Mana2'>" "mana" "pool" None)
           bob_alone); reflexivity.
Defined.

(** ** Binding and unbinding *)

(** X4: [at_removed] with a host the instance is not bound to, which
    includes every call on an instance that has no host, raises
    [ValueError] and changes nothing. *)
Theorem at_removed_wrong_host (c : instance) (h : nat) (s : state) :
  host_of s !! inst_id c ≠ Some h →
  Component_at_removed c h s
  = Raise (ValueError "Component attempted to remove from the wrong host.") s.
Proof.
  intros Hne. unfold Component_at_removed, Component_host. run.
  destruct (host_of s !! inst_id c) as [h'|]; [|done].
  destruct (decide (h ≠ h')) as [|Heq]; [done|].
  exfalso. apply Hne. f_equal. destruct (decide (h' = h)); [done|].
  exfalso. apply Heq. by intros ->.
Qed.

Lemma at_removed_wrong_host_witness :
  Component_at_removed {| inst_id := 3; inst_class := Mana |} 8 bound_to_7
  = Raise (ValueError "Component attempted to remove from the wrong host.") bound_to_7.
Proof.
  apply (at_removed_wrong_host {| inst_id := 3; inst_class := Mana |} 8 bound_to_7).
  vm_compute. intros [= ].
Defined.

(** X5: [at_added] returns exactly when the instance is already bound to
    the host it is given, or is bound to none and its class has no command
    set: an unbound instance with a command set cannot be added, because
    the command set is registered through the old binding. *)
Theorem at_added_returns_iff (c : instance) (h : nat) (s : state) :
  raised (Component_at_added c h s) = None
  ↔ host_of s !! inst_id c = Some h
    ∨ (host_of s !! inst_id c = None ∧ cmd_set (inst_class c) = None).
Proof.
  unfold Component_at_added, Component_host. run.
  destruct (host_of s !! inst_id c) as [h'|].
  - destruct (decide (h' ≠ h)) as [Hne|Heq]; simpl.
    + split; [done|]. intros [[= ->]|[? _]]; done.
    + assert (h' = h) as -> by (destruct (decide (h' = h)); [done|contradiction]).
      destruct (cmd_set (inst_class c)); run; split; auto.
  - destruct (cmd_set (inst_class c)); run; split; auto; try done.
    intros [|[_ ?]]; done.
Qed.

(** X6: when [at_added] has returned, [at_removed] with the same host
    returns, the instance has no host any more, the command set of its
    class is not among those of the host, and nothing else about the host
    has changed since before [at_added]. *)
Theorem at_added_then_at_removed (c : instance) (h : nat) (s s1 : state) :
  Component_at_added c h s = Ok tt s1 →
  ∃ s2, Component_at_removed c h s1 = Ok tt s2
        ∧ Component_host c s2 = Ok None s2
        ∧ (∀ cs, cmd_set (inst_class c) = Some cs → cs ∉ cmdset (hosts s2 !!! h))
        ∧ set_cmdset [] (hosts s2 !!! h) = set_cmdset [] (hosts s !!! h).
Proof.
  intros Hadd.
  apply Component_at_added_inv in Hadd as (Hbound & _ & Hhost1).
  destruct (Component_at_removed_run c h s1 Hbound) as (s2 & Hrun & Hof & _ & Hhost2).
  exists s2. split; [done|]. split.
  { unfold Component_host. run. by rewrite Hof. }
  rewrite Hhost2, Hhost1. unfold cmdset_out, cmdset_in.
  destruct (cmd_set (inst_class c)) as [cs|]; simpl; split; try done.
  intros ? [= <-]. unfold cmdset_remove. rewrite list_elem_of_filter.
  by intros [? _].
Qed.

Lemma at_added_then_at_removed_witness :
  ∃ s2, Component_at_removed mana_instance 0
          (final_state (Component_at_added mana_instance 0 bob_with_instance))
        = Ok tt s2
        ∧ Component_host mana_instance s2 = Ok None s2
        ∧ (∀ cs, cmd_set (inst_class mana_instance) = Some cs →
                 cs ∉ cmdset (hosts s2 !!! 0))
        ∧ set_cmdset [] (hosts s2 !!! 0) = set_cmdset [] (hosts bob_with_instance !!! 0).
Proof.
  apply (at_added_then_at_removed mana_instance 0 bob_with_instance
           (final_state (Component_at_added mana_instance 0 bob_with_instance))).
  reflexivity.
Defined.

(** ** What an operation leaves alone *)

Lemma keeps_modify {X : Type} (proj : state → X) (f : state → state) :
  (∀ s, proj (f s) = proj s) → keeps proj (modify f).
Proof. intros Hf s. apply Hf. Qed.

(** An update of one host keeps every view of a host that the update
    function does not change. *)
Lemma keeps_host_update {X : Type} (F : host_obj → X) (x h : nat)
    (f : host_obj → host_obj) :
  (∀ o, F (f o) = F o) → keeps (λ s, F (hosts s !!! x)) (update_host h f).
Proof.
  intros Hf s. simpl. destruct (decide (h = x)) as [->|Hne].
  - by rewrite lookup_total_insert_eq.
  - by rewrite lookup_total_insert_ne.
Qed.

Create HintDb py_ops discriminated.
#[local] Hint Unfold read_host read_handler update_handler
  Component_host Component_set_host Component_attributes Component_nattributes
  instance_host_tags host_signals
  AttributeProperty___get__ AttributeProperty___set__ AttributeProperty___delete__
  NAttributeProperty___get__ NAttributeProperty___set__ NAttributeProperty___delete__
  TagField___set__ TagField___delete__ HostField___set__ KeyField___set__
  setattr Component___init__ Component_default_create Component_load
  Component_create Component_at_added Component_at_removed
  get_component_class db_keys db_keys_append db_keys_remove
  ComponentHandler___init__ _set_component _add_component_tags
  _remove_component_tags ComponentHandler_add add_default get_by_key get_by_slot
  has_slot components install_handlers : py_ops.

(** Goes through a computation built from the monad and discharges a
    [keeps] goal whose leaves hold by computation or by
    [keeps_host_update]. *)
Ltac keeps_leaf :=
  first [ apply keeps_ret | apply keeps_raise | apply keeps_gets
        | by intros ?
        | apply keeps_host_update; by intros ? ].

Ltac keeps_go :=
  autounfold with py_ops;
  repeat match goal with
         | |- keeps _ (bind _ _) => apply keeps_bind; [|intros ?]
         | |- keeps _ (for_each _ _) => apply keeps_for_each; intros ?
         | |- keeps _ (match ?x with _ => _ end) => destruct x
         | |- keeps _ (let _ := _ in _) => cbv zeta
         | |- keeps _ _ => keeps_leaf
         end.

Lemma keeps_but_tags_TagField___set__ (x : nat) (f : TagField) (c : instance)
    (v : pyval) :
  keeps (λ s, but_tags (hosts s !!! x)) (TagField___set__ f c v).
Proof. keeps_go. Qed.

Lemma keeps_host_of_TagField___set__ (f : TagField) (c : instance) (v : pyval) :
  keeps host_of (TagField___set__ f c v).
Proof. keeps_go. Qed.

Lemma keeps_but_tags__add_component_tags (x self : nat) (c : instance) :
  keeps (λ s, but_tags (hosts s !!! x)) (_add_component_tags self c).
Proof. keeps_go. Qed.

Lemma keeps_host_of__add_component_tags (self : nat) (c : instance) :
  keeps host_of (_add_component_tags self c).
Proof. keeps_go. Qed.

Lemma keeps_listing_add (self : nat) (c : instance) :
  keeps COMPONENT_LISTING (ComponentHandler_add self c).
Proof. keeps_go. Qed.

Lemma keeps_next_id_add (self : nat) (c : instance) :
  keeps next_id (ComponentHandler_add self c).
Proof. keeps_go. Qed.

Lemma but_tags_eq (o o' : host_obj) :
  but_tags o = but_tags o' →
  db_keys_view o = db_keys_view o'
  ∧ _signal_handler o = _signal_handler o'
  ∧ _component_handler o = _component_handler o'
  ∧ cmdset o = cmdset o'
  ∧ attributes o = attributes o'.
Proof.
  destruct o, o'. unfold but_tags, db_keys_view. simpl. by intros [= -> -> -> -> -> -> -> -> ->].
Qed.

(** ** ComponentHandler.add, step by step *)

Lemma for_each_returns {A : Type} (P : state → Prop) (l : list A)
    (body : A → M unit) (s : state) :
  (∀ x s0, P s0 → ∃ s1, body x s0 = Ok tt s1 ∧ P s1) →
  P s → ∃ s', for_each l body s = Ok tt s' ∧ P s'.
Proof.
  intros Hbody. revert s. induction l as [|x l IH]; intros s HP; simpl.
  - by exists s.
  - destruct (Hbody x s HP) as (s1 & Hrun & HP1).
    rewrite (bind_Ok _ _ _ _ _ Hrun). by apply IH.
Qed.

(** On an instance that has a host, [_add_component_tags] returns; it
    changes tags and nothing else. *)
Lemma _add_component_tags_bound (self h' : nat) (c : instance) (s : state) :
  host_of s !! inst_id c = Some h' →
  ∃ s', _add_component_tags self c s = Ok tt s'
        ∧ handlers s' = handlers s
        ∧ host_of s' = host_of s
        ∧ ∀ x, but_tags (hosts s' !!! x) = but_tags (hosts s !!! x).
Proof.
  intros Hbound.
  assert (Hrun : ∃ s', _add_component_tags self c s = Ok tt s').
  { unfold _add_component_tags. run.
    match goal with |- ∃ s', for_each _ ?b ?s0 = _ =>
      destruct (for_each_returns (λ s1, host_of s1 !! inst_id c = Some h')
                  (_tag_fields (inst_class c)) b s0) as (s' & Hrun & _)
    end.
    - intros nf s0 Hb. destruct (truthy (tag_default nf.2)); [|by exists s0].
      destruct (TagField___set___bound nf.2 c h' (tag_default nf.2) s0 Hb)
        as (s1 & Hrun & Hof & _).
      exists s1. split; [done|]. by rewrite Hof.
    - done.
    - by exists s'. }
  destruct Hrun as (s' & Hrun). exists s'. split; [done|].
  pose proof (keeps_handlers__add_component_tags self c s) as Hhd.
  pose proof (keeps_host_of__add_component_tags self c s) as Hof.
  rewrite Hrun in Hhd, Hof. simpl in Hhd, Hof. repeat split; try done.
  intros x. pose proof (keeps_but_tags__add_component_tags x self c s) as Hx.
  by rewrite Hrun in Hx.
Qed.

Lemma _set_component_run (self h : nat) (c : instance) (g : signals_obj) (s : state) :
  host (handlers s !!! self) = h →
  _signal_handler (hosts s !!! h) = Some g →
  ∃ s', _set_component self c s = Ok tt s'
        ∧ handlers s' !!! self
          = set_loaded (<[get_component_key (inst_class c) := c]>
                          (<[get_component_slot (inst_class c) := c]>
                             (_loaded_components (handlers s !!! self))))
              (handlers s !!! self)
        ∧ host_of s' = host_of s
        ∧ hosts s' !!! h
          = set_signal_handler (Some (add_object_listeners_and_responders c g))
              (hosts s !!! h).
Proof.
  intros Hh Hg. unfold _set_component, host_signals. run.
  rewrite !lookup_total_insert_eq. simpl. rewrite Hh, Hg.
  eexists. split; [reflexivity|]. simpl.
  by rewrite !lookup_total_insert_eq.
Qed.

(** [add] on an instance that has a host, up to its last step: what is
    left to run is [at_added], from a state where the key is already
    persisted and the instance already cached. *)
Lemma ComponentHandler_add_prefix (self h h' : nat) (c : instance)
    (g : signals_obj) (s : state) :
  host (handlers s !!! self) = h →
  _signal_handler (hosts s !!! h) = Some g →
  host_of s !! inst_id c = Some h' →
  ∃ sc, ComponentHandler_add self c s = Component_at_added c h sc
        ∧ handlers sc !!! self
          = set_loaded (<[get_component_key (inst_class c) := c]>
                          (<[get_component_slot (inst_class c) := c]>
                             (_loaded_components (handlers s !!! self))))
              (handlers s !!! self)
        ∧ host_of sc = host_of s
        ∧ db_keys_view (hosts sc !!! h)
          = db_keys_view (hosts s !!! h) ++ [get_component_key (inst_class c)]
        ∧ _signal_handler (hosts sc !!! h)
          = Some (add_object_listeners_and_responders c g)
        ∧ cmdset (hosts sc !!! h) = cmdset (hosts s !!! h)
        ∧ attributes (hosts sc !!! h) = attributes (hosts s !!! h).
Proof.
  intros Hh Hg Hbound. unfold ComponentHandler_add.
  destruct (db_keys_append_run self h (get_component_key (inst_class c)) s Hh)
    as (sa & Hrun_a & Hhd_a & Hof_a & Hhost_a).
  rewrite (bind_Ok _ _ _ _ _ Hrun_a).
  assert (Hh_a : host (handlers sa !!! self) = h) by by rewrite Hhd_a.
  assert (Hg_a : _signal_handler (hosts sa !!! h) = Some g) by by rewrite Hhost_a.
  destruct (_set_component_run self h c g sa Hh_a Hg_a)
    as (sb & Hrun_b & Hhd_b & Hof_b & Hhost_b).
  rewrite (bind_Ok _ _ _ _ _ Hrun_b).
  assert (Hbound_b : host_of sb !! inst_id c = Some h') by by rewrite Hof_b, Hof_a.
  destruct (_add_component_tags_bound self h' c sb Hbound_b)
    as (sc & Hrun_c & Hhd_c & Hof_c & Hhost_c).
  rewrite (bind_Ok _ _ _ _ _ Hrun_c).
  exists sc. split.
  { unfold bind, read_handler, gets. simpl. rewrite Hhd_c, Hhd_b. simpl.
    by rewrite Hh_a. }
  destruct (but_tags_eq _ _ (Hhost_c h)) as (Hview & Hsig & _ & Hcmd & Hattr).
  rewrite Hhd_c, Hhd_b, Hhd_a, Hof_c, Hof_b, Hof_a, Hview, Hsig, Hcmd, Hattr,
    Hhost_b, Hhost_a.
  done.
Qed.

(** [at_added] with the host the instance is bound to returns and keeps
    the binding. *)
Lemma Component_at_added_run (c : instance) (h : nat) (s : state) :
  host_of s !! inst_id c = Some h →
  ∃ s', Component_at_added c h s = Ok tt s'
        ∧ host_of s' = host_of s
        ∧ handlers s' = handlers s
        ∧ hosts s' !!! h = cmdset_in c (hosts s !!! h).
Proof.
  intros Hbound. unfold Component_at_added, Component_host, Component_set_host,
    cmdset_in.
  run. rewrite Hbound. rewrite decide_False by (intros Hne; by apply Hne).
  destruct (cmd_set (inst_class c)); run; eexists; (split; [reflexivity|]); simpl;
    rewrite ?lookup_total_insert_eq, insert_id; done.
Qed.

(** [add] of an instance bound to the host of the handler, in full. *)
Lemma ComponentHandler_add_bound (self h : nat) (c : instance) (g : signals_obj)
    (s : state) :
  host (handlers s !!! self) = h →
  _signal_handler (hosts s !!! h) = Some g →
  host_of s !! inst_id c = Some h →
  ∃ s1, ComponentHandler_add self c s = Ok tt s1
        ∧ handlers s1 !!! self
          = set_loaded (<[get_component_key (inst_class c) := c]>
                          (<[get_component_slot (inst_class c) := c]>
                             (_loaded_components (handlers s !!! self))))
              (handlers s !!! self)
        ∧ host_of s1 = host_of s
        ∧ db_keys_view (hosts s1 !!! h)
          = db_keys_view (hosts s !!! h) ++ [get_component_key (inst_class c)]
        ∧ _signal_handler (hosts s1 !!! h)
          = Some (add_object_listeners_and_responders c g)
        ∧ attributes (hosts s1 !!! h) = attributes (hosts s !!! h).
Proof.
  intros Hh Hg Hbound.
  destruct (ComponentHandler_add_prefix self h h c g s Hh Hg Hbound)
    as (sc & Hadd & Hhd & Hof & Hview & Hsig & _ & Hattr).
  assert (Hbound_c : host_of sc !! inst_id c = Some h) by by rewrite Hof.
  destruct (Component_at_added_run c h sc Hbound_c)
    as (s1 & Hlast & Hof1 & Hhd1 & Hhost1).
  exists s1. split; [by rewrite Hadd|].
  rewrite Hhd1, Hof1, Hhost1, (proj1 (cmdset_in_keeps _ _)),
    (proj2 (proj2 (cmdset_in_keeps _ _))).
  repeat split; try done.
  unfold cmdset_in. by destruct (cmd_set (inst_class c)).
Qed.

Lemma cache_lookups (self : nat) (c : instance) (s s1 : state) :
  handlers s1 !!! self
  = set_loaded (<[get_component_key (inst_class c) := c]>
                  (<[get_component_slot (inst_class c) := c]>
                     (_loaded_components (handlers s !!! self))))
      (handlers s !!! self) →
  get_by_key self (get_component_key (inst_class c)) s1 = Ok (Some c) s1
  ∧ get_by_slot self (get_component_slot (inst_class c)) s1 = Ok (Some c) s1.
Proof.
  intros Hhd. unfold get_by_key, get_by_slot. run. rewrite Hhd. simpl.
  rewrite lookup_insert_eq. split; [done|]. f_equal.
  destruct (decide (get_component_key (inst_class c)
                    = get_component_slot (inst_class c))) as [->|Hne].
  - by rewrite lookup_insert_eq.
  - by rewrite lookup_insert_ne, lookup_insert_eq.
Qed.







(** ** Component.default_create and ComponentHandler.add_default *)

(** A class that has an identity can be instantiated: the new instance
    takes the next free number and is bound to the host. *)
Lemma Component___init___run (cls : klass) (h : nat) (s : state) :
  has_identity cls = true →
  ∃ s', Component___init__ cls (Some h) s
        = Ok {| inst_id := next_id s; inst_class := cls |} s'
        ∧ COMPONENT_LISTING s' = COMPONENT_LISTING s
        ∧ hosts s' = hosts s
        ∧ handlers s' = handlers s
        ∧ host_of s' = <[next_id s := h]> (host_of s)
        ∧ next_id s' = S (next_id s).
Proof.
  unfold has_identity, Component___init__, Component_set_host. intros ->. run.
  eexists. split; [reflexivity|]. done.
Qed.



(** ** ComponentHandler.initialize, key by key *)

Lemma initialize_unfold (self : nat) (s : state) :
  initialize self s
  = (component_keys <- db_keys self ;;
     match component_keys with
     | [] => ret tt
     | _ => for_each component_keys (initialize_body self)
     end) s.
Proof. reflexivity. Qed.

Lemma for_each_app {A : Type} (l1 l2 : list A) (body : A → M unit) (s : state) :
  for_each (l1 ++ l2) body s = (for_each l1 body ;;; for_each l2 body) s.
Proof.
  revert s. induction l1 as [|x l1 IH]; intros s; simpl.
  - reflexivity.
  - unfold bind. destruct (body x s) as [[] s1|e s1]; [|done].
    rewrite IH. reflexivity.
Qed.

(** One turn of the loop for a key that resolves to a class with an
    identity, on a host that has its signals. *)
Lemma initialize_body_run (self h : nat) (k : string) (cls : klass)
    (g : signals_obj) (s : state) :
  host (handlers s !!! self) = h →
  COMPONENT_LISTING s !! Some k = Some cls →
  has_identity cls = true →
  _signal_handler (hosts s !!! h) = Some g →
  let c := {| inst_id := next_id s; inst_class := cls |} in
  ∃ s', initialize_body self k s = Ok tt s'
        ∧ COMPONENT_LISTING s' = COMPONENT_LISTING s
        ∧ handlers s' !!! self
          = set_loaded (<[get_component_key cls := c]>
                          (<[get_component_slot cls := c]>
                             (_loaded_components (handlers s !!! self))))
              (handlers s !!! self)
        ∧ host_of s' = <[next_id s := h]> (host_of s)
        ∧ next_id s' = S (next_id s)
        ∧ hosts s' !!! h
          = set_signal_handler (Some (add_object_listeners_and_responders c g))
              (hosts s !!! h).
Proof.
  intros Hh Hcls Hid Hg c. unfold initialize_body, get_component_class.
  unfold bind at 1. unfold bind at 1, gets at 1. rewrite Hcls.
  unfold ret at 1, bind at 1, read_handler at 1, gets at 1. simpl. rewrite Hh.
  destruct (Component___init___run cls h s Hid)
    as (s0 & Hinit & Hl0 & Hhosts0 & Hhd0 & Hof0 & Hn0).
  unfold Component_load. rewrite (bind_Ok _ _ _ _ _ Hinit). fold c.
  assert (Hh0 : host (handlers s0 !!! self) = h) by by rewrite Hhd0.
  assert (Hg0 : _signal_handler (hosts s0 !!! h) = Some g) by by rewrite Hhosts0.
  destruct (_set_component_run self h c g s0 Hh0 Hg0)
    as (s1 & Hrun & Hhd1 & Hof1 & Hhost1).
  exists s1. split; [done|].
  assert (Hl1 : COMPONENT_LISTING s1 = COMPONENT_LISTING s0).
  { assert (Hk : keeps COMPONENT_LISTING (_set_component self c)) by keeps_go.
    specialize (Hk s0). by rewrite Hrun in Hk. }
  assert (Hn1 : next_id s1 = next_id s0).
  { assert (Hk : keeps next_id (_set_component self c)) by keeps_go.
    specialize (Hk s0). by rewrite Hrun in Hk. }
  rewrite Hl1, Hl0, Hhd1, Hhd0, Hof1, Hof0, Hn1, Hn0, Hhost1, Hhosts0. done.
Qed.

(** The loop over keys that all resolve. *)
Lemma initialize_loop (self h : nat) (l : list string) (s : state) :
  host (handlers s !!! self) = h →
  l = [] ∨ is_Some (_signal_handler (hosts s !!! h)) →
  (∀ k, k ∈ l → ∃ cls, COMPONENT_LISTING s !! Some k = Some cls
                       ∧ has_identity cls = true) →
  ∃ s', for_each l (initialize_body self) s = Ok tt s'
        ∧ COMPONENT_LISTING s' = COMPONENT_LISTING s
        ∧ host (handlers s' !!! self) = h
        ∧ (is_Some (_signal_handler (hosts s !!! h)) →
           is_Some (_signal_handler (hosts s' !!! h)))
        ∧ but_signals (hosts s' !!! h) = but_signals (hosts s !!! h)
        ∧ next_id s ≤ next_id s'
        ∧ (∀ i, i < next_id s → host_of s' !! i = host_of s !! i)
        ∧ (∀ i, next_id s ≤ i < next_id s' → host_of s' !! i = Some h)
        ∧ (∀ key, is_Some (_loaded_components (handlers s !!! self) !! key) →
                  is_Some (_loaded_components (handlers s' !!! self) !! key))
        ∧ (∀ key inst,
             _loaded_components (handlers s' !!! self) !! key = Some inst →
             _loaded_components (handlers s !!! self) !! key = Some inst
             ∨ (next_id s ≤ inst_id inst < next_id s'
                ∧ ∃ k, k ∈ l ∧ COMPONENT_LISTING s !! Some k = Some (inst_class inst)))
        ∧ (∀ k cls, k ∈ l → COMPONENT_LISTING s !! Some k = Some cls →
             is_Some (_loaded_components (handlers s' !!! self)
                        !! get_component_key cls)
             ∧ is_Some (_loaded_components (handlers s' !!! self)
                          !! get_component_slot cls)).
Proof.
  revert s. induction l as [|k l IH]; intros s Hh Hsig Hgood.
  - exists s. simpl. split; [done|]. split; [done|]. split; [done|].
    split; [done|]. split; [done|]. split; [lia|]. split; [done|].
    split; [intros i Hi; lia|]. split; [done|]. split; [intros; by left|].
    intros k cls Hin. by apply not_elem_of_nil in Hin.
  - destruct Hsig as [|[g Hg]]; [done|].
    destruct (Hgood k ltac:(left)) as (cls & Hcls & Hid).
    destruct (initialize_body_run self h k cls g s Hh Hcls Hid Hg)
      as (s1 & Hrun & Hl1 & Hhd1 & Hof1 & Hn1 & Hhost1).
    assert (Hh1 : host (handlers s1 !!! self) = h) by by rewrite Hhd1.
    assert (Hsig1 : l = [] ∨ is_Some (_signal_handler (hosts s1 !!! h))).
    { right. rewrite Hhost1. by eexists. }
    assert (Hgood1 : ∀ k', k' ∈ l →
              ∃ cls', COMPONENT_LISTING s1 !! Some k' = Some cls'
                      ∧ has_identity cls' = true).
    { intros k' Hin. rewrite Hl1. apply Hgood. by right. }
    destruct (IH s1 Hh1 Hsig1 Hgood1)
      as (s' & Hloop & Hl' & Hh' & Hsig' & Hdur' & Hn' & Hold' & Hnew' & Hmono'
          & Hent' & Hdone').
    exists s'. simpl. rewrite (bind_Ok _ _ _ _ _ Hrun). split; [done|].
    rewrite Hn1 in Hn', Hold', Hnew', Hent'.
    split; [by rewrite Hl', Hl1|]. split; [done|].
    split; [intros _; apply Hsig'; rewrite Hhost1; by eexists|].
    split; [by rewrite Hdur', Hhost1|]. split; [lia|].
    split.
    { intros i Hi. rewrite Hold' by lia. rewrite Hof1.
      apply lookup_insert_ne. lia. }
    split.
    { intros i Hi. destruct (decide (i = next_id s)) as [->|Hne].
      - rewrite Hold' by lia. rewrite Hof1. apply lookup_insert_eq.
      - apply Hnew'. lia. }
    assert (Hcache1 : ∀ key,
              _loaded_components (handlers s1 !!! self) !! key
              = if decide (key = get_component_key cls
                           ∨ key = get_component_slot cls)
                then Some {| inst_id := next_id s; inst_class := cls |}
                else _loaded_components (handlers s !!! self) !! key).
    { intros key. rewrite Hhd1. simpl.
      destruct (decide (key = get_component_key cls)) as [->|Hk1].
      - rewrite lookup_insert_eq. by rewrite decide_True by by left.
      - rewrite lookup_insert_ne by done.
        destruct (decide (key = get_component_slot cls)) as [->|Hk2].
        + rewrite lookup_insert_eq. by rewrite decide_True by by right.
        + rewrite lookup_insert_ne by done.
          rewrite decide_False; [done|]. by intros [|]. }
    split.
    { intros key Hsome. apply Hmono'. rewrite Hcache1.
      destruct (decide _); [by eexists | done]. }
    split.
    { intros key inst Hin. destruct (Hent' key inst Hin) as [Hin1|(Hrange & k' & Hk' & Hc')].
      - rewrite Hcache1 in Hin1. destruct (decide _) as [_|_].
        + injection Hin1 as <-. right. simpl. split; [lia|].
          exists k. split; [by left | done].
        + by left.
      - right. split; [lia|]. exists k'. split; [by right|]. by rewrite <- Hl1. }
    intros k' cls' Hin Hcls'. apply elem_of_cons in Hin as [->|Hin].
    + assert (cls' = cls) as -> by congruence.
      split; apply Hmono'; rewrite Hcache1.
      * rewrite decide_True by by left. by eexists.
      * rewrite decide_True by by right. by eexists.
    + apply (Hdone' k' cls'); [done|]. by rewrite Hl1.
Qed.

Lemma db_keys_frame (self : nat) (s : state) :
  COMPONENT_LISTING (final_state (db_keys self s)) = COMPONENT_LISTING s
  ∧ next_id (final_state (db_keys self s)) = next_id s.
Proof.
  assert (H1 : keeps COMPONENT_LISTING (db_keys self)) by keeps_go.
  assert (H2 : keeps next_id (db_keys self)) by keeps_go.
  split; [apply H1 | apply H2].
Qed.

Lemma durable_set_component_keys (o : host_obj) :
  durable (set_component_keys (Some (db_keys_view o)) o) = durable o.
Proof. reflexivity. Qed.

Lemma but_signals_eq (o o' : host_obj) :
  but_signals o = but_signals o' →
  durable o = durable o' ∧ _component_handler o = _component_handler o'.
Proof.
  destruct o, o'. unfold but_signals, durable, db_keys_view. simpl.
  by intros [= -> -> -> -> -> -> -> -> ->].
Qed.

(** X11: when every persisted key resolves to a class that has an identity
    (and the host has its signals, if there is any key at all),
    [initialize] returns; it leaves the host's stores, tags and persisted
    list as they were; the key and the slot of the class of every
    persisted key are cached afterwards; and every cache entry that was not
    there before is an instance bound to the host of the handler whose
    class is the one listed for a persisted key. *)
Theorem initialize_loads (self : nat) (s : state) :
  let h := host (handlers s !!! self) in
  let keys := db_keys_view (hosts s !!! h) in
  keys = [] ∨ is_Some (_signal_handler (hosts s !!! h)) →
  (∀ k, k ∈ keys → ∃ cls, COMPONENT_LISTING s !! Some k = Some cls
                          ∧ has_identity cls = true) →
  ∃ s', initialize self s = Ok tt s'
        ∧ durable (hosts s' !!! h) = durable (hosts s !!! h)
        ∧ (∀ k cls, k ∈ keys → COMPONENT_LISTING s !! Some k = Some cls →
             is_Some (_loaded_components (handlers s' !!! self)
                        !! get_component_key cls)
             ∧ is_Some (_loaded_components (handlers s' !!! self)
                          !! get_component_slot cls))
        ∧ (∀ key inst,
             _loaded_components (handlers s' !!! self) !! key = Some inst →
             _loaded_components (handlers s !!! self) !! key = Some inst
             ∨ (host_of s' !! inst_id inst = Some h
                ∧ ∃ k, k ∈ keys
                       ∧ COMPONENT_LISTING s !! Some k = Some (inst_class inst))).
Proof.
  intros h keys Hsig Hgood. rewrite initialize_unfold.
  destruct (db_keys_run self h s eq_refl) as (s0 & Hrun & Hhd0 & Hof0 & Hhost0).
  destruct (db_keys_frame self s) as [Hl0 Hn0]. rewrite Hrun in Hl0, Hn0.
  simpl in Hl0, Hn0. fold keys in Hrun, Hhost0.
  rewrite (bind_Ok _ _ _ _ _ Hrun).
  assert (Hh0 : host (handlers s0 !!! self) = h) by by rewrite Hhd0.
  assert (Hsig0 : keys = [] ∨ is_Some (_signal_handler (hosts s0 !!! h))).
  { destruct Hsig as [|Hsig]; [by left|]. right. by rewrite Hhost0. }
  assert (Hgood0 : ∀ k, k ∈ keys →
            ∃ cls, COMPONENT_LISTING s0 !! Some k = Some cls ∧ has_identity cls = true).
  { intros k Hin. rewrite Hl0. by apply Hgood. }
  destruct (initialize_loop self h keys s0 Hh0 Hsig0 Hgood0)
    as (s' & Hloop & Hl' & Hh' & _ & Hdur' & Hn' & Hold' & Hnew' & _ & Hent' & Hdone').
  exists s'. split.
  { destruct keys; [|done]. simpl in Hloop. by injection Hloop as <-. }
  split.
  { rewrite (proj1 (but_signals_eq _ _ Hdur')), Hhost0.
    apply durable_set_component_keys. }
  rewrite Hhd0 in Hent'. rewrite Hl0 in Hent', Hdone'. split; [done|].
  intros key inst Hin. destruct (Hent' key inst Hin) as [|(Hrange & Hk)]; [by left|].
  right. split; [|done]. by apply Hnew'.
Qed.

Lemma initialize_loads_witness :
  ∃ s', initialize 1 bob_with_two = Ok tt s'
        ∧ durable (hosts s' !!! host (handlers bob_with_two !!! 1))
          = durable (hosts bob_with_two !!! host (handlers bob_with_two !!! 1))
        ∧ (∀ k cls,
             k ∈ db_keys_view (hosts bob_with_two !!! host (handlers bob_with_two !!! 1)) →
             COMPONENT_LISTING bob_with_two !! Some k = Some cls →
             is_Some (_loaded_components (handlers s' !!! 1) !! get_component_key cls)
             ∧ is_Some (_loaded_components (handlers s' !!! 1) !! get_component_slot cls))
        ∧ (∀ key inst,
             _loaded_components (handlers s' !!! 1) !! key = Some inst →
             _loaded_components (handlers bob_with_two !!! 1) !! key = Some inst
             ∨ (host_of s' !! inst_id inst = Some (host (handlers bob_with_two !!! 1))
                ∧ ∃ k, k ∈ db_keys_view
                             (hosts bob_with_two !!! host (handlers bob_with_two !!! 1))
                       ∧ COMPONENT_LISTING bob_with_two !! Some k
                         = Some (inst_class inst))).
Proof.
  apply (initialize_loads 1 bob_with_two).
  - right. vm_compute. by eexists.
  - intros k Hin. vm_compute in Hin.
    apply elem_of_cons in Hin as [->|Hin]; [exists Mana; by vm_compute|].
    apply elem_of_cons in Hin as [->|Hin]; [exists Fire; by vm_compute|].
    by apply not_elem_of_nil in Hin.
Defined.

(** X12: when the persisted list holds a key the listing does not
    resolve, and every key before it resolves to a class with an identity,
    [initialize] raises [ComponentDoesNotExist] with the message of
    [get_component_class] for that key; the keys before it have been
    loaded and stay cached, and the keys after it are not looked at. *)
Theorem initialize_stops_at_unknown (self : nat) (pre post : list string)
    (k : string) (s : state) :
  let h := host (handlers s !!! self) in
  db_keys_view (hosts s !!! h) = pre ++ k :: post →
  pre = [] ∨ is_Some (_signal_handler (hosts s !!! h)) →
  (∀ k', k' ∈ pre → ∃ cls, COMPONENT_LISTING s !! Some k' = Some cls
                           ∧ has_identity cls = true) →
  COMPONENT_LISTING s !! Some k = None →
  ∃ s', initialize self s = Raise (ComponentDoesNotExist (not_found_message k)) s'
        ∧ durable (hosts s' !!! h) = durable (hosts s !!! h)
        ∧ (∀ k' cls, k' ∈ pre → COMPONENT_LISTING s !! Some k' = Some cls →
             is_Some (_loaded_components (handlers s' !!! self)
                        !! get_component_key cls)
             ∧ is_Some (_loaded_components (handlers s' !!! self)
                          !! get_component_slot cls))
        ∧ (∀ key inst,
             _loaded_components (handlers s' !!! self) !! key = Some inst →
             _loaded_components (handlers s !!! self) !! key = Some inst
             ∨ ∃ k', k' ∈ pre
                     ∧ COMPONENT_LISTING s !! Some k' = Some (inst_class inst)).
Proof.
  intros h Hkeys Hsig Hgood Hmissing. rewrite initialize_unfold.
  destruct (db_keys_run self h s eq_refl) as (s0 & Hrun & Hhd0 & Hof0 & Hhost0).
  destruct (db_keys_frame self s) as [Hl0 Hn0]. rewrite Hrun in Hl0, Hn0.
  simpl in Hl0, Hn0. fold h in Hrun, Hhost0. rewrite Hkeys in Hrun.
  rewrite (bind_Ok _ _ _ _ _ Hrun).
  assert (Hh0 : host (handlers s0 !!! self) = h) by by rewrite Hhd0.
  assert (Hsig0 : pre = [] ∨ is_Some (_signal_handler (hosts s0 !!! h))).
  { destruct Hsig as [|Hsig]; [by left|]. right. by rewrite Hhost0. }
  assert (Hgood0 : ∀ k', k' ∈ pre →
            ∃ cls, COMPONENT_LISTING s0 !! Some k' = Some cls ∧ has_identity cls = true).
  { intros k' Hin. rewrite Hl0. by apply Hgood. }
  destruct (initialize_loop self h pre s0 Hh0 Hsig0 Hgood0)
    as (s' & Hloop & Hl' & Hh' & _ & Hdur' & _ & _ & _ & _ & Hent' & Hdone').
  exists s'. split.
  { assert (Hfor : for_each (pre ++ k :: post) (initialize_body self) s0
                   = Raise (ComponentDoesNotExist (not_found_message k)) s').
    { rewrite for_each_app, (bind_Ok _ _ _ _ _ Hloop). simpl.
      unfold bind at 1, initialize_body, get_component_class.
      unfold bind at 1. unfold bind at 1, gets at 1.
      by rewrite Hl', Hl0, Hmissing. }
    by destruct pre. }
  split.
  { rewrite (proj1 (but_signals_eq _ _ Hdur')), Hhost0, Hkeys. rewrite <- Hkeys.
    apply durable_set_component_keys. }
  rewrite Hhd0 in Hent'. rewrite Hl0 in Hent', Hdone'. split; [done|].
  intros key inst Hin. destruct (Hent' key inst Hin) as [|(_ & Hk)]; [by left|].
  by right.
Qed.

Lemma initialize_stops_at_unknown_witness :
  ∃ s', initialize 1 bob_with_mana_and_ghost
        = Raise (ComponentDoesNotExist (not_found_message "ghost")) s'
        ∧ durable (hosts s' !!! host (handlers bob_with_mana_and_ghost !!! 1))
          = durable (hosts bob_with_mana_and_ghost
                     !!! host (handlers bob_with_mana_and_ghost !!! 1))
        ∧ (∀ k' cls, k' ∈ ["mana"] →
             COMPONENT_LISTING bob_with_mana_and_ghost !! Some k' = Some cls →
             is_Some (_loaded_components (handlers s' !!! 1) !! get_component_key cls)
             ∧ is_Some (_loaded_components (handlers s' !!! 1) !! get_component_slot cls))
        ∧ (∀ key inst,
             _loaded_components (handlers s' !!! 1) !! key = Some inst →
             _loaded_components (handlers bob_with_mana_and_ghost !!! 1) !! key
             = Some inst
             ∨ ∃ k', k' ∈ ["mana"]
                     ∧ COMPONENT_LISTING bob_with_mana_and_ghost !! Some k'
                       = Some (inst_class inst)).
Proof.
  apply (initialize_stops_at_unknown 1 ["mana"] [] "ghost" bob_with_mana_and_ghost).
  - reflexivity.
  - right. vm_compute. by eexists.
  - intros k' Hin. apply elem_of_cons in Hin as [->|Hin]; [exists Mana; by vm_compute|].
    by apply not_elem_of_nil in Hin.
  - reflexivity.
Defined.

(** ** ComponentHolderMixin.at_init *)

Lemma keeps_durable_db_keys (x self : nat) :
  keeps (λ s, durable (hosts s !!! x)) (db_keys self).
Proof.
  intros s. unfold db_keys. run.
  destruct (component_keys (hosts s !!! host (handlers s !!! self))) as [l|] eqn:Hkeys;
    [done|].
  simpl. destruct (decide (host (handlers s !!! self) = x)) as [<-|Hne].
  - rewrite lookup_total_insert_eq. unfold durable, db_keys_view. simpl.
    rewrite Hkeys. by destruct (component_names _) as [[|??]|].
  - by rewrite lookup_total_insert_ne.
Qed.

Lemma keeps_durable_initialize (x self : nat) :
  keeps (λ s, durable (hosts s !!! x)) (initialize self).
Proof.
  unfold initialize. apply keeps_bind; [apply keeps_durable_db_keys|].
  intros [|k l]; [apply keeps_ret|]. keeps_go.
Qed.


Lemma install_handlers_run (h : nat) (s : state) :
  ∃ s', install_handlers h s = Ok tt s'
        ∧ COMPONENT_LISTING s' = COMPONENT_LISTING s
        ∧ handlers s' !!! next_id s = {| host := h; _loaded_components := ∅ |}
        ∧ host_of s' = host_of s
        ∧ next_id s' = S (next_id s)
        ∧ hosts s' !!! h
          = set_signal_handler (Some {| listeners := []; triggered := [] |})
              (set_component_handler (Some (next_id s)) (hosts s !!! h)).
Proof.
  eexists. split; [reflexivity|]. simpl.
  by rewrite !lookup_total_insert_eq.
Qed.

(** X14: [at_init] on a host whose persisted keys all resolve to classes
    with an identity returns.  The host then has a new handler; for every
    persisted key that handler gives, under the key of the class, an
    instance bound to the host; it holds nothing but instances of classes
    listed for persisted keys; and a [DBField] read through any instance
    bound to the host gives what was stored before [at_init]. *)
Theorem at_init_reloads (h : nat) (s : state) :
  let keys := db_keys_view (hosts s !!! h) in
  (∀ k, k ∈ keys → ∃ cls, COMPONENT_LISTING s !! Some k = Some cls
                          ∧ has_identity cls = true) →
  ∃ s', at_init h s = Ok tt s'
        ∧ components h s' = Ok (Some (next_id s)) s'
        ∧ (∀ k cls, k ∈ keys → COMPONENT_LISTING s !! Some k = Some cls →
             ∃ inst, get_by_key (next_id s) (get_component_key cls) s'
                     = Ok (Some inst) s'
                     ∧ Component_host inst s' = Ok (Some h) s')
        ∧ (∀ key inst, get_by_slot (next_id s) key s' = Ok (Some inst) s' →
             ∃ k, k ∈ keys ∧ COMPONENT_LISTING s !! Some k = Some (inst_class inst))
        ∧ (∀ inst f, Component_host inst s' = Ok (Some h) s' →
             AttributeProperty___get__ f inst s'
             = Ok (default (db_default f) (attributes (hosts s !!! h) !! db_key f)) s').
Proof.
  intros keys Hgood. unfold at_init.
  destruct (install_handlers_run h s) as (s0 & Hrun0 & Hl0 & Hhd0 & Hof0 & Hn0 & Hhost0).
  rewrite (bind_Ok _ _ _ _ _ Hrun0).
  assert (Hc0 : components h s0 = Ok (Some (next_id s)) s0).
  { unfold components. run. by rewrite Hhost0. }
  rewrite (bind_Ok _ _ _ _ _ Hc0).
  set (r := next_id s) in *.
  assert (Hh0 : host (handlers s0 !!! r) = h) by by rewrite Hhd0.
  assert (Hview0 : db_keys_view (hosts s0 !!! h) = keys) by by rewrite Hhost0.
  destruct (db_keys_run r h s0 Hh0) as (sa & Hrun_a & Hhd_a & Hof_a & Hhost_a).
  destruct (db_keys_frame r s0) as [Hl_a _]. rewrite Hrun_a in Hl_a. simpl in Hl_a.
  rewrite Hview0 in Hrun_a.
  destruct (initialize_loop r h keys sa)
    as (s1 & Hloop & _ & _ & Hsig_b & Hbs_b & _ & _ & Hnew_b & _ & Hent_b & Hdone_b).
  { by rewrite Hhd_a. }
  { right. rewrite Hhost_a, Hhost0. by eexists. }
  { intros k Hin. rewrite Hl_a, Hl0. by apply Hgood. }
  assert (Hrun1 : initialize r s0 = Ok tt s1).
  { rewrite initialize_unfold, (bind_Ok _ _ _ _ _ Hrun_a).
    destruct keys; [|done]. simpl in Hloop. by injection Hloop as <-. }
  rewrite (bind_Ok _ _ _ _ _ Hrun1).
  assert (Hdur1 : durable (hosts s1 !!! h) = durable (hosts s0 !!! h)).
  { rewrite (proj1 (but_signals_eq _ _ Hbs_b)), Hhost_a.
    apply durable_set_component_keys. }
  assert (Hdone1 : ∀ k cls, k ∈ keys → COMPONENT_LISTING s !! Some k = Some cls →
            is_Some (_loaded_components (handlers s1 !!! r) !! get_component_key cls)
            ∧ is_Some (_loaded_components (handlers s1 !!! r)
                         !! get_component_slot cls)).
  { intros k cls Hin Hcls. apply (Hdone_b k cls Hin). by rewrite Hl_a, Hl0. }
  assert (Hent1 : ∀ key inst,
            _loaded_components (handlers s1 !!! r) !! key = Some inst →
            (∅ : gmap string instance) !! key = Some inst
            ∨ (host_of s1 !! inst_id inst = Some h
               ∧ ∃ k, k ∈ keys
                      ∧ COMPONENT_LISTING s !! Some k = Some (inst_class inst))).
  { intros key inst Hin. destruct (Hent_b key inst Hin) as [Hold|(Hrange & k & Hk & Hc)].
    - left. by rewrite Hhd_a, Hhd0 in Hold.
    - right. split; [by apply Hnew_b|]. exists k. split; [done|].
      by rewrite Hl_a, Hl0 in Hc. }
  assert (Hframe : _component_handler (hosts s1 !!! h) = Some r
                   ∧ is_Some (_signal_handler (hosts s1 !!! h))).
  { split.
    - rewrite (proj2 (but_signals_eq _ _ Hbs_b)), Hhost_a, Hhost0. done.
    - apply Hsig_b. rewrite Hhost_a, Hhost0. by eexists. }
  destruct Hframe as [Hch1 [g1 Hg1]].
  destruct (host_signals_run h "trigger" (trigger "at_after_init") g1 s1 Hg1)
    as (s2 & Hrun2 & Hhd2 & Hof2 & Hhost2).
  exists s2. split; [done|]. split.
  { unfold components. run. rewrite Hhost2. simpl. by rewrite Hch1. }
  split.
  { intros k cls Hin Hcls. destruct (Hdone1 k cls Hin Hcls) as [[inst Hinst] _].
    exists inst. unfold get_by_key, Component_host. run. rewrite Hhd2, Hof2, Hinst.
    split; [done|]. destruct (Hent1 _ _ Hinst) as [Hold|[Hb _]].
    - by rewrite lookup_empty in Hold.
    - by rewrite Hb. }
  split.
  { intros key inst. unfold get_by_slot. run. rewrite Hhd2. intros [= Hinst].
    destruct (Hent1 _ _ Hinst) as [Hold|[_ Hk]]; [|done].
    by rewrite lookup_empty in Hold. }
  intros inst f. unfold Component_host, AttributeProperty___get__,
    Component_attributes, Component_host. run.
  intros [= Hb]. rewrite Hb. run. do 2 f_equal.
  assert (Hdur2 : durable (hosts s2 !!! h) = durable (hosts s !!! h)).
  { rewrite Hhost2. etrans; [|etrans; [exact Hdur1|]]; [done|]. by rewrite Hhost0. }
  by injection Hdur2 as ->.
Qed.

Lemma at_init_reloads_witness :
  ∃ s', at_init 0 bob_with_two = Ok tt s'
        ∧ components 0 s' = Ok (Some (next_id bob_with_two)) s'
        ∧ (∀ k cls, k ∈ db_keys_view (hosts bob_with_two !!! 0) →
             COMPONENT_LISTING bob_with_two !! Some k = Some cls →
             ∃ inst, get_by_key (next_id bob_with_two) (get_component_key cls) s'
                     = Ok (Some inst) s'
                     ∧ Component_host inst s' = Ok (Some 0) s')
        ∧ (∀ key inst, get_by_slot (next_id bob_with_two) key s' = Ok (Some inst) s' →
             ∃ k, k ∈ db_keys_view (hosts bob_with_two !!! 0)
                  ∧ COMPONENT_LISTING bob_with_two !! Some k = Some (inst_class inst))
        ∧ (∀ inst f, Component_host inst s' = Ok (Some 0) s' →
             AttributeProperty___get__ f inst s'
             = Ok (default (db_default f)
                     (attributes (hosts bob_with_two !!! 0) !! db_key f)) s').
Proof.
  apply (at_init_reloads 0 bob_with_two).
  intros k Hin. vm_compute in Hin.
  apply elem_of_cons in Hin as [->|Hin]; [exists Mana; by vm_compute|].
  apply elem_of_cons in Hin as [->|Hin]; [exists Fire; by vm_compute|].
  by apply not_elem_of_nil in Hin.
Defined.

(** ** The descriptors on a bound instance *)

(** X15: on an instance bound to a host, setting a value through a
    [TagField] and then deleting the field returns and leaves the host with
    its earlier tags minus every tag of the category of the field: the
    deletion takes the tags that were there before the assignment too, and
    no tag of another category. *)
Theorem TagField_set_then_delete (f : TagField) (inst : instance) (h : nat)
    (v : pyval) (s : state) :
  host_of s !! inst_id inst = Some h →
  ∃ s', (TagField___set__ f inst v ;;; TagField___delete__ f inst) s = Ok tt s'
        ∧ tags (hosts s' !!! h) = tags_clear (tag_category_key f) (tags (hosts s !!! h))
        ∧ tags_in (tag_category_key f) (tags (hosts s' !!! h)) = ∅
        ∧ ∀ category, category ≠ tag_category_key f →
            tags_in category (tags (hosts s' !!! h))
            = tags_in category (tags (hosts s !!! h)).
Proof.
  intros Hbound.
  destruct (TagField___set___bound f inst h v s Hbound) as (s1 & Hrun1 & Hof1 & Htags1).
  rewrite (bind_Ok _ _ _ _ _ Hrun1).
  unfold TagField___delete__, instance_host_tags, Component_host. run.
  rewrite Hof1, Hbound. run. eexists. split; [reflexivity|]. simpl.
  rewrite lookup_total_insert_eq. simpl. rewrite Htags1.
  assert (Hclear : tags_clear (tag_category_key f)
                     (tags_add v (tag_category_key f)
                        (if tag_enforce_single f
                         then tags_clear (tag_category_key f) (tags (hosts s !!! h))
                         else tags (hosts s !!! h)))
                   = tags_clear (tag_category_key f) (tags (hosts s !!! h))).
  { apply set_eq. intros [k c].
    rewrite !elem_of_tags_clear, elem_of_tags_add. simpl.
    destruct (tag_enforce_single f).
    - rewrite elem_of_tags_clear. simpl. split.
      + intros [Hc [[_ Hin]|[= _ ->]]]; done.
      + intros [Hc Hin]. auto.
    - split.
      + intros [Hc [Hin|[= _ ->]]]; done.
      + intros [Hc Hin]. auto. }
  rewrite Hclear. split; [done|]. split.
  - apply set_eq. intros kc. rewrite elem_of_tags_in, elem_of_tags_clear.
    split; [intros [? [? _]]; done | by intros ?%not_elem_of_empty].
  - intros category Hne. apply set_eq. intros kc.
    rewrite !elem_of_tags_in, elem_of_tags_clear. split.
    + intros [? [_ ?]]. done.
    + intros [Hc Hin]. split; [done|]. split; [|done]. by rewrite Hc.
Qed.

Lemma TagField_set_then_delete_witness :
  ∃ s', (TagField___set__ many_tags mana_instance (PyStr "fire") ;;;
         TagField___delete__ many_tags mana_instance) bob_with_instance = Ok tt s'
        ∧ tags (hosts s' !!! 0)
          = tags_clear (tag_category_key many_tags) (tags (hosts bob_with_instance !!! 0))
        ∧ tags_in (tag_category_key many_tags) (tags (hosts s' !!! 0)) = ∅
        ∧ ∀ category, category ≠ tag_category_key many_tags →
            tags_in category (tags (hosts s' !!! 0))
            = tags_in category (tags (hosts bob_with_instance !!! 0)).
Proof.
  apply (TagField_set_then_delete many_tags mana_instance 0 (PyStr "fire")
           bob_with_instance).
  reflexivity.
Defined.

(** X16: on an instance bound to a host, a value assigned through an
    overridable [HostField] is what the next read gives, unless the value
    is [None]: then the read falls through to the attribute of the host, or
    to the fallback when the host has no such attribute. *)
Theorem HostField_override (f : HostField) (inst : instance) (h : nat) (a : string)
    (v : pyval) (s : state) :
  overridable f = true →
  host_attribute f = Some a →
  host_of s !! inst_id inst = Some h →
  ∃ s', HostField___set__ f inst v s = Ok tt s'
        ∧ HostField___get__ f inst s'
          = Ok (if py_eqb v PyNone
                then default (_fallback_default f) (host_getattr (hosts s !!! h) a)
                else v) s'.
Proof.
  intros Hov Hattr Hbound. unfold HostField___set__, HostField___get__.
  rewrite Hov, Hattr.
  destruct (AttributeProperty_set_get (host_base f) inst h v s Hbound)
    as (s' & Hset & _ & Hget).
  exists s'. split; [done|]. rewrite (bind_Ok _ _ _ _ _ Hget).
  destruct (py_eqb v PyNone) eqn:Hnone; simpl; [|done].
  assert (Hframe : host_of s' = host_of s ∧ py_attrs (hosts s' !!! h) = py_attrs (hosts s !!! h)
                   ∧ host_name (hosts s' !!! h) = host_name (hosts s !!! h)).
  { assert (H1 : keeps host_of (AttributeProperty___set__ (host_base f) inst v))
      by keeps_go.
    assert (H2 : keeps (λ s, py_attrs (hosts s !!! h))
                   (AttributeProperty___set__ (host_base f) inst v)) by keeps_go.
    assert (H3 : keeps (λ s, host_name (hosts s !!! h))
                   (AttributeProperty___set__ (host_base f) inst v)) by keeps_go.
    specialize (H1 s). specialize (H2 s). specialize (H3 s).
    by rewrite Hset in H1, H2, H3. }
  destruct Hframe as (Hof & Hpy & Hname).
  unfold Component_host. run. rewrite Hof, Hbound. run.
  unfold host_getattr. by rewrite Hpy, Hname.
Qed.

Lemma HostField_override_witness :
  ∃ s', HostField___set__ overridable_strength mana_instance (PyInt 30)
          bob_with_instance = Ok tt s'
        ∧ HostField___get__ overridable_strength mana_instance s'
          = Ok (if py_eqb (PyInt 30) PyNone
                then default (_fallback_default overridable_strength)
                       (host_getattr (hosts bob_with_instance !!! 0) "strength")
                else PyInt 30) s'.
Proof.
  apply (HostField_override overridable_strength mana_instance 0 "strength"
           (PyInt 30) bob_with_instance); reflexivity.
Defined.

(** X17: a [KeyField] built with a default keeps the normalized default,
    and a read through an instance bound to a host that has nothing stored
    under the key of the field gives what the mapping holds for that
    default; a default that is neither a string, an integer nor [None] and
    has no true [key] is refused by the constructor. *)
Theorem KeyField_default (l : list (pyval * pyval)) (d : pyval) (autocreate : bool) :
  (is_str_or_int d || py_eqb d PyNone || truthy (getattr_key d) = false →
   KeyField___init__ l d autocreate
   = Raises (ValueError "Only str, int, or instances with keys are supported"))
  ∧ (is_str_or_int d || py_eqb d PyNone || truthy (getattr_key d) = true →
     ∃ f, KeyField___init__ l d autocreate = Returns f
          ∧ db_default (key_base f) = normalized d
          ∧ ∀ inst h s, host_of s !! inst_id inst = Some h →
                        stored (key_base f) h s = None →
                        KeyField___get__ f inst s = Ok (mapping_get l (normalized d)) s).
Proof.
  unfold KeyField___init__, normalized. split.
  - intros Hcase. apply orb_false_iff in Hcase as [Hcase Hkey].
    apply orb_false_iff in Hcase as [Hid Hnone]. by rewrite Hid, Hnone, Hkey.
  - intros Hcase.
    destruct (is_str_or_int d) eqn:Hid; destruct (py_eqb d PyNone) eqn:Hnone;
      simpl in *; try rewrite Hcase; simpl;
      (eexists; split; [reflexivity|]; split; [reflexivity|]);
      intros inst h s Hbound Hstored;
      unfold KeyField___get__, AttributeProperty___get__, Component_attributes,
        Component_host, stored in *; run; rewrite Hbound; run;
      simpl in Hstored; by rewrite Hstored.
Qed.

Lemma KeyField_default_witness :
  ∃ f, KeyField___init__ [(PyStr "sword1", PyObj 40)] (PyKeyed 9 (PyStr "sword1")) false
       = Returns f
       ∧ db_default (key_base f) = normalized (PyKeyed 9 (PyStr "sword1"))
       ∧ ∀ inst h s, host_of s !! inst_id inst = Some h →
                     stored (key_base f) h s = None →
                     KeyField___get__ f inst s
                     = Ok (mapping_get [(PyStr "sword1", PyObj 40)]
                             (normalized (PyKeyed 9 (PyStr "sword1")))) s.
Proof.
  apply (proj2 (KeyField_default [(PyStr "sword1", PyObj 40)]
                  (PyKeyed 9 (PyStr "sword1")) false)).
  reflexivity.
Defined.

(** X18: on an instance bound to a host, [NDBField.at_added] of a field
    with [autocreate] puts the default in the in-memory store, where the
    next read finds it, and [NDBField.at_removed] takes it out again; the
    in-memory store is then the earlier one without the key of the field,
    and the persisted store has not changed. *)
Theorem NDBField_added_then_removed (f : NDBField) (inst : instance) (h : nat)
    (s : state) :
  ndb_autocreate f = true →
  host_of s !! inst_id inst = Some h →
  ∃ s1 s2, NDBField_at_added f inst s = Ok tt s1
           ∧ NAttributeProperty___get__ f inst s1 = Ok (ndb_default f) s1
           ∧ NDBField_at_removed f inst s1 = Ok tt s2
           ∧ nattributes (hosts s2 !!! h) = delete (ndb_key f) (nattributes (hosts s !!! h))
           ∧ attributes (hosts s2 !!! h) = attributes (hosts s !!! h).
Proof.
  intros Hauto Hbound.
  unfold NDBField_at_added, NDBField_at_removed, NAttributeProperty___set__,
    NAttributeProperty___get__, NAttributeProperty___delete__,
    Component_nattributes, Component_host.
  rewrite Hauto. run. rewrite Hbound. run. eexists _, _.
  split; [reflexivity|]. simpl. rewrite Hbound. simpl.
  rewrite !lookup_total_insert_eq. simpl. rewrite lookup_insert_eq.
  split; [done|]. split; [reflexivity|]. simpl.
  rewrite !lookup_total_insert_eq. simpl. by rewrite delete_insert_eq.
Qed.

Lemma NDBField_added_then_removed_witness :
  ∃ s1 s2, NDBField_at_added cached_total mana_instance bob_with_instance = Ok tt s1
           ∧ NAttributeProperty___get__ cached_total mana_instance s1
             = Ok (ndb_default cached_total) s1
           ∧ NDBField_at_removed cached_total mana_instance s1 = Ok tt s2
           ∧ nattributes (hosts s2 !!! 0)
             = delete (ndb_key cached_total) (nattributes (hosts bob_with_instance !!! 0))
           ∧ attributes (hosts s2 !!! 0) = attributes (hosts bob_with_instance !!! 0).
Proof.
  apply (NDBField_added_then_removed cached_total mana_instance 0 bob_with_instance);
    reflexivity.
Defined.

(** ** ComponentProperty *)

(** X19: the properties written in a class body end up, in the order they
    are written, after what attribute lookup gave for [_class_components]
    before: the class's own list when it had one, else the list of its
    bases, else nothing. *)
Theorem class_components_in_order (owner : holder_class) (ps : list ComponentProperty) :
  getattr_class_components (attach_properties owner ps) []
  = getattr_class_components owner []
    ++ ((λ p, (property_component_key p, values p)) <$> ps).
Proof.
  unfold attach_properties. revert owner. induction ps as [|p ps IH]; intros owner.
  - simpl. by rewrite app_nil_r.
  - simpl. rewrite IH.
    assert (Hstep : getattr_class_components (ComponentProperty___set_name__ p owner) []
                    = getattr_class_components owner []
                      ++ [(property_component_key p, values p)]).
    { unfold ComponentProperty___set_name__, getattr_class_components. simpl.
      by destruct (own_class_components owner) as [[|e l]|]. }
    by rewrite Hstep, <- app_assoc.
Qed.

(** ** Component.cleanup *)

Lemma foldl_delete_lookup (ks : list string) (m : gmap string pyval) (k : string) :
  foldl (λ m k, delete k m) m ks !! k
  = if decide (k ∈ ks) then None else m !! k.
Proof.
  revert m. induction ks as [|k' ks IH]; intros m.
  - destruct (decide (k ∈ [])) as [Hin|_]; [by apply not_elem_of_nil in Hin | done].
  - change (foldl (λ m k, delete k m) m (k' :: ks))
      with (foldl (λ m k, delete k m) (delete k' m) ks).
    rewrite IH.
    destruct (decide (k ∈ ks)) as [Hin|Hnotin];
      destruct (decide (k ∈ k' :: ks)) as [Hin'|Hnotin']; try done.
    + exfalso. apply Hnotin'. by right.
    + apply elem_of_cons in Hin' as [->|?]; [|done]. apply lookup_delete_eq.
    + rewrite lookup_delete_ne; [done|]. intros ->. apply Hnotin'. by left.
Qed.

Lemma AttributeProperty___delete___run (f : DBField) (inst : instance) (h : nat)
    (s : state) :
  host_of s !! inst_id inst = Some h →
  ∃ s', AttributeProperty___delete__ f inst s = Ok tt s'
        ∧ host_of s' = host_of s
        ∧ hosts s' !!! h
          = set_attributes (delete (db_key f) (attributes (hosts s !!! h)))
              (hosts s !!! h).
Proof.
  intros Hbound. unfold AttributeProperty___delete__, Component_attributes,
    Component_host. run. rewrite Hbound. run. eexists. split; [reflexivity|].
  simpl. by rewrite lookup_total_insert_eq.
Qed.

Lemma NAttributeProperty___delete___run (f : NDBField) (inst : instance) (h : nat)
    (s : state) :
  host_of s !! inst_id inst = Some h →
  ∃ s', NAttributeProperty___delete__ f inst s = Ok tt s'
        ∧ host_of s' = host_of s
        ∧ hosts s' !!! h
          = set_nattributes (delete (ndb_key f) (nattributes (hosts s !!! h)))
              (hosts s !!! h).
Proof.
  intros Hbound. unfold NAttributeProperty___delete__, Component_nattributes,
    Component_host. run. rewrite Hbound. run. eexists. split; [reflexivity|].
  simpl. by rewrite lookup_total_insert_eq.
Qed.

(** X20: [cleanup] on an instance bound to a host returns; afterwards the
    persisted store holds nothing under the key of any field of the
    [_db_fields] table and the in-memory store nothing under the key of any
    field of the [_ndb_fields] table, every other key of the two stores
    holds what it held, and the tags and the persisted list are
    untouched. *)
Theorem cleanup_deletes_fields (inst : instance) (h : nat) (s : state) :
  host_of s !! inst_id inst = Some h →
  ∃ s', cleanup inst s = Ok tt s'
        ∧ (∀ k, attributes (hosts s' !!! h) !! k
                = if decide (k ∈ declared_db_keys (inst_class inst)) then None
                  else attributes (hosts s !!! h) !! k)
        ∧ (∀ k, nattributes (hosts s' !!! h) !! k
                = if decide (k ∈ declared_ndb_keys (inst_class inst)) then None
                  else nattributes (hosts s !!! h) !! k)
        ∧ but_fields (hosts s' !!! h) = but_fields (hosts s !!! h).
Proof.
  intros Hbound. unfold cleanup, declared_db_keys, declared_ndb_keys.
  assert (Hdb : ∀ l s0, host_of s0 !! inst_id inst = Some h →
            ∃ s1, for_each l
                    (λ nf : string * field,
                       match nf.2 with
                           | FDB f => AttributeProperty___delete__ f inst
                           | FHost f => AttributeProperty___delete__ (host_base f) inst
                           | FKey f => AttributeProperty___delete__ (key_base f) inst
                           | FNDB _ | FTag _ => ret tt
                           end) s0 = Ok tt s1
                  ∧ host_of s1 = host_of s0
                  ∧ hosts s1 !!! h
                    = set_attributes
                        (foldl (λ m k, delete k m) (attributes (hosts s0 !!! h))
                           (omap (λ nf : string * field, db_storage_key nf.2) l))
                        (hosts s0 !!! h)).
  { clear. intros l. induction l as [|[n f] l IH]; intros s0 Hb; simpl.
    - exists s0. split; [done|]. split; [done|]. by destruct (hosts s0 !!! h).
    - assert (Hstep : ∃ s1,
                match f with
                | FDB f0 => AttributeProperty___delete__ f0 inst
                | FHost f0 => AttributeProperty___delete__ (host_base f0) inst
                | FKey f0 => AttributeProperty___delete__ (key_base f0) inst
                | FNDB _ | FTag _ => ret tt
                end s0 = Ok tt s1
                ∧ host_of s1 = host_of s0
                ∧ hosts s1 !!! h
                  = set_attributes
                      (match db_storage_key f with
                       | Some k => delete k (attributes (hosts s0 !!! h))
                       | None => attributes (hosts s0 !!! h)
                       end) (hosts s0 !!! h)).
      { destruct f as [d|nd|t|hf|kf]; simpl;
          try (by apply AttributeProperty___delete___run);
          (exists s0; split; [done|]; split; [done|]; by destruct (hosts s0 !!! h)). }
      destruct Hstep as (s1 & Hrun1 & Hof1 & Hhost1).
      rewrite (bind_Ok _ _ _ _ _ Hrun1).
      destruct (IH s1) as (s2 & Hrun2 & Hof2 & Hhost2); [by rewrite Hof1|].
      exists s2. split; [done|]. split; [by rewrite Hof2|].
      rewrite Hhost2, Hhost1. simpl. by destruct (db_storage_key f). }
  assert (Hndb : ∀ l s0, host_of s0 !! inst_id inst = Some h →
            ∃ s1, for_each l (λ nf : string * NDBField,
                                NAttributeProperty___delete__ nf.2 inst) s0 = Ok tt s1
                  ∧ host_of s1 = host_of s0
                  ∧ hosts s1 !!! h
                    = set_nattributes
                        (foldl (λ m k, delete k m) (nattributes (hosts s0 !!! h))
                           ((λ nf : string * NDBField, ndb_key nf.2) <$> l))
                        (hosts s0 !!! h)).
  { clear. intros l. induction l as [|[n f] l IH]; intros s0 Hb; simpl.
    - exists s0. split; [done|]. split; [done|]. by destruct (hosts s0 !!! h).
    - destruct (NAttributeProperty___delete___run f inst h s0 Hb)
        as (s1 & Hrun1 & Hof1 & Hhost1).
      rewrite (bind_Ok _ _ _ _ _ Hrun1).
      destruct (IH s1) as (s2 & Hrun2 & Hof2 & Hhost2); [by rewrite Hof1|].
      exists s2. split; [done|]. split; [by rewrite Hof2|].
      rewrite Hhost2, Hhost1. done. }
  destruct (Hdb (_db_fields (inst_class inst)) s Hbound) as (s1 & Hrun1 & Hof1 & Hhost1).
  rewrite (bind_Ok _ _ _ _ _ Hrun1).
  destruct (Hndb (_ndb_fields (inst_class inst)) s1) as (s2 & Hrun2 & Hof2 & Hhost2);
    [by rewrite Hof1|].
  exists s2. split; [done|]. rewrite Hhost2, Hhost1. simpl.
  split; [intros k; apply foldl_delete_lookup|].
  split; [intros k; apply foldl_delete_lookup|]. done.
Qed.

Lemma cleanup_deletes_fields_witness :
  ∃ s', cleanup stats_instance bob_with_instance = Ok tt s'
        ∧ (∀ k, attributes (hosts s' !!! 0) !! k
                = if decide (k ∈ declared_db_keys (inst_class stats_instance)) then None
                  else attributes (hosts bob_with_instance !!! 0) !! k)
        ∧ (∀ k, nattributes (hosts s' !!! 0) !! k
                = if decide (k ∈ declared_ndb_keys (inst_class stats_instance)) then None
                  else nattributes (hosts bob_with_instance !!! 0) !! k)
        ∧ but_fields (hosts s' !!! 0) = but_fields (hosts bob_with_instance !!! 0).
Proof.
  apply (cleanup_deletes_fields stats_instance 0 bob_with_instance). reflexivity.
Defined.

(** ** ComponentHolderMixin.basetype_setup *)

Lemma basetype_setup_unfold (self : nat)
    (class_components : list (string * list (string * pyval))) (s : state) :
  basetype_setup self class_components s
  = (install_handlers self ;;;
     for_each class_components (basetype_setup_body self) ;;;
     host_signals self "trigger" (trigger "at_basetype_setup")) s.
Proof. reflexivity. Qed.

Lemma but_fields_eq (o o' : host_obj) :
  but_fields o = but_fields o' →
  db_keys_view o = db_keys_view o'
  ∧ _signal_handler o = _signal_handler o'
  ∧ _component_handler o = _component_handler o'.
Proof.
  destruct o, o'. unfold but_fields, db_keys_view. simpl.
  by intros [= -> -> -> -> -> -> ->].
Qed.

(** [setattr] on an instance that has a host takes every assignable
    keyword argument, and changes nothing but the stores and the tags. *)
Lemma setattr_run (c : instance) (h' : nat) (kv : string * pyval) (s : state) :
  host_of s !! inst_id c = Some h' →
  assignable (inst_class c) kv = true →
  ∃ s', setattr c kv.1 kv.2 s = Ok tt s'
        ∧ COMPONENT_LISTING s' = COMPONENT_LISTING s
        ∧ handlers s' = handlers s
        ∧ host_of s' = host_of s
        ∧ next_id s' = next_id s
        ∧ ∀ x, but_fields (hosts s' !!! x) = but_fields (hosts s !!! x).
Proof.
  intros Hbound Hok.
  assert (Hrun : ∃ s', setattr c kv.1 kv.2 s = Ok tt s').
  { unfold setattr, assignable in *.
    destruct (dict_get (_db_fields (inst_class c)) kv.1) as [[d|nd|t|hf|kf]|];
      [ | | | | | ].
    - unfold AttributeProperty___set__, Component_attributes, Component_host.
      run. rewrite Hbound. by eexists.
    - destruct (dict_get (_ndb_fields (inst_class c)) kv.1) as [f|].
      + unfold NAttributeProperty___set__, Component_nattributes, Component_host.
        run. rewrite Hbound. by eexists.
      + destruct (dict_get (_tag_fields (inst_class c)) kv.1) as [f|]; [|by eexists].
        destruct (TagField___set___bound f c h' kv.2 s Hbound) as (s' & Hs & _).
        by exists s'.
    - destruct (dict_get (_ndb_fields (inst_class c)) kv.1) as [f|].
      + unfold NAttributeProperty___set__, Component_nattributes, Component_host.
        run. rewrite Hbound. by eexists.
      + destruct (dict_get (_tag_fields (inst_class c)) kv.1) as [f|]; [|by eexists].
        destruct (TagField___set___bound f c h' kv.2 s Hbound) as (s' & Hs & _).
        by exists s'.
    - unfold HostField___set__. rewrite Hok.
      unfold AttributeProperty___set__, Component_attributes, Component_host.
      run. rewrite Hbound. by eexists.
    - unfold KeyField___set__.
      destruct (is_str_or_int kv.2); simpl in *; [|rewrite Hok; simpl];
        unfold AttributeProperty___set__, Component_attributes, Component_host;
        run; rewrite Hbound; by eexists.
    - destruct (dict_get (_ndb_fields (inst_class c)) kv.1) as [f|].
      + unfold NAttributeProperty___set__, Component_nattributes, Component_host.
        run. rewrite Hbound. by eexists.
      + destruct (dict_get (_tag_fields (inst_class c)) kv.1) as [f|]; [|by eexists].
        destruct (TagField___set___bound f c h' kv.2 s Hbound) as (s' & Hs & _).
        by exists s'. }
  destruct Hrun as (s' & Hrun). exists s'. split; [done|].
  assert (K1 : keeps COMPONENT_LISTING (setattr c kv.1 kv.2)) by keeps_go.
  assert (K2 : keeps handlers (setattr c kv.1 kv.2)) by keeps_go.
  assert (K3 : keeps host_of (setattr c kv.1 kv.2)) by keeps_go.
  assert (K4 : keeps next_id (setattr c kv.1 kv.2)) by keeps_go.
  specialize (K1 s). specialize (K2 s). specialize (K3 s). specialize (K4 s).
  rewrite Hrun in K1, K2, K3, K4. repeat split; try done.
  intros x.
  assert (K5 : keeps (λ s, but_fields (hosts s !!! x)) (setattr c kv.1 kv.2))
    by keeps_go.
  specialize (K5 s). by rewrite Hrun in K5.
Qed.

(** [create] for a class with an identity and assignable keyword
    arguments. *)
Lemma Component_create_run (cls : klass) (h : nat) (kwargs : list (string * pyval))
    (s : state) :
  has_identity cls = true →
  forallb (assignable cls) kwargs = true →
  ∃ s', Component_create cls h kwargs s
        = Ok {| inst_id := next_id s; inst_class := cls |} s'
        ∧ COMPONENT_LISTING s' = COMPONENT_LISTING s
        ∧ handlers s' = handlers s
        ∧ host_of s' = <[next_id s := h]> (host_of s)
        ∧ next_id s' = S (next_id s)
        ∧ ∀ x, but_fields (hosts s' !!! x) = but_fields (hosts s !!! x).
Proof.
  intros Hid Hok. unfold Component_create, Component_default_create.
  destruct (Component___init___run cls h s Hid)
    as (s0 & Hinit & Hl0 & Hhosts0 & Hhd0 & Hof0 & Hn0).
  rewrite (bind_Ok _ _ _ _ _ Hinit).
  set (c := {| inst_id := next_id s; inst_class := cls |}).
  assert (Hloop : ∀ kw s1, forallb (assignable cls) kw = true →
            host_of s1 !! inst_id c = Some h →
            ∃ s2, for_each kw (λ kv, setattr c kv.1 kv.2) s1 = Ok tt s2
                  ∧ COMPONENT_LISTING s2 = COMPONENT_LISTING s1
                  ∧ handlers s2 = handlers s1
                  ∧ host_of s2 = host_of s1
                  ∧ next_id s2 = next_id s1
                  ∧ ∀ x, but_fields (hosts s2 !!! x) = but_fields (hosts s1 !!! x)).
  { clear. intros kw. induction kw as [|kv kw IH]; intros s1 Hok Hb; simpl.
    - by exists s1.
    - simpl in Hok. apply andb_true_iff in Hok as [Hkv Hok].
      destruct (setattr_run c h kv s1 Hb Hkv) as (s2 & Hrun & Hl & Hhd & Hof & Hn & Hh).
      rewrite (bind_Ok _ _ _ _ _ Hrun).
      destruct (IH s2 Hok) as (s3 & Hrun3 & Hl3 & Hhd3 & Hof3 & Hn3 & Hh3);
        [by rewrite Hof|].
      exists s3. split; [done|].
      rewrite Hl3, Hhd3, Hof3, Hn3. repeat split; try done.
      intros x. by rewrite Hh3. }
  destruct (Hloop kwargs s0 Hok) as (s1 & Hrun & Hl1 & Hhd1 & Hof1 & Hn1 & Hh1).
  { rewrite Hof0. apply lookup_insert_eq. }
  rewrite (bind_Ok _ _ _ _ _ Hrun). exists s1. split; [done|].
  rewrite Hl1, Hhd1, Hof1, Hn1. repeat split; try done.
  intros x. by rewrite Hh1, Hhosts0.
Qed.

Lemma add_frame (self : nat) (c : instance) (x : nat) (s : state) :
  let s' := final_state (ComponentHandler_add self c s) in
  COMPONENT_LISTING s' = COMPONENT_LISTING s
  ∧ next_id s' = next_id s
  ∧ _component_handler (hosts s' !!! x) = _component_handler (hosts s !!! x).
Proof.
  assert (K1 : keeps COMPONENT_LISTING (ComponentHandler_add self c)) by keeps_go.
  assert (K2 : keeps next_id (ComponentHandler_add self c)) by keeps_go.
  assert (K3 : keeps (λ s, _component_handler (hosts s !!! x))
                 (ComponentHandler_add self c)) by keeps_go.
  split; [apply K1|]. split; [apply K2 | apply K3].
Qed.

(** One turn of the loop of [basetype_setup]. *)
Lemma basetype_setup_body_run (h r : nat) (kv : string * list (string * pyval))
    (cls : klass) (s : state) :
  declares s kv cls →
  _component_handler (hosts s !!! h) = Some r →
  host (handlers s !!! r) = h →
  is_Some (_signal_handler (hosts s !!! h)) →
  let c := {| inst_id := next_id s; inst_class := cls |} in
  ∃ s', basetype_setup_body h kv s = Ok tt s'
        ∧ COMPONENT_LISTING s' = COMPONENT_LISTING s
        ∧ _component_handler (hosts s' !!! h) = Some r
        ∧ is_Some (_signal_handler (hosts s' !!! h))
        ∧ db_keys_view (hosts s' !!! h)
          = db_keys_view (hosts s !!! h) ++ [get_component_key cls]
        ∧ handlers s' !!! r
          = set_loaded (<[get_component_key cls := c]>
                          (<[get_component_slot cls := c]>
                             (_loaded_components (handlers s !!! r))))
              (handlers s !!! r)
        ∧ host_of s' = <[next_id s := h]> (host_of s)
        ∧ next_id s' = S (next_id s).
Proof.
  intros (Hcls & Hid & Hok) Hch Hh [g Hg] c.
  unfold basetype_setup_body, get_component_class.
  unfold bind at 1. unfold bind at 1, gets at 1. rewrite Hcls. unfold ret at 1.
  destruct (Component_create_run cls h kv.2 s Hid Hok)
    as (s1 & Hcreate & Hl1 & Hhd1 & Hof1 & Hn1 & Hhost1).
  rewrite (bind_Ok _ _ _ _ _ Hcreate). fold c.
  destruct (but_fields_eq _ _ (Hhost1 h)) as (Hview1 & Hsig1 & Hch1).
  assert (Hc1 : components h s1 = Ok (Some r) s1).
  { unfold components. run. by rewrite Hch1, Hch. }
  rewrite (bind_Ok _ _ _ _ _ Hc1).
  assert (Hh1 : host (handlers s1 !!! r) = h) by by rewrite Hhd1.
  assert (Hg1 : _signal_handler (hosts s1 !!! h) = Some g) by by rewrite Hsig1.
  assert (Hb1 : host_of s1 !! inst_id c = Some h)
    by (rewrite Hof1; apply lookup_insert_eq).
  destruct (ComponentHandler_add_bound r h c g s1 Hh1 Hg1 Hb1)
    as (s2 & Hadd & Hhd2 & Hof2 & Hview2 & Hsig2 & _).
  destruct (add_frame r c h s1) as (Hl2 & Hn2 & Hch2).
  rewrite Hadd in Hl2, Hn2, Hch2. simpl in Hl2, Hn2, Hch2.
  exists s2. split; [done|].
  rewrite Hl2, Hl1, Hch2, Hch1, Hsig2, Hview2, Hview1, Hhd2, Hhd1, Hof2, Hof1,
    Hn2, Hn1.
  repeat split; done.
Qed.

(** The loop over declarations that all resolve. *)
Lemma basetype_setup_loop (h r : nat) (l : list (string * list (string * pyval)))
    (clss : list klass) (s : state) :
  Forall2 (declares s) l clss →
  _component_handler (hosts s !!! h) = Some r →
  host (handlers s !!! r) = h →
  is_Some (_signal_handler (hosts s !!! h)) →
  ∃ s', for_each l (basetype_setup_body h) s = Ok tt s'
        ∧ COMPONENT_LISTING s' = COMPONENT_LISTING s
        ∧ _component_handler (hosts s' !!! h) = Some r
        ∧ is_Some (_signal_handler (hosts s' !!! h))
        ∧ db_keys_view (hosts s' !!! h)
          = db_keys_view (hosts s !!! h) ++ (get_component_key <$> clss)
        ∧ host (handlers s' !!! r) = h
        ∧ next_id s ≤ next_id s'
        ∧ (∀ i, i < next_id s → host_of s' !! i = host_of s !! i)
        ∧ (∀ i, next_id s ≤ i < next_id s' → host_of s' !! i = Some h)
        ∧ (∀ key, is_Some (_loaded_components (handlers s !!! r) !! key) →
                  is_Some (_loaded_components (handlers s' !!! r) !! key))
        ∧ (∀ key inst,
             _loaded_components (handlers s' !!! r) !! key = Some inst →
             _loaded_components (handlers s !!! r) !! key = Some inst
             ∨ (next_id s ≤ inst_id inst < next_id s' ∧ inst_class inst ∈ clss))
        ∧ (∀ cls, cls ∈ clss →
             is_Some (_loaded_components (handlers s' !!! r) !! get_component_key cls)
             ∧ is_Some (_loaded_components (handlers s' !!! r)
                          !! get_component_slot cls)).
Proof.
  intros Hdecl. revert clss s Hdecl.
  induction l as [|kv l IH]; intros clss s Hdecl Hch Hh Hsig.
  - apply Forall2_nil_inv_l in Hdecl as ->. exists s. simpl.
    split; [done|]. split; [done|]. split; [done|]. split; [done|].
    split; [by rewrite app_nil_r|]. split; [done|]. split; [lia|].
    split; [done|]. split; [intros i Hi; lia|]. split; [done|].
    split; [intros; by left|]. intros cls Hin. by apply not_elem_of_nil in Hin.
  - apply Forall2_cons_inv_l in Hdecl as (cls & clss' & Hkv & Hdecl & ->).
    destruct (basetype_setup_body_run h r kv cls s Hkv Hch Hh Hsig)
      as (s1 & Hrun & Hl1 & Hch1 & Hsig1 & Hview1 & Hhd1 & Hof1 & Hn1).
    assert (Hh1 : host (handlers s1 !!! r) = h) by by rewrite Hhd1.
    assert (Hdecl1 : Forall2 (declares s1) l clss').
    { eapply Forall2_impl; [exact Hdecl|]. intros kv' cls' (? & ? & ?).
      unfold declares. by rewrite Hl1. }
    destruct (IH clss' s1 Hdecl1 Hch1 Hh1 Hsig1)
      as (s' & Hloop & Hl' & Hch' & Hsig' & Hview' & Hh' & Hn' & Hold' & Hnew'
          & Hmono' & Hent' & Hdone').
    exists s'. simpl. rewrite (bind_Ok _ _ _ _ _ Hrun). split; [done|].
    rewrite Hn1 in Hn', Hold', Hnew', Hent'.
    split; [by rewrite Hl', Hl1|]. split; [done|]. split; [done|].
    split; [by rewrite Hview', Hview1, <- app_assoc|]. split; [done|].
    split; [lia|].
    split.
    { intros i Hi. rewrite Hold' by lia. rewrite Hof1.
      apply lookup_insert_ne. lia. }
    split.
    { intros i Hi. destruct (decide (i = next_id s)) as [->|Hne].
      - rewrite Hold' by lia. rewrite Hof1. apply lookup_insert_eq.
      - apply Hnew'. lia. }
    assert (Hcache1 : ∀ key,
              _loaded_components (handlers s1 !!! r) !! key
              = if decide (key = get_component_key cls
                           ∨ key = get_component_slot cls)
                then Some {| inst_id := next_id s; inst_class := cls |}
                else _loaded_components (handlers s !!! r) !! key).
    { intros key. rewrite Hhd1. simpl.
      destruct (decide (key = get_component_key cls)) as [->|Hk1].
      - rewrite lookup_insert_eq. by rewrite decide_True by by left.
      - rewrite lookup_insert_ne by done.
        destruct (decide (key = get_component_slot cls)) as [->|Hk2].
        + rewrite lookup_insert_eq. by rewrite decide_True by by right.
        + rewrite lookup_insert_ne by done.
          rewrite decide_False; [done|]. by intros [|]. }
    split.
    { intros key Hsome. apply Hmono'. rewrite Hcache1.
      destruct (decide _); [by eexists | done]. }
    split.
    { intros key inst Hin.
      destruct (Hent' key inst Hin) as [Hin1|(Hrange & Hc')].
      - rewrite Hcache1 in Hin1. destruct (decide _) as [_|_].
        + injection Hin1 as <-. right. simpl. split; [lia|]. by left.
        + by left.
      - right. split; [lia|]. by right. }
    intros cls' Hin. apply elem_of_cons in Hin as [->|Hin].
    + split; apply Hmono'; rewrite Hcache1.
      * rewrite decide_True by by left. by eexists.
      * rewrite decide_True by by right. by eexists.
    + by apply Hdone'.
Qed.



(** ** ComponentHandler.remove, where it stops *)

Lemma py_list_remove_absent (k : string) (l : list string) :
  k ∉ l → py_list_remove k l = None.
Proof.
  induction l as [|y l IH]; intros Hnotin; simpl; [done|].
  apply not_elem_of_cons in Hnotin as [Hne Hnotin].
  destruct (String.eqb_spec y k) as [->|_]; [done|]. by rewrite IH.
Qed.

(** [remove] of a cached instance bound to the host of the handler, up to
    the tag fields: the instance is unbound, the command set is off the
    host, and the "components" tag of the key is gone. *)
Lemma ComponentHandler_remove_prefix (self h : nat) (c : instance) (s : state) :
  host (handlers s !!! self) = h →
  is_Some (_loaded_components (handlers s !!! self)
             !! get_component_slot (inst_class c)) →
  host_of s !! inst_id c = Some h →
  ∃ sb, ComponentHandler_remove self c s
        = (for_each (_tag_fields (inst_class c))
             (λ nf, TagField___delete__ nf.2 c) ;;;
           host_signals h "remove_object_listeners_and_responders"
             (remove_object_listeners_and_responders c) ;;;
           db_keys_remove self (get_component_slot (inst_class c)) ;;;
           update_handler self
             (λ o, set_loaded (delete (get_component_slot (inst_class c))
                                 (_loaded_components o)) o)) sb
        ∧ handlers sb = handlers s
        ∧ host_of sb = delete (inst_id c) (host_of s)
        ∧ hosts sb !!! h
          = set_tags (tags_remove (PyStr (get_component_key (inst_class c)))
                        (Some "components") (tags (hosts s !!! h)))
              (cmdset_out c (cmdset_out c (hosts s !!! h))).
Proof.
  intros Hh Hcache Hbound. unfold ComponentHandler_remove.
  unfold bind at 1, read_handler at 1, gets at 1. rewrite Hh.
  unfold bind at 1, has_slot, read_handler at 1, gets at 1.
  rewrite bool_decide_eq_true_2 by done. simpl.
  unfold Component_at_removed, Component_host, Component_set_host,
    _remove_component_tags.
  unfold bind at 1. unfold bind at 1. unfold bind at 1, gets at 1.
  rewrite Hbound. rewrite decide_False by (intros Hne; by apply Hne).
  unfold cmdset_out. destruct (cmd_set (inst_class c)) as [cs|]; run;
    rewrite Hh; run; (eexists; split; [reflexivity|]); simpl;
    rewrite ?lookup_total_insert_eq; done.
Qed.

(** X22: [remove] of a cached instance whose class has a tag field never
    completes: by the time it deletes the tag field the instance has no
    host, so it raises [AttributeError]; the instance is left unbound and
    without its "components" tag, yet still cached and still in
    [db_keys]. *)
Theorem remove_with_tag_field (self : nat) (c : instance)
    (nf : string * TagField) (rest : list (string * TagField)) (s : state) :
  let h := host (handlers s !!! self) in
  _tag_fields (inst_class c) = nf :: rest →
  is_Some (_loaded_components (handlers s !!! self)
             !! get_component_slot (inst_class c)) →
  host_of s !! inst_id c = Some h →
  ∃ s', ComponentHandler_remove self c s = Raise (AttributeError "tags") s'
        ∧ Component_host c s' = Ok None s'
        ∧ handlers s' = handlers s
        ∧ db_keys_view (hosts s' !!! h) = db_keys_view (hosts s !!! h)
        ∧ tags (hosts s' !!! h)
          = tags_remove (PyStr (get_component_key (inst_class c)))
              (Some "components") (tags (hosts s !!! h)).
Proof.
  intros h Htf Hcache Hbound.
  destruct (ComponentHandler_remove_prefix self h c s eq_refl Hcache Hbound)
    as (sb & Hrm & Hhd & Hof & Hhost).
  exists sb. rewrite Hrm, Htf. split.
  { simpl. unfold TagField___delete__, instance_host_tags, Component_host. run.
    by rewrite Hof, lookup_delete_eq. }
  split.
  { unfold Component_host. run. by rewrite Hof, lookup_delete_eq. }
  split; [done|]. rewrite Hhost. split.
  - change (db_keys_view (cmdset_out c (cmdset_out c (hosts s !!! h)))
            = db_keys_view (hosts s !!! h)).
    by rewrite !(proj1 (cmdset_out_keeps _ _)).
  - unfold cmdset_out. by destruct (cmd_set (inst_class c)).
Qed.

Lemma remove_with_tag_field_witness :
  ∃ s', ComponentHandler_remove 1 aura_2
          (final_state (ComponentHandler_add 1 aura_2 bob_with_aura))
        = Raise (AttributeError "tags") s'
        ∧ Component_host aura_2 s' = Ok None s'
        ∧ handlers s' = handlers (final_state (ComponentHandler_add 1 aura_2 bob_with_aura))
        ∧ db_keys_view
            (hosts s' !!! host (handlers (final_state
                                            (ComponentHandler_add 1 aura_2 bob_with_aura))
                                !!! 1))
          = db_keys_view
              (hosts (final_state (ComponentHandler_add 1 aura_2 bob_with_aura))
               !!! host (handlers (final_state
                                     (ComponentHandler_add 1 aura_2 bob_with_aura))
                         !!! 1))
        ∧ tags (hosts s' !!! host (handlers (final_state
                                               (ComponentHandler_add 1 aura_2
                                                  bob_with_aura)) !!! 1))
          = tags_remove (PyStr (get_component_key (inst_class aura_2)))
              (Some "components")
              (tags (hosts (final_state (ComponentHandler_add 1 aura_2 bob_with_aura))
                     !!! host (handlers (final_state
                                           (ComponentHandler_add 1 aura_2 bob_with_aura))
                               !!! 1))).
Proof.
  apply (remove_with_tag_field 1 aura_2
           ("element", {| tag_category_key := Some "aura::element";
                          tag_default := PyStr "fire";
                          tag_enforce_single := true |}) []
           (final_state (ComponentHandler_add 1 aura_2 bob_with_aura))).
  - reflexivity.
  - vm_compute. by eexists.
  - vm_compute. reflexivity.
Defined.

(** X23: [remove] of a cached instance whose slot is not in [db_keys]
    (as after [add] of a class whose key differs from its slot) raises
    [ValueError] from the list removal, after it has unbound the instance,
    taken its listeners off the signals and removed its "components" tag;
    the cache and [db_keys] are left as they were. *)
Theorem remove_slot_not_persisted (self : nat) (c : instance) (g : signals_obj)
    (s : state) :
  let h := host (handlers s !!! self) in
  _tag_fields (inst_class c) = [] →
  is_Some (_loaded_components (handlers s !!! self)
             !! get_component_slot (inst_class c)) →
  host_of s !! inst_id c = Some h →
  _signal_handler (hosts s !!! h) = Some g →
  get_component_slot (inst_class c) ∉ db_keys_view (hosts s !!! h) →
  ∃ s', ComponentHandler_remove self c s
        = Raise (ValueError "list.remove(x): x not in list") s'
        ∧ Component_host c s' = Ok None s'
        ∧ handlers s' = handlers s
        ∧ db_keys_view (hosts s' !!! h) = db_keys_view (hosts s !!! h)
        ∧ _signal_handler (hosts s' !!! h)
          = Some (remove_object_listeners_and_responders c g)
        ∧ tags (hosts s' !!! h)
          = tags_remove (PyStr (get_component_key (inst_class c)))
              (Some "components") (tags (hosts s !!! h)).
Proof.
  intros h Htf Hcache Hbound Hg Hnotin.
  destruct (ComponentHandler_remove_prefix self h c s eq_refl Hcache Hbound)
    as (sb & Hrm & Hhd & Hof & Hhost).
  rewrite Hrm, Htf. simpl. unfold bind at 1, ret at 1.
  assert (Hg_b : _signal_handler (hosts sb !!! h) = Some g).
  { rewrite Hhost. simpl. by rewrite !(proj2 (proj2 (cmdset_out_keeps _ _))). }
  destruct (host_signals_run h "remove_object_listeners_and_responders"
              (remove_object_listeners_and_responders c) g sb Hg_b)
    as (sd & Hrun_d & Hhd_d & Hof_d & Hhost_d).
  rewrite (bind_Ok _ _ _ _ _ Hrun_d).
  assert (Hh_d : host (handlers sd !!! self) = h) by by rewrite Hhd_d, Hhd.
  assert (Hview_d : db_keys_view (hosts sd !!! h) = db_keys_view (hosts s !!! h)).
  { rewrite Hhost_d, Hhost.
    change (db_keys_view (cmdset_out c (cmdset_out c (hosts s !!! h)))
            = db_keys_view (hosts s !!! h)).
    by rewrite !(proj1 (cmdset_out_keeps _ _)). }
  destruct (db_keys_run self h sd Hh_d) as (se & Hrun_e & Hhd_e & Hof_e & Hhost_e).
  exists se. split.
  { unfold bind at 1, db_keys_remove. rewrite (bind_Ok _ _ _ _ _ Hrun_e).
    unfold bind, read_handler, gets. rewrite Hview_d.
    by rewrite (py_list_remove_absent _ _ Hnotin). }
  split.
  { unfold Component_host. run. by rewrite Hof_e, Hof_d, Hof, lookup_delete_eq. }
  split; [by rewrite Hhd_e, Hhd_d, Hhd|].
  rewrite Hhost_e. unfold db_keys_view at 1. simpl. split; [done|].
  rewrite Hhost_d, Hhost. unfold cmdset_out.
  by destruct (cmd_set (inst_class c)).
Qed.

Lemma remove_slot_not_persisted_witness :
  ∃ s', ComponentHandler_remove 1 health_2
          (final_state (ComponentHandler_add 1 health_2 bob_with_health))
        = Raise (ValueError "list.remove(x): x not in list") s'
        ∧ Component_host health_2 s' = Ok None s'
        ∧ handlers s'
          = handlers (final_state (ComponentHandler_add 1 health_2 bob_with_health))
        ∧ db_keys_view
            (hosts s' !!! host (handlers (final_state
                                            (ComponentHandler_add 1 health_2
                                               bob_with_health)) !!! 1))
          = db_keys_view
              (hosts (final_state (ComponentHandler_add 1 health_2 bob_with_health))
               !!! host (handlers (final_state
                                     (ComponentHandler_add 1 health_2 bob_with_health))
                         !!! 1))
        ∧ _signal_handler
            (hosts s' !!! host (handlers (final_state
                                            (ComponentHandler_add 1 health_2
                                               bob_with_health)) !!! 1))
          = Some (remove_object_listeners_and_responders health_2
                    {| listeners := [2]; triggered := [] |})
        ∧ tags (hosts s' !!! host (handlers (final_state
                                               (ComponentHandler_add 1 health_2
                                                  bob_with_health)) !!! 1))
          = tags_remove (PyStr (get_component_key (inst_class health_2)))
              (Some "components")
              (tags (hosts (final_state (ComponentHandler_add 1 health_2 bob_with_health))
                     !!! host (handlers (final_state
                                           (ComponentHandler_add 1 health_2
                                              bob_with_health)) !!! 1))).
Proof.
  apply (remove_slot_not_persisted 1 health_2 {| listeners := [2]; triggered := [] |}
           (final_state (ComponentHandler_add 1 health_2 bob_with_health))).
  - reflexivity.
  - vm_compute. by eexists.
  - vm_compute. reflexivity.
  - vm_compute. reflexivity.
  - apply (bool_decide_unpack _). vm_compute. exact I.
Defined.

(** ** The persisted list *)

(** X24: on a host that has no [component_keys] yet, the first read of
    [db_keys] gives the legacy [component_names] (or the empty list) and
    persists that list as [component_keys], leaving the legacy attribute in
    place; every later read gives the same list and changes nothing. *)
Theorem db_keys_migrates_legacy (self : nat) (s : state) :
  let h := host (handlers s !!! self) in
  component_keys (hosts s !!! h) = None →
  ∃ s', db_keys self s = Ok (default [] (component_names (hosts s !!! h))) s'
        ∧ component_keys (hosts s' !!! h)
          = Some (default [] (component_names (hosts s !!! h)))
        ∧ component_names (hosts s' !!! h) = component_names (hosts s !!! h)
        ∧ db_keys self s' = Ok (default [] (component_names (hosts s !!! h))) s'.
Proof.
  intros h Hnone.
  destruct (db_keys_run self h s eq_refl) as (s' & Hrun & Hhd & Hof & Hhost).
  assert (Hview : db_keys_view (hosts s !!! h)
                  = default [] (component_names (hosts s !!! h))).
  { unfold db_keys_view. rewrite Hnone.
    by destruct (component_names (hosts s !!! h)) as [[|??]|]. }
  rewrite Hview in Hrun, Hhost.
  exists s'. split; [done|]. rewrite Hhost. simpl. split; [done|]. split; [done|].
  unfold db_keys. run. rewrite Hhd. fold h. rewrite Hhost. by simpl.
Qed.

Lemma db_keys_migrates_legacy_witness :
  ∃ s', db_keys 1 legacy_state
        = Ok (default [] (component_names
                            (hosts legacy_state !!! host (handlers legacy_state !!! 1))))
            s'
        ∧ component_keys (hosts s' !!! host (handlers legacy_state !!! 1))
          = Some (default [] (component_names
                                (hosts legacy_state
                                 !!! host (handlers legacy_state !!! 1))))
        ∧ component_names (hosts s' !!! host (handlers legacy_state !!! 1))
          = component_names (hosts legacy_state !!! host (handlers legacy_state !!! 1))
        ∧ db_keys 1 s'
          = Ok (default [] (component_names
                              (hosts legacy_state
                               !!! host (handlers legacy_state !!! 1)))) s'.
Proof. apply (db_keys_migrates_legacy 1 legacy_state). reflexivity. Defined.

(** ** add_default, then remove_by_slot_key *)

(** X25: for a listed class with an identity, the same key and slot and no
    tag fields, on a host that has its signals and does not yet have the
    key in [db_keys], [add_default] followed by [remove_by_slot_key] of the
    slot returns: [db_keys] is what it was, the slot and the key are out of
    the cache, and the instance that was made has no host. *)
Theorem add_default_then_remove_by_slot_key (self : nat) (key : string)
    (cls : klass) (g : signals_obj) (s : state) :
  let h := host (handlers s !!! self) in
  let c := {| inst_id := next_id s; inst_class := cls |} in
  COMPONENT_LISTING s !! Some key = Some cls →
  has_identity cls = true →
  component_key cls = component_slot cls →
  _tag_fields cls = [] →
  _signal_handler (hosts s !!! h) = Some g →
  get_component_key cls ∉ db_keys_view (hosts s !!! h) →
  ∃ s', (add_default self key ;;;
         remove_by_slot_key self (get_component_slot cls)) s = Ok tt s'
        ∧ db_keys_view (hosts s' !!! h) = db_keys_view (hosts s !!! h)
        ∧ get_by_key self (get_component_key cls) s' = Ok None s'
        ∧ has_slot self (get_component_slot cls) s' = Ok false s'
        ∧ Component_host c s' = Ok None s'.
Proof.
  intros h c Hcls Hid Hsame Htf Hg Hfresh.
  assert (HKS : get_component_slot cls = get_component_key cls).
  { unfold get_component_key, get_component_slot. by rewrite Hsame. }
  (* add_default *)
  assert (Hadd : ∃ s1, add_default self key s = Ok tt s1
            ∧ handlers s1 !!! self
              = set_loaded (<[get_component_key cls := c]>
                              (<[get_component_slot cls := c]>
                                 (_loaded_components (handlers s !!! self))))
                  (handlers s !!! self)
            ∧ host_of s1 !! inst_id c = Some h
            ∧ db_keys_view (hosts s1 !!! h)
              = db_keys_view (hosts s !!! h) ++ [get_component_key cls]
            ∧ is_Some (_signal_handler (hosts s1 !!! h))).
  { unfold add_default, get_component_class.
    unfold bind at 1. unfold bind at 1, gets at 1. rewrite Hcls.
    unfold ret at 1, bind at 1, read_handler at 1, gets at 1.
    destruct (Component___init___run cls h s Hid)
      as (s0 & Hinit & _ & Hhosts0 & Hhd0 & Hof0 & _).
    unfold Component_default_create. fold h. rewrite (bind_Ok _ _ _ _ _ Hinit).
    fold c.
    assert (Hh0 : host (handlers s0 !!! self) = h) by by rewrite Hhd0.
    assert (Hg0 : _signal_handler (hosts s0 !!! h) = Some g) by by rewrite Hhosts0.
    assert (Hb0 : host_of s0 !! inst_id c = Some h)
      by (rewrite Hof0; apply lookup_insert_eq).
    destruct (ComponentHandler_add_bound self h c g s0 Hh0 Hg0 Hb0)
      as (s1 & Hadd & Hhd & Hof & Hview & Hsig & _).
    exists s1. split; [done|]. rewrite Hhd, Hhd0, Hof, Hview, Hhosts0, Hsig.
    repeat split; done. }
  destruct Hadd as (s1 & Hadd & Hhd1 & Hb1 & Hview1 & [g1 Hg1]).
  rewrite (bind_Ok _ _ _ _ _ Hadd).
  assert (Hh1 : host (handlers s1 !!! self) = h) by by rewrite Hhd1.
  assert (Hcached : _loaded_components (handlers s1 !!! self)
                      !! get_component_slot cls = Some c).
  { rewrite Hhd1, HKS. simpl. apply lookup_insert_eq. }
  destruct (ComponentHandler_remove_run self h c g1 (db_keys_view (hosts s !!! h)) s1)
    as (s2 & Hrm & Hhd2 & Hof2 & Hview2 & _).
  { done. }
  { done. }
  { change (inst_class c) with cls. rewrite Hcached. by eexists. }
  { done. }
  { done. }
  { change (inst_class c) with cls. rewrite Hview1, HKS.
    by apply py_list_remove_app_fresh. }
  exists s2. split.
  { unfold remove_by_slot_key, get_by_slot.
    unfold bind at 1, read_handler at 1, gets at 1. by rewrite Hcached. }
  split; [done|]. simpl in Hhd2, Hof2. rewrite HKS in Hhd2 |- *.
  unfold get_by_key, has_slot, Component_host. run. rewrite Hhd2, Hof2. simpl.
  by rewrite lookup_delete_eq.
Qed.

Lemma add_default_then_remove_by_slot_key_witness :
  ∃ s', (add_default 1 "mana" ;;; remove_by_slot_key 1 (get_component_slot Mana))
          (with_listing (λ _, {[ Some "mana" := Mana ]}) bob_ready) = Ok tt s'
        ∧ db_keys_view
            (hosts s' !!! host (handlers (with_listing (λ _, {[ Some "mana" := Mana ]})
                                            bob_ready) !!! 1))
          = db_keys_view
              (hosts (with_listing (λ _, {[ Some "mana" := Mana ]}) bob_ready)
               !!! host (handlers (with_listing (λ _, {[ Some "mana" := Mana ]})
                                     bob_ready) !!! 1))
        ∧ get_by_key 1 (get_component_key Mana) s' = Ok None s'
        ∧ has_slot 1 (get_component_slot Mana) s' = Ok false s'
        ∧ Component_host
            {| inst_id := next_id (with_listing (λ _, {[ Some "mana" := Mana ]}) bob_ready);
               inst_class := Mana |} s' = Ok None s'.
Proof.
  apply (add_default_then_remove_by_slot_key 1 "mana" Mana
           {| listeners := []; triggered := [] |}
           (with_listing (λ _, {[ Some "mana" := Mana ]}) bob_ready));
    try reflexivity.
  apply (bool_decide_unpack _). vm_compute. exact I.
Defined.

(** ** Component.create *)


